(** * The input engine of yuzu's input_common: a shallow embedding

    Source: src/input_common/input_engine.cpp.

    The engine is a table of controller state keyed by pad identifier, a
    registry of listener subscriptions keyed by an integer, one mapping
    observer and a mode flag.  Every member function of [InputEngine] is
    embedded as a computation in a small monad that threads the engine
    object, collects what the function makes observable (log lines and
    callback invocations) and can end with a C++ exception.

    The two mutexes are not modelled: the embedding is the sequential
    behaviour of one call at a time.  User callbacks are opaque: invoking
    one is recorded in the trace and does not re-enter the engine. *)

From Stdlib Require Import ZArith List Bool Lia.
From Stdlib Require Import Floats.SpecFloat.
From stdpp Require Import base option list gmap strings.

Open Scope Z_scope.
#[local] Set Warnings "-clear-no-such-hyp".

(** ** Scalars *)

(** [f32] is IEEE-754 binary32: 24 bits of precision, maximal exponent 128. *)
Abbreviation f32 := spec_float (only parsing).
Definition f32_sub (x y : f32) : f32 := SFsub 24 128 x y.
Definition f32_abs (x : f32) : f32 := SFabs x.
Definition f32_lt (x y : f32) : bool := SFltb x y.

(** The literals of the source: [0.0f], [0.5f], [0.6f] and [1.5f]. *)
Definition f32_zero : f32 := S754_zero false.
Definition f32_0_5 : f32 := S754_finite false 8388608 (-24).
Definition f32_0_6 : f32 := S754_finite false 10066330 (-24).
Definition f32_1_5 : f32 := S754_finite false 12582912 (-23).

(** [u8]: an 8-bit unsigned integer, held in [Z]. *)
Abbreviation u8 := Z (only parsing).
Definition to_u8 (z : Z) : u8 := z mod 256.

(** [std::size_t] is 64 bits wide; [<<=] drops what is shifted out. *)
Definition size_t_shl1 (z : Z) : Z := Z.shiftl z 1 mod 2 ^ 64.

Definition INT_MAX : Z := 2147483647.
Definition INT_MIN : Z := -2147483648.

(** [int] is 32 bits wide, in two's complement: the value an [int] holds
    after an operation whose result is [z]. *)
Definition to_int (z : Z) : Z := (z + 2 ^ 31) mod 2 ^ 32 - 2 ^ 31.

(** A [std::function] is named by a number; [None] is the empty function. *)
Abbreviation callable := nat (only parsing).

(** ** Data model *)

Module InputCommon.

(** Modelled from the spec: the declaration of [PadIdentifier] (in
    input_engine.h) is missing.  A device identity is the tuple of a
    device GUID, a pad index and a port index, compared structurally. *)
Record PadIdentifier : Type := mkPad { guid : N; port : N; pad : N }.

#[global] Instance PadIdentifier_eq_dec : EqDecision PadIdentifier.
Proof. solve_decision. Defined.

#[global] Instance PadIdentifier_countable : Countable PadIdentifier :=
  inj_countable'
    (fun p => (guid p, port p, pad p))
    (fun t => mkPad t.1.1 t.1.2 t.2)
    (fun p => match p with mkPad _ _ _ => eq_refl end).

(** Modelled from the spec: the declaration of [BasicMotion] is missing.
    A motion sample has three accelerometer and three gyroscope
    components; the field names are the ones the source reads. *)
Record BasicMotion : Type := mkMotion {
  gyro_x : f32; gyro_y : f32; gyro_z : f32;
  accel_x : f32; accel_y : f32; accel_z : f32
}.

(** [BasicMotion{}]: every component zero. *)
Definition BasicMotion_zero : BasicMotion :=
  mkMotion f32_zero f32_zero f32_zero f32_zero f32_zero f32_zero.

(** Modelled from the spec: the declaration of [BatteryLevel] is missing.
    It is an enumeration of charge levels plus a charging level; the
    source names only [Charging]. *)
Inductive BatteryLevel : Type :=
  Empty | Critical | Low | Medium | Full | Charging.

(** Modelled from the spec: the declaration of [EngineInputType] is
    missing.  The kinds are the five the source dispatches on. *)
Inductive EngineInputType : Type :=
  Button | HatButton | Analog | Motion | Battery.

#[global] Instance EngineInputType_eq_dec : EqDecision EngineInputType.
Proof. solve_decision. Defined.

(** Modelled from the spec: [ControllerData] is declared in the missing
    header.  One record per device, with a map per kind of input and one
    battery level. *)
Record ControllerData : Type := mkController {
  buttons : gmap Z bool;
  hat_buttons : gmap Z u8;
  axes : gmap Z f32;
  motions : gmap Z BasicMotion;
  battery : BatteryLevel
}.

(** [ControllerData{}], what [try_emplace(identifier)] constructs. *)
Definition ControllerData_new : ControllerData :=
  mkController ∅ ∅ ∅ ∅ Empty.

Definition with_buttons (f : gmap Z bool -> gmap Z bool) (c : ControllerData) :=
  mkController (f (buttons c)) (hat_buttons c) (axes c) (motions c) (battery c).
Definition with_hat_buttons (f : gmap Z u8 -> gmap Z u8) (c : ControllerData) :=
  mkController (buttons c) (f (hat_buttons c)) (axes c) (motions c) (battery c).
Definition with_axes (f : gmap Z f32 -> gmap Z f32) (c : ControllerData) :=
  mkController (buttons c) (hat_buttons c) (f (axes c)) (motions c) (battery c).
Definition with_motions (f : gmap Z BasicMotion -> gmap Z BasicMotion)
    (c : ControllerData) :=
  mkController (buttons c) (hat_buttons c) (axes c) (f (motions c)) (battery c).
Definition with_battery (b : BatteryLevel) (c : ControllerData) :=
  mkController (buttons c) (hat_buttons c) (axes c) (motions c) b.

(** Modelled from the spec: [UpdateCallback], [MappingCallback],
    [InputIdentifier] and [MappingData] are declared in the missing
    header.  A subscription is a device identity, an input kind, an input
    index and an optional notifier; a mapping event carries the engine
    name, the device, the kind, the index and one payload per kind. *)
Record UpdateCallback : Type := mkUpdate { on_change : option callable }.
Record MappingCallback : Type := mkMapping { on_data : option callable }.

Record InputIdentifier : Type := mkInput {
  identifier : PadIdentifier;
  type : EngineInputType;
  index : Z;
  callback : UpdateCallback
}.

Record MappingData : Type := mkData {
  md_engine : string;
  md_pad : PadIdentifier;
  md_type : EngineInputType;
  md_index : Z;
  md_button_value : bool;
  md_hat_name : string;
  md_axis_value : f32;
  md_motion_value : BasicMotion
}.

(** The data members of [InputEngine].  [GetHatButtonName] is a virtual
    member function declared in the missing header: the object carries the
    implementation of its dynamic type. *)
Record InputEngine : Type := mkEngine {
  GetHatButtonName : u8 -> string;
  configuring : bool;
  input_engine : string;
  last_callback_key : Z;
  controller_list : gmap PadIdentifier ControllerData;
  callback_list : gmap Z InputIdentifier;
  mapping_callback : MappingCallback
}.

(** Modelled from the spec: the constructor is in the missing header.
    The mode starts normal, the key counter at 0, the tables empty. *)
Definition InputEngine_new (hat_name : u8 -> string) (name : string)
    : InputEngine :=
  mkEngine hat_name false name 0 ∅ ∅ (mkMapping None).

Definition set_configuring (b : bool) (e : InputEngine) : InputEngine :=
  mkEngine (GetHatButtonName e) b (input_engine e) (last_callback_key e) (controller_list e)
    (callback_list e) (mapping_callback e).
Definition set_last_callback_key (k : Z) (e : InputEngine) : InputEngine :=
  mkEngine (GetHatButtonName e) (configuring e) (input_engine e) k (controller_list e)
    (callback_list e) (mapping_callback e).
Definition set_controller_list (m : gmap PadIdentifier ControllerData)
    (e : InputEngine) : InputEngine :=
  mkEngine (GetHatButtonName e) (configuring e) (input_engine e) (last_callback_key e) m
    (callback_list e) (mapping_callback e).
Definition set_callback_list (m : gmap Z InputIdentifier) (e : InputEngine)
    : InputEngine :=
  mkEngine (GetHatButtonName e) (configuring e) (input_engine e) (last_callback_key e)
    (controller_list e) m (mapping_callback e).
Definition set_mapping_callback (c : MappingCallback) (e : InputEngine)
    : InputEngine :=
  mkEngine (GetHatButtonName e) (configuring e) (input_engine e) (last_callback_key e)
    (controller_list e) (callback_list e) c.

(** ** The standard containers' operations *)

(** [m.try_emplace(k, v)]: inserts only when [k] is absent. *)
Definition try_emplace `{Countable K} {V} (k : K) (v : V) (m : gmap K V)
    : gmap K V :=
  match m !! k with
  | Some _ => m
  | None => <[k:=v]> m
  end.

(** [m.insert_or_assign(k, v)]. *)
Definition insert_or_assign `{Countable K} {V} (k : K) (v : V) (m : gmap K V)
    : gmap K V :=
  <[k:=v]> m.

(** ** Observable effects *)

(** What a call makes observable, in order: the [LOG_ERROR] lines, the
    listener notifiers it invokes (with the key of the subscription) and
    the events it hands to the mapping observer. *)
Inductive Event : Type :=
| LogInvalidIdentifier (id : PadIdentifier)
| LogInvalidButton (button : Z)
| LogInvalidHatButton (button : Z)
| LogInvalidAxis (axis : Z)
| LogNonExistentCallback (key : Z)
| CallOnChange (key : Z) (f : callable)
| CallOnData (f : callable) (d : MappingData).

(** How a call ends. [std_out_of_range] is what [unordered_map::at]
    throws. *)
Inductive exception : Type := std_out_of_range.

Inductive outcome (A : Type) : Type :=
| Ok (a : A)
| Throw (x : exception)
| OutOfFuel.
Arguments Ok {A} a.
Arguments Throw {A} x.
Arguments OutOfFuel {A}.

(** A member function: from the engine before the call to how the call
    ends, the engine after it and the trace. *)
Definition M (A : Type) : Type :=
  InputEngine -> outcome A * InputEngine * list Event.

Definition ret {A} (a : A) : M A := fun e => (Ok a, e, []).

Definition bind {A B} (m : M A) (k : A -> M B) : M B := fun e =>
  match m e with
  | (Ok a, e1, t1) =>
      match k a e1 with
      | (r, e2, t2) => (r, e2, t1 ++ t2)
      end
  | (Throw x, e1, t1) => (Throw x, e1, t1)
  | (OutOfFuel, e1, t1) => (OutOfFuel, e1, t1)
  end.

Notation "x <- m ;; k" := (bind m (fun x => k))
  (at level 90, m at level 89, right associativity).
Notation "m ;;; k" := (bind m (fun _ => k))
  (at level 90, right associativity).

Definition gets {A} (f : InputEngine -> A) : M A := fun e => (Ok (f e), e, []).
Definition modify (f : InputEngine -> InputEngine) : M unit :=
  fun e => (Ok tt, f e, []).
Definition emit (ev : Event) : M unit := fun e => (Ok tt, e, [ev]).
Definition throw {A} (x : exception) : M A := fun e => (Throw x, e, []).
Definition out_of_fuel {A} : M A := fun e => (OutOfFuel, e, []).

(** A range-based [for] over the elements a container holds on entry. *)
Fixpoint for_each {X} (l : list X) (body : X -> M unit) : M unit :=
  match l with
  | [] => ret tt
  | x :: l' => body x ;;; for_each l' body
  end.

Definition outcome_of {A} (r : outcome A * InputEngine * list Event) := r.1.1.
Definition engine_of {A} (r : outcome A * InputEngine * list Event) := r.1.2.
Definition trace_of {A} (r : outcome A * InputEngine * list Event) := r.2.


(** ** The member functions *)

(** [controller_list.at(identifier)]: throws when the key is absent. *)
Definition controller_at (id : PadIdentifier) : M ControllerData := fun e =>
  match controller_list e !! id with
  | Some c => (Ok c, e, [])
  | None => (Throw std_out_of_range, e, [])
  end.

(** A write through the reference that [at] returned. *)
Definition controller_update (id : PadIdentifier)
    (f : ControllerData -> ControllerData) : M unit :=
  modify (fun e =>
    set_controller_list (alter f id (controller_list e)) e).

Definition PreSetController (id : PadIdentifier) : M unit :=
  modify (fun e =>
    set_controller_list (try_emplace id ControllerData_new (controller_list e)) e).

Definition PreSetButton (id : PadIdentifier) (button : Z) : M unit :=
  _ <- controller_at id ;;
  controller_update id (with_buttons (try_emplace button false)).

Definition PreSetHatButton (id : PadIdentifier) (button : Z) : M unit :=
  _ <- controller_at id ;;
  controller_update id (with_hat_buttons (try_emplace button 0)).

Definition PreSetAxis (id : PadIdentifier) (axis : Z) : M unit :=
  _ <- controller_at id ;;
  controller_update id (with_axes (try_emplace axis f32_zero)).

Definition PreSetMotion (id : PadIdentifier) (motion : Z) : M unit :=
  _ <- controller_at id ;;
  controller_update id (with_motions (try_emplace motion BasicMotion_zero)).

Definition GetButton (id : PadIdentifier) (button : Z) : M bool :=
  cl <- gets controller_list ;;
  match cl !! id with
  | None => emit (LogInvalidIdentifier id) ;;; ret false
  | Some controller =>
      match buttons controller !! button with
      | None => emit (LogInvalidButton button) ;;; ret false
      | Some v => ret v
      end
  end.

Definition GetHatButton (id : PadIdentifier) (button : Z) (direction : u8)
    : M bool :=
  cl <- gets controller_list ;;
  match cl !! id with
  | None => emit (LogInvalidIdentifier id) ;;; ret false
  | Some controller =>
      match hat_buttons controller !! button with
      | None => emit (LogInvalidHatButton button) ;;; ret false
      | Some v => ret (negb (Z.land v direction =? 0))
      end
  end.

Definition GetAxis (id : PadIdentifier) (axis : Z) : M f32 :=
  cl <- gets controller_list ;;
  match cl !! id with
  | None => emit (LogInvalidIdentifier id) ;;; ret f32_zero
  | Some controller =>
      match axes controller !! axis with
      | None => emit (LogInvalidAxis axis) ;;; ret f32_zero
      | Some v => ret v
      end
  end.

Definition GetBattery (id : PadIdentifier) : M BatteryLevel :=
  cl <- gets controller_list ;;
  match cl !! id with
  | None => emit (LogInvalidIdentifier id) ;;; ret Charging
  | Some controller => ret (battery controller)
  end.

Definition GetMotion (id : PadIdentifier) (motion : Z) : M BasicMotion :=
  cl <- gets controller_list ;;
  match cl !! id with
  | None => emit (LogInvalidIdentifier id) ;;; ret BasicMotion_zero
  | Some controller =>
      match motions controller !! motion with
      | None => throw std_out_of_range
      | Some v => ret v
      end
  end.

Definition GetEngineName : M string := gets input_engine.

Definition IsInputIdentifierEqual (input_identifier : InputIdentifier)
    (id : PadIdentifier) (ty : EngineInputType) (idx : Z) : bool :=
  if bool_decide (type input_identifier ≠ ty) then false
  else if bool_decide (index input_identifier ≠ idx) then false
  else if bool_decide (identifier input_identifier ≠ id) then false
  else true.

(** The loop over [callback_list] that opens every [TriggerOn...Change]:
    each subscription equal to the event has its notifier invoked, when it
    has one.  The order is the container's. *)
Definition notify_pollers (id : PadIdentifier) (ty : EngineInputType)
    (idx : Z) : M unit :=
  cbs <- gets callback_list ;;
  for_each (map_to_list cbs) (fun poller_pair =>
    let poller := poller_pair.2 in
    if negb (IsInputIdentifierEqual poller id ty idx) then ret tt
    else match on_change (callback poller) with
         | Some f => emit (CallOnChange poller_pair.1 f)
         | None => ret tt
         end).

(** [if (!configuring || !mapping_callback.on_data) return;]: [None] when
    the function returns there, the observer to call otherwise. *)
Definition mapping_observer : M (option callable) :=
  cfg <- gets configuring ;;
  mc <- gets mapping_callback ;;
  ret (if negb cfg then None else on_data mc).

Definition TriggerOnButtonChange (id : PadIdentifier) (button : Z)
    (value : bool) : M unit :=
  notify_pollers id Button button ;;;
  observer <- mapping_observer ;;
  match observer with
  | Some f =>
        PreSetButton id button ;;;
        cur <- GetButton id button ;;
        if Bool.eqb value cur then ret tt
        else
          name <- GetEngineName ;;
          emit (CallOnData f
            (mkData name id Button button value EmptyString f32_zero BasicMotion_zero))
  | None => ret tt
  end.

(** The body and the step of
    [for (std::size_t index = 1; index < 0xff; index <<= 1)]. *)
Fixpoint hat_loop (fuel : nat) (f : callable) (id : PadIdentifier)
    (button : Z) (value : u8) (idx : Z) : M unit :=
  match fuel with
  | O => out_of_fuel
  | S fuel' =>
      if idx <? 255 then
        let button_value := negb (Z.land value idx =? 0) in
        cur <- GetHatButton id button (to_u8 idx) ;;
        (if Bool.eqb button_value cur then ret tt
         else
           name <- GetEngineName ;;
           hat <- gets (fun e => GetHatButtonName e (to_u8 idx)) ;;
           emit (CallOnData f
             (mkData name id HatButton button false hat f32_zero
                BasicMotion_zero))) ;;;
        hat_loop fuel' f id button value (size_t_shl1 idx)
      else ret tt
  end.

Definition TriggerOnHatButtonChange (id : PadIdentifier) (button : Z)
    (value : u8) : M unit :=
  notify_pollers id HatButton button ;;;
  observer <- mapping_observer ;;
  match observer with
  | Some f => hat_loop 64 f id button value 1
  | None => ret tt
  end.

Definition TriggerOnAxisChange (id : PadIdentifier) (axis : Z) (value : f32)
    : M unit :=
  notify_pollers id Analog axis ;;;
  observer <- mapping_observer ;;
  match observer with
  | Some f =>
        cur <- GetAxis id axis ;;
        if f32_lt (f32_abs (f32_sub value cur)) f32_0_5 then ret tt
        else
          name <- GetEngineName ;;
          emit (CallOnData f
            (mkData name id Analog axis false EmptyString value BasicMotion_zero))
  | None => ret tt
  end.

Definition TriggerOnBatteryChange (id : PadIdentifier) (value : BatteryLevel)
    : M unit :=
  notify_pollers id Battery 0.

Definition TriggerOnMotionChange (id : PadIdentifier) (motion : Z)
    (value : BasicMotion) : M unit :=
  notify_pollers id Motion motion ;;;
  observer <- mapping_observer ;;
  match observer with
  | Some f =>
        let is_active :=
          (f32_lt f32_1_5 (f32_abs (accel_x value))
           || f32_lt f32_1_5 (f32_abs (accel_y value))
           || f32_lt f32_1_5 (f32_abs (accel_z value)))
          || (f32_lt f32_0_6 (f32_abs (gyro_x value))
              || f32_lt f32_0_6 (f32_abs (gyro_y value))
              || f32_lt f32_0_6 (f32_abs (gyro_z value))) in
        if negb is_active then ret tt
        else
          name <- GetEngineName ;;
          emit (CallOnData f
            (mkData name id Motion motion false EmptyString f32_zero value))
  | None => ret tt
  end.

Definition SetButton (id : PadIdentifier) (button : Z) (value : bool)
    : M unit :=
  _ <- controller_at id ;;
  cfg <- gets configuring ;;
  (if negb cfg
   then controller_update id (with_buttons (insert_or_assign button value))
   else ret tt) ;;;
  TriggerOnButtonChange id button value.

Definition SetHatButton (id : PadIdentifier) (button : Z) (value : u8)
    : M unit :=
  _ <- controller_at id ;;
  cfg <- gets configuring ;;
  (if negb cfg
   then controller_update id (with_hat_buttons (insert_or_assign button value))
   else ret tt) ;;;
  TriggerOnHatButtonChange id button value.

Definition SetAxis (id : PadIdentifier) (axis : Z) (value : f32) : M unit :=
  _ <- controller_at id ;;
  cfg <- gets configuring ;;
  (if negb cfg
   then controller_update id (with_axes (insert_or_assign axis value))
   else ret tt) ;;;
  TriggerOnAxisChange id axis value.

Definition SetBattery (id : PadIdentifier) (value : BatteryLevel) : M unit :=
  _ <- controller_at id ;;
  cfg <- gets configuring ;;
  (if negb cfg
   then controller_update id (with_battery value)
   else ret tt) ;;;
  TriggerOnBatteryChange id value.

Definition SetMotion (id : PadIdentifier) (motion : Z) (value : BasicMotion)
    : M unit :=
  _ <- controller_at id ;;
  cfg <- gets configuring ;;
  (if negb cfg
   then controller_update id (with_motions (insert_or_assign motion value))
   else ret tt) ;;;
  TriggerOnMotionChange id motion value.

(** The range-based loops visit the entries the tables hold on entry: the
    [Set] calls in their bodies assign to keys that are present and insert
    none. *)
Definition ResetButtonState : M unit :=
  cl <- gets controller_list ;;
  for_each (map_to_list cl) (fun controller =>
    for_each (map_to_list (buttons controller.2)) (fun button =>
      SetButton controller.1 button.1 false) ;;;
    for_each (map_to_list (hat_buttons controller.2)) (fun button =>
      SetHatButton controller.1 button.1 0)).

Definition ResetAnalogState : M unit :=
  cl <- gets controller_list ;;
  for_each (map_to_list cl) (fun controller =>
    for_each (map_to_list (axes controller.2)) (fun axis =>
      SetAxis controller.1 axis.1 f32_zero)).

Definition BeginConfiguration : M unit := modify (set_configuring true).
Definition EndConfiguration : M unit := modify (set_configuring false).

(** [return last_callback_key++;] on an [int]: the value before the
    increment is returned, and the increment of [INT_MAX] wraps around to
    [INT_MIN]. *)
Definition SetCallback (input_identifier : InputIdentifier) : M Z :=
  key <- gets last_callback_key ;;
  modify (fun e =>
    set_callback_list (insert_or_assign key input_identifier (callback_list e)) e) ;;;
  modify (set_last_callback_key (to_int (key + 1))) ;;;
  ret key.

Definition SetMappingCallback (cb : MappingCallback) : M unit :=
  modify (set_mapping_callback cb).

Definition DeleteCallback (key : Z) : M unit :=
  cbs <- gets callback_list ;;
  match cbs !! key with
  | None => emit (LogNonExistentCallback key)
  | Some _ => modify (fun e => set_callback_list (delete key (callback_list e)) e)
  end.

(** ** Sequences of calls *)

(** One call of the public interface, as a caller issues it. *)
Inductive call : Type :=
| CPreSetController (id : PadIdentifier)
| CPreSetButton (id : PadIdentifier) (button : Z)
| CPreSetHatButton (id : PadIdentifier) (button : Z)
| CPreSetAxis (id : PadIdentifier) (axis : Z)
| CPreSetMotion (id : PadIdentifier) (motion : Z)
| CSetButton (id : PadIdentifier) (button : Z) (value : bool)
| CSetHatButton (id : PadIdentifier) (button : Z) (value : u8)
| CSetAxis (id : PadIdentifier) (axis : Z) (value : f32)
| CSetBattery (id : PadIdentifier) (value : BatteryLevel)
| CSetMotion (id : PadIdentifier) (motion : Z) (value : BasicMotion)
| CGetButton (id : PadIdentifier) (button : Z)
| CGetHatButton (id : PadIdentifier) (button : Z) (direction : u8)
| CGetAxis (id : PadIdentifier) (axis : Z)
| CGetBattery (id : PadIdentifier)
| CGetMotion (id : PadIdentifier) (motion : Z)
| CResetButtonState
| CResetAnalogState
| CBeginConfiguration
| CEndConfiguration
| CSetCallback (input_identifier : InputIdentifier)
| CSetMappingCallback (cb : MappingCallback)
| CDeleteCallback (key : Z).

Definition discard {A} (m : M A) : M unit := _ <- m ;; ret tt.

Definition exec (c : call) : M unit :=
  match c with
  | CPreSetController id => PreSetController id
  | CPreSetButton id b => PreSetButton id b
  | CPreSetHatButton id b => PreSetHatButton id b
  | CPreSetAxis id a => PreSetAxis id a
  | CPreSetMotion id m => PreSetMotion id m
  | CSetButton id b v => SetButton id b v
  | CSetHatButton id b v => SetHatButton id b v
  | CSetAxis id a v => SetAxis id a v
  | CSetBattery id v => SetBattery id v
  | CSetMotion id m v => SetMotion id m v
  | CGetButton id b => discard (GetButton id b)
  | CGetHatButton id b d => discard (GetHatButton id b d)
  | CGetAxis id a => discard (GetAxis id a)
  | CGetBattery id => discard (GetBattery id)
  | CGetMotion id m => discard (GetMotion id m)
  | CResetButtonState => ResetButtonState
  | CResetAnalogState => ResetAnalogState
  | CBeginConfiguration => BeginConfiguration
  | CEndConfiguration => EndConfiguration
  | CSetCallback ii => discard (SetCallback ii)
  | CSetMappingCallback cb => SetMappingCallback cb
  | CDeleteCallback key => DeleteCallback key
  end.

(** The engine after a sequence of calls.  A caller may catch an
    exception and go on using the engine, so a call that throws leaves the
    engine as it was when the exception left the function. *)
Definition run_calls (cs : list call) (e : InputEngine) : InputEngine :=
  fold_left (fun e c => engine_of (exec c e)) cs e.

(** ** Example data for the concrete instances *)

Definition padA : PadIdentifier := mkPad 1 0 0.
Definition padB : PadIdentifier := mkPad 2 0 1.
Definition padC : PadIdentifier := mkPad 3 0 2.

Definition hat_names (d : u8) : string :=
  if d =? 1 then "up" else if d =? 2 then "right"
  else if d =? 4 then "down" else if d =? 8 then "left" else "Unknown".

Definition f32_0_3 : f32 := S754_finite false 10066330 (-25).

(** ** Reading the table *)

(** What the table holds for one input of one device; [None] when the
    device or the index is not in it. *)
Definition stored_button (e : InputEngine) (id : PadIdentifier) (button : Z)
    : option bool :=
  c ← controller_list e !! id; buttons c !! button.
Definition stored_hat (e : InputEngine) (id : PadIdentifier) (button : Z)
    : option u8 :=
  c ← controller_list e !! id; hat_buttons c !! button.
Definition stored_axis (e : InputEngine) (id : PadIdentifier) (axis : Z)
    : option f32 :=
  c ← controller_list e !! id; axes c !! axis.
Definition stored_motion (e : InputEngine) (id : PadIdentifier) (motion : Z)
    : option BasicMotion :=
  c ← controller_list e !! id; motions c !! motion.
Definition stored_battery (e : InputEngine) (id : PadIdentifier)
    : option BatteryLevel :=
  battery <$> controller_list e !! id.

(** The events of a trace that went to the mapping observer. *)
Definition mapping_events (t : list Event) : list MappingData :=
  omap (fun ev => match ev with CallOnData _ d => Some d | _ => None end) t.

(** The notifications a trace holds. *)
Definition notifications (t : list Event) : list (Z * callable) :=
  omap (fun ev => match ev with CallOnChange k f => Some (k, f) | _ => None end) t.

(** What the loop over [callback_list] emits. *)
Definition notify_one (id : PadIdentifier) (ty : EngineInputType) (idx : Z)
    (poller_pair : Z * InputIdentifier) : list Event :=
  if negb (IsInputIdentifierEqual poller_pair.2 id ty idx) then []
  else match on_change (callback poller_pair.2) with
       | Some f => [CallOnChange poller_pair.1 f]
       | None => []
       end.

Definition notify_trace (id : PadIdentifier) (ty : EngineInputType) (idx : Z)
    (e : InputEngine) : list Event :=
  flat_map (notify_one id ty idx) (map_to_list (callback_list e)).

(** The observer the mapping-detection part of a call reports to. *)
Definition observer_of (e : InputEngine) : option callable :=
  if negb (configuring e) then None else on_data (mapping_callback e).

(** The values [index] takes in the loop of [TriggerOnHatButtonChange]. *)
Definition hat_bits : list Z := [1; 2; 4; 8; 16; 32; 64; 128].

(** What one iteration of that loop emits. *)
Definition hat_step (e : InputEngine) (f : callable) (id : PadIdentifier)
    (button : Z) (value : u8) (idx : Z) : list Event :=
  let r := GetHatButton id button (to_u8 idx) e in
  trace_of r ++
  match outcome_of r with
  | Ok cur =>
      if Bool.eqb (negb (Z.land value idx =? 0)) cur then []
      else [CallOnData f
              (mkData (input_engine e) id HatButton button false
                 (GetHatButtonName e (to_u8 idx)) f32_zero BasicMotion_zero)]
  | _ => []
  end.

(** The event [TriggerOnHatButtonChange] hands over for one direction. *)
Definition hat_event (e : InputEngine) (id : PadIdentifier) (button : Z)
    (bit : Z) : MappingData :=
  mkData (input_engine e) id HatButton button false
    (GetHatButtonName e bit) f32_zero BasicMotion_zero.

(** Bit [i] of the incoming mask differs from bit [i] of the stored one. *)
Definition bit_differs (value stored : u8) (i : Z) : bool :=
  negb (Bool.eqb (Z.testbit value i) (Z.testbit stored i)).

(** The claim's reading of the axis rule: the absolute difference is
    strictly greater than 0.5. *)
Definition exceeds_threshold (value stored : f32) : bool :=
  f32_lt f32_0_5 (f32_abs (f32_sub value stored)).

(** The engine after the mode-gated write that opens every [Set]. *)
Definition written (id : PadIdentifier) (f : ControllerData -> ControllerData)
    (e : InputEngine) : InputEngine :=
  if configuring e then e
  else set_controller_list (alter f id (controller_list e)) e.

(** Subscription [k] is for input [idx] of kind [ty] on device [id] and
    has the notifier [f]. *)
Definition subscribed (e : InputEngine) (k : Z) (f : callable)
    (id : PadIdentifier) (ty : EngineInputType) (idx : Z) : Prop :=
  exists p, callback_list e !! k = Some p /\
    on_change (callback p) = Some f /\
    identifier p = id /\ type p = ty /\ index p = idx.

(** A fresh engine, and the listener used in the examples. *)
Definition engine_fresh : InputEngine := InputEngine_new hat_names "sdl".

Definition listener_A5 : InputIdentifier :=
  mkInput padA Button 5 (mkUpdate (Some 1%nat)).

(** Two devices with their inputs pre-set and one listener on button 5 of
    the first; then the same engine in configuring mode with a mapping
    observer. *)
Definition engine_playing : InputEngine :=
  run_calls
    [CPreSetController padA; CPreSetController padB;
     CPreSetButton padA 0; CPreSetButton padA 5; CPreSetButton padA 6;
     CPreSetButton padB 5;
     CPreSetHatButton padA 0; CPreSetAxis padA 0; CPreSetAxis padA 3;
     CPreSetMotion padA 0;
     CSetCallback listener_A5]
    engine_fresh.

Definition engine_configuring : InputEngine :=
  run_calls [CBeginConfiguration; CSetMappingCallback (mkMapping (Some 7%nat))]
    engine_playing.

(** A computation moves the engine along the relation [R]. *)
Definition keeps {A} (R : InputEngine -> InputEngine -> Prop) (m : M A)
    : Prop :=
  forall e, R e (engine_of (m e)).

(** A step that touches the controller table only and drops no device. *)
Definition table_only (e e' : InputEngine) : Prop :=
  GetHatButtonName e' = GetHatButtonName e /\
  configuring e' = configuring e /\
  input_engine e' = input_engine e /\
  last_callback_key e' = last_callback_key e /\
  callback_list e' = callback_list e /\
  mapping_callback e' = mapping_callback e /\
  forall id, is_Some (controller_list e !! id) ->
             is_Some (controller_list e' !! id).

(** What every call respects: no device leaves the table. *)
Definition later (e e' : InputEngine) : Prop :=
  forall id, is_Some (controller_list e !! id) ->
             is_Some (controller_list e' !! id).

(** The bodies of the outer loops of [ResetButtonState] and
    [ResetAnalogState]. *)
Definition reset_device_buttons (controller : PadIdentifier * ControllerData)
    : M unit :=
  for_each (map_to_list (buttons controller.2)) (fun button =>
    SetButton controller.1 button.1 false) ;;;
  for_each (map_to_list (hat_buttons controller.2)) (fun button =>
    SetHatButton controller.1 button.1 0).

Definition reset_device_axes (controller : PadIdentifier * ControllerData)
    : M unit :=
  for_each (map_to_list (axes controller.2)) (fun axis =>
    SetAxis controller.1 axis.1 f32_zero).

(** What relates the engine on entry to a reset to the engine between two
    of the calls the reset makes: the table alone has changed, and in
    configuring mode not even the table. *)
Definition reset_inv (e e' : InputEngine) : Prop :=
  table_only e e' /\ (configuring e = true -> e' = e).

(** The traces of the [Set] calls a reset makes, one call per device and
    index the table holds, each call made on the engine [e]. *)
Definition reset_button_trace (e : InputEngine) : list Event :=
  flat_map (fun controller : PadIdentifier * ControllerData =>
    flat_map (fun button : Z * bool =>
        trace_of (SetButton controller.1 button.1 false e))
      (map_to_list (buttons controller.2)) ++
    flat_map (fun button : Z * Z =>
        trace_of (SetHatButton controller.1 button.1 0 e))
      (map_to_list (hat_buttons controller.2)))
    (map_to_list (controller_list e)).

Definition reset_analog_trace (e : InputEngine) : list Event :=
  flat_map (fun controller : PadIdentifier * ControllerData =>
    flat_map (fun axis : Z * spec_float =>
        trace_of (SetAxis controller.1 axis.1 f32_zero e))
      (map_to_list (axes controller.2)))
    (map_to_list (controller_list e)).

(** The first device registered and nothing else. *)
Definition engine_registered : InputEngine :=
  run_calls [CPreSetController padA] engine_fresh.

(** A listener on button 5 of a device that was never registered. *)
Definition listener_C5 : InputIdentifier :=
  mkInput padC Button 5 (mkUpdate (Some 2%nat)).

Definition engine_stale : InputEngine :=
  run_calls [CSetCallback listener_C5] engine_playing.

(** An engine in configuring mode in which button 5, direction 4 of hat 0
    and axis 0 of the first device are held. *)
Definition engine_held : InputEngine :=
  run_calls
    [CSetButton padA 5 true; CSetHatButton padA 0 4; CSetAxis padA 0 f32_0_6;
     CBeginConfiguration; CSetMappingCallback (mkMapping (Some 7%nat))]
    engine_playing.

(** ** Further observations *)

(** Calls that register the first device and start a search for a binding
    with a mapping observer. *)
Definition calls_detecting : list call :=
  [CPreSetController padA; CBeginConfiguration;
   CSetMappingCallback (mkMapping (Some 7%nat))].

(** The [LOG_ERROR] lines of a trace. *)
Definition error_lines (t : list Event) : list Event :=
  List.filter (fun ev =>
    match ev with
    | CallOnChange _ _ | CallOnData _ _ => false
    | _ => true
    end) t.

(** [std::abs(x) > limit]. *)
Definition exceeds (limit x : spec_float) : bool := f32_lt limit (f32_abs x).

(** The value of [is_active] where [TriggerOnMotionChange] tests it. *)
Definition motion_is_active (value : BasicMotion) : bool :=
  (exceeds f32_1_5 (accel_x value) || exceeds f32_1_5 (accel_y value)
   || exceeds f32_1_5 (accel_z value))
  || (exceeds f32_0_6 (gyro_x value) || exceeds f32_0_6 (gyro_y value)
      || exceeds f32_0_6 (gyro_z value)).

(** The writes the member functions make through the reference that
    [controller_list.at] returns. *)
Inductive table_write : (ControllerData -> ControllerData) -> Prop :=
| write_preset_button b : table_write (with_buttons (try_emplace b false))
| write_preset_hat b : table_write (with_hat_buttons (try_emplace b 0))
| write_preset_axis a : table_write (with_axes (try_emplace a f32_zero))
| write_preset_motion m :
    table_write (with_motions (try_emplace m BasicMotion_zero))
| write_button b v : table_write (with_buttons (insert_or_assign b v))
| write_hat b v : table_write (with_hat_buttons (insert_or_assign b v))
| write_axis a v : table_write (with_axes (insert_or_assign a v))
| write_motion m v : table_write (with_motions (insert_or_assign m v))
| write_battery v : table_write (with_battery v).

(** No device and no input of a device has left the table. *)
Definition entries_kept (e e' : InputEngine) : Prop :=
  (forall id, is_Some (controller_list e !! id) ->
              is_Some (controller_list e' !! id)) /\
  (forall id i, is_Some (stored_button e id i) ->
                is_Some (stored_button e' id i)) /\
  (forall id i, is_Some (stored_hat e id i) -> is_Some (stored_hat e' id i)) /\
  (forall id i, is_Some (stored_axis e id i) ->
                is_Some (stored_axis e' id i)) /\
  (forall id i, is_Some (stored_motion e id i) ->
                is_Some (stored_motion e' id i)).

(** The name and the hat names the engine was constructed with. *)
Definition same_identity (e e' : InputEngine) : Prop :=
  input_engine e' = input_engine e /\
  GetHatButtonName e' = GetHatButtonName e.

(** The calls by what they are for. *)
Definition is_mode_call (c : call) : bool :=
  match c with
  | CBeginConfiguration | CEndConfiguration => true
  | _ => false
  end.
Definition is_subscription_call (c : call) : bool :=
  match c with
  | CSetCallback _ | CDeleteCallback _ => true
  | _ => false
  end.
Definition is_observer_call (c : call) : bool :=
  match c with
  | CSetMappingCallback _ => true
  | _ => false
  end.
Definition is_query (c : call) : bool :=
  match c with
  | CGetButton _ _ | CGetHatButton _ _ _ | CGetAxis _ _ | CGetBattery _
  | CGetMotion _ _ => true
  | _ => false
  end.
Definition is_table_call (c : call) : bool :=
  negb (is_mode_call c || is_subscription_call c || is_observer_call c
        || is_query c).

(** Every key of the registry lies below the key counter. *)
Definition keys_below (e : InputEngine) : Prop :=
  forall k, is_Some (callback_list e !! k) -> 0 <= k < last_callback_key e.

(** The number of calls of [SetCallback] in a sequence of calls. *)
Definition is_SetCallback (c : call) : bool :=
  match c with CSetCallback _ => true | _ => false end.

Fixpoint subscriptions_in (cs : list call) : Z :=
  match cs with
  | [] => 0
  | c :: cs => (if is_SetCallback c then 1 else 0) + subscriptions_in cs
  end.


(** The tables of [e] and [e'] hold the same values, except perhaps for
    the one input of kind [ty] and index [idx] of the device [id]. *)
Definition differs_at_most (ty : EngineInputType) (id : PadIdentifier)
    (idx : Z) (e e' : InputEngine) : Prop :=
  (forall id' i, (ty = Button /\ id' = id /\ i = idx) \/
                 stored_button e' id' i = stored_button e id' i) /\
  (forall id' i, (ty = HatButton /\ id' = id /\ i = idx) \/
                 stored_hat e' id' i = stored_hat e id' i) /\
  (forall id' i, (ty = Analog /\ id' = id /\ i = idx) \/
                 stored_axis e' id' i = stored_axis e id' i) /\
  (forall id' i, (ty = Motion /\ id' = id /\ i = idx) \/
                 stored_motion e' id' i = stored_motion e id' i) /\
  (forall id', (ty = Battery /\ id' = id) \/
               stored_battery e' id' = stored_battery e id').

(** The calls a backend or a reader makes while a binding is looked for:
    mutators and queries, with [SetButton] on buttons that are in the
    table. *)
Inductive detection_call (e : InputEngine) : call -> Prop :=
| detect_button id b v :
    is_Some (stored_button e id b) -> detection_call e (CSetButton id b v)
| detect_hat id b v : detection_call e (CSetHatButton id b v)
| detect_axis id a v : detection_call e (CSetAxis id a v)
| detect_battery id v : detection_call e (CSetBattery id v)
| detect_motion id m v : detection_call e (CSetMotion id m v)
| detect_query c : is_query c = true -> detection_call e c.

(** A trace in which every listener notification comes before anything
    else. *)
Definition notified_first (t : list Event) : Prop :=
  exists t1 t2, t = t1 ++ t2 /\
    (forall ev, ev ∈ t1 -> exists k f, ev = CallOnChange k f) /\
    notifications t2 = [].

(** The events the mapping observer gets for a button, an axis and a
    motion sample. *)
Definition button_event (e : InputEngine) (id : PadIdentifier) (button : Z)
    (value : bool) : MappingData :=
  mkData (input_engine e) id Button button value EmptyString f32_zero
    BasicMotion_zero.
Definition axis_event (e : InputEngine) (id : PadIdentifier) (axis : Z)
    (value : spec_float) : MappingData :=
  mkData (input_engine e) id Analog axis false EmptyString value
    BasicMotion_zero.
Definition motion_event (e : InputEngine) (id : PadIdentifier) (motion : Z)
    (value : BasicMotion) : MappingData :=
  mkData (input_engine e) id Motion motion false EmptyString f32_zero value.

(** ** Basic facts *)

Lemma set_controller_list_id e :
  set_controller_list (controller_list e) e = e.
Proof. by destruct e. Qed.

Lemma try_emplace_lookup `{Countable K} {V} (k : K) (v : V) (m : gmap K V) :
  try_emplace k v m !! k = Some (default v (m !! k)).
Proof.
  unfold try_emplace. destruct (m !! k) eqn:E; simpl; [done|].
  by rewrite lookup_insert_eq.
Qed.

Lemma try_emplace_present `{Countable K} {V} (k : K) (v : V) (m : gmap K V) :
  is_Some (m !! k) -> try_emplace k v m = m.
Proof. intros [x Hx]. unfold try_emplace. by rewrite Hx. Qed.

Lemma IsInputIdentifierEqual_spec p id ty idx :
  IsInputIdentifierEqual p id ty idx = true <->
  identifier p = id /\ type p = ty /\ index p = idx.
Proof.
  unfold IsInputIdentifierEqual.
  repeat case_bool_decide; naive_solver.
Qed.

Lemma for_each_emit {X} (g : X -> list Event) (body : X -> M unit) l e :
  (forall x e', body x e' = (Ok tt, e', g x)) ->
  for_each l body e = (Ok tt, e, flat_map g l).
Proof.
  intros Hbody. induction l as [|x l IH]; simpl; [done|].
  unfold bind. by rewrite Hbody, IH.
Qed.

Lemma notify_pollers_eq id ty idx e :
  notify_pollers id ty idx e = (Ok tt, e, notify_trace id ty idx e).
Proof.
  unfold notify_pollers, bind, gets. simpl.
  erewrite (for_each_emit (notify_one id ty idx)); [done|].
  intros [k p] e'. unfold notify_one. simpl.
  destruct (IsInputIdentifierEqual p id ty idx); simpl; [|done].
  by destruct (on_change (callback p)).
Qed.

Lemma elem_of_notify_trace id ty idx e ev :
  ev ∈ notify_trace id ty idx e <->
  exists k p f, ev = CallOnChange k f /\ callback_list e !! k = Some p /\
    on_change (callback p) = Some f /\
    identifier p = id /\ type p = ty /\ index p = idx.
Proof.
  unfold notify_trace. rewrite list_elem_of_In, in_flat_map. split.
  - intros [[k p] [Hin Hev]]. apply list_elem_of_In, elem_of_map_to_list in Hin.
    unfold notify_one in Hev. simpl in Hev.
    destruct (IsInputIdentifierEqual p id ty idx) eqn:E; simpl in Hev; [|done].
    destruct (on_change (callback p)) as [f|] eqn:F; [|done].
    destruct Hev as [<-|[]]. apply IsInputIdentifierEqual_spec in E.
    exists k, p, f. naive_solver.
  - intros (k & p & f & -> & Hk & Hf & Hid).
    exists (k, p). split.
    + by apply list_elem_of_In, elem_of_map_to_list.
    + unfold notify_one. simpl.
      apply IsInputIdentifierEqual_spec in Hid. rewrite Hid, Hf. simpl. by left.
Qed.

Lemma mapping_events_notify_trace id ty idx e :
  mapping_events (notify_trace id ty idx e) = [].
Proof.
  unfold notify_trace, mapping_events.
  induction (map_to_list (callback_list e)) as [|[k p] l IH]; simpl; [done|].
  rewrite omap_app. fold mapping_events in *.
  unfold mapping_events in IH. rewrite IH, app_nil_r.
  unfold notify_one. simpl.
  destruct (negb _); [done|]. by destruct (on_change _).
Qed.

(** ** The calls, as equations *)

Ltac run := unfold bind, ret, gets, modify, emit, throw, controller_update; simpl.

Lemma controller_at_absent {A} id (k : ControllerData -> M A) e :
  controller_list e !! id = None ->
  (c <- controller_at id ;; k c) e = (Throw std_out_of_range, e, []).
Proof. intros H. unfold bind, controller_at. by rewrite H. Qed.

Lemma at_then_update id f e :
  is_Some (controller_list e !! id) ->
  (_ <- controller_at id ;; controller_update id f) e =
  (Ok tt, set_controller_list (alter f id (controller_list e)) e, []).
Proof. intros [c H]. unfold bind, controller_at. by rewrite H. Qed.

Lemma update_noop id f e :
  (forall c, controller_list e !! id = Some c -> f c = c) ->
  set_controller_list (alter f id (controller_list e)) e = e.
Proof.
  intros H. rewrite alter_id by done. apply set_controller_list_id.
Qed.

Lemma with_buttons_noop c b v :
  is_Some (buttons c !! b) -> with_buttons (try_emplace b v) c = c.
Proof.
  intros H. unfold with_buttons. rewrite try_emplace_present by done.
  by destruct c.
Qed.

Lemma with_hat_buttons_noop c b v :
  is_Some (hat_buttons c !! b) -> with_hat_buttons (try_emplace b v) c = c.
Proof.
  intros H. unfold with_hat_buttons. rewrite try_emplace_present by done.
  by destruct c.
Qed.

Lemma with_axes_noop c b v :
  is_Some (axes c !! b) -> with_axes (try_emplace b v) c = c.
Proof.
  intros H. unfold with_axes. rewrite try_emplace_present by done.
  by destruct c.
Qed.

Lemma with_motions_noop c b v :
  is_Some (motions c !! b) -> with_motions (try_emplace b v) c = c.
Proof.
  intros H. unfold with_motions. rewrite try_emplace_present by done.
  by destruct c.
Qed.

Lemma stored_button_Some e id b v :
  stored_button e id b = Some v <->
  exists c, controller_list e !! id = Some c /\ buttons c !! b = Some v.
Proof. unfold stored_button. rewrite bind_Some. naive_solver. Qed.

Lemma stored_hat_Some e id b v :
  stored_hat e id b = Some v <->
  exists c, controller_list e !! id = Some c /\ hat_buttons c !! b = Some v.
Proof. unfold stored_hat. rewrite bind_Some. naive_solver. Qed.

Lemma stored_axis_Some e id b v :
  stored_axis e id b = Some v <->
  exists c, controller_list e !! id = Some c /\ axes c !! b = Some v.
Proof. unfold stored_axis. rewrite bind_Some. naive_solver. Qed.

Lemma stored_motion_Some e id b v :
  stored_motion e id b = Some v <->
  exists c, controller_list e !! id = Some c /\ motions c !! b = Some v.
Proof. unfold stored_motion. rewrite bind_Some. naive_solver. Qed.

Lemma stored_battery_Some e id v :
  stored_battery e id = Some v <->
  exists c, controller_list e !! id = Some c /\ battery c = v.
Proof. unfold stored_battery. rewrite fmap_Some. naive_solver. Qed.

Lemma GetButton_eq e id b :
  GetButton id b e =
  match controller_list e !! id with
  | None => (Ok false, e, [LogInvalidIdentifier id])
  | Some c => match buttons c !! b with
              | None => (Ok false, e, [LogInvalidButton b])
              | Some v => (Ok v, e, [])
              end
  end.
Proof.
  unfold GetButton. run. destruct (controller_list e !! id) as [c|]; [|done].
  by destruct (buttons c !! b).
Qed.

Lemma GetHatButton_eq e id b d :
  GetHatButton id b d e =
  match controller_list e !! id with
  | None => (Ok false, e, [LogInvalidIdentifier id])
  | Some c => match hat_buttons c !! b with
              | None => (Ok false, e, [LogInvalidHatButton b])
              | Some v => (Ok (negb (Z.land v d =? 0)), e, [])
              end
  end.
Proof.
  unfold GetHatButton. run. destruct (controller_list e !! id) as [c|]; [|done].
  by destruct (hat_buttons c !! b).
Qed.

Lemma GetAxis_eq e id a :
  GetAxis id a e =
  match controller_list e !! id with
  | None => (Ok f32_zero, e, [LogInvalidIdentifier id])
  | Some c => match axes c !! a with
              | None => (Ok f32_zero, e, [LogInvalidAxis a])
              | Some v => (Ok v, e, [])
              end
  end.
Proof.
  unfold GetAxis. run. destruct (controller_list e !! id) as [c|]; [|done].
  by destruct (axes c !! a).
Qed.

Lemma GetBattery_eq e id :
  GetBattery id e =
  match controller_list e !! id with
  | None => (Ok Charging, e, [LogInvalidIdentifier id])
  | Some c => (Ok (battery c), e, [])
  end.
Proof.
  unfold GetBattery. run. by destruct (controller_list e !! id) as [c|].
Qed.

Lemma GetMotion_eq e id m :
  GetMotion id m e =
  match controller_list e !! id with
  | None => (Ok BasicMotion_zero, e, [LogInvalidIdentifier id])
  | Some c => match motions c !! m with
              | None => (Throw std_out_of_range, e, [])
              | Some v => (Ok v, e, [])
              end
  end.
Proof.
  unfold GetMotion. run. destruct (controller_list e !! id) as [c|]; [|done].
  by destruct (motions c !! m).
Qed.

Lemma GetHatButton_pure e id b d :
  exists cur t, GetHatButton id b d e = (Ok cur, e, t).
Proof.
  rewrite GetHatButton_eq. destruct (controller_list e !! id) as [c|]; [|eauto].
  destruct (hat_buttons c !! b); eauto.
Qed.

Lemma GetAxis_pure e id a :
  exists t, GetAxis id a e = (Ok (default f32_zero (stored_axis e id a)), e, t).
Proof.
  rewrite GetAxis_eq. unfold stored_axis.
  destruct (controller_list e !! id) as [c|]; simpl; [|eauto].
  destruct (axes c !! a); simpl; eauto.
Qed.

Lemma mapping_observer_eq e :
  mapping_observer e = (Ok (observer_of e), e, []).
Proof. done. Qed.

Lemma TriggerOnButtonChange_eq id b v e :
  TriggerOnButtonChange id b v e =
  match observer_of e with
  | None => (Ok tt, e, notify_trace id Button b e)
  | Some f =>
      match controller_list e !! id with
      | None => (Throw std_out_of_range, e, notify_trace id Button b e)
      | Some c =>
          (Ok tt,
           set_controller_list
             (alter (with_buttons (try_emplace b false)) id (controller_list e)) e,
           notify_trace id Button b e ++
           if Bool.eqb v (default false (buttons c !! b)) then []
           else [CallOnData f
                   (mkData (input_engine e) id Button b v EmptyString f32_zero
                      BasicMotion_zero)])
      end
  end.
Proof.
  unfold TriggerOnButtonChange, bind at 1 2.
  rewrite notify_pollers_eq, mapping_observer_eq.
  destruct (observer_of e) as [f|]; [|run; by rewrite ?app_nil_r].
  destruct (controller_list e !! id) as [c|] eqn:Hc.
  - unfold bind at 1, PreSetButton. rewrite at_then_update by done.
    unfold bind at 1. rewrite GetButton_eq. simpl.
    rewrite lookup_alter_eq, Hc. simpl. rewrite try_emplace_lookup.
    destruct (Bool.eqb v _); run; by rewrite ?app_nil_r.
  - unfold bind at 1, PreSetButton. rewrite controller_at_absent by done.
    by rewrite ?app_nil_r.
Qed.

Lemma hat_loop_step n f id b v idx e :
  idx < 255 ->
  hat_loop (S n) f id b v idx e =
  let r := hat_loop n f id b v (size_t_shl1 idx) e in
  (outcome_of r, engine_of r, hat_step e f id b v idx ++ trace_of r).
Proof.
  intros Hlt. simpl. apply Z.ltb_lt in Hlt. rewrite Hlt.
  unfold hat_step.
  destruct (GetHatButton_pure e id b (to_u8 idx)) as (cur & t & Hget).
  unfold bind at 1 2. rewrite Hget.
  unfold outcome_of, engine_of, trace_of. simpl.
  destruct (Bool.eqb _ cur); run;
    destruct (hat_loop n f id b v (size_t_shl1 idx) e) as [[r e'] t'];
    simpl; by rewrite ?app_nil_r, <- ?app_assoc.
Qed.

Lemma hat_loop_exit n f id b v idx e :
  255 <= idx -> hat_loop (S n) f id b v idx e = (Ok tt, e, []).
Proof.
  intros Hge. simpl. apply Z.ltb_ge in Hge. by rewrite Hge.
Qed.

Lemma hat_loop_eq f id b v e :
  hat_loop 64 f id b v 1 e =
  (Ok tt, e, flat_map (hat_step e f id b v) hat_bits).
Proof.
  change 64%nat with (9 + 55)%nat.
  cbv [Nat.add].
  do 8 (rewrite hat_loop_step by (vm_compute; reflexivity);
        match goal with
        | |- context [size_t_shl1 ?i] =>
            let j := eval vm_compute in (size_t_shl1 i) in
            change (size_t_shl1 i) with j
        end).
  rewrite hat_loop_exit by (vm_compute; discriminate).
  unfold outcome_of, engine_of, trace_of, hat_bits. simpl.
  by rewrite ?app_nil_r.
Qed.

Lemma TriggerOnHatButtonChange_eq id b v e :
  TriggerOnHatButtonChange id b v e =
  (Ok tt, e,
   notify_trace id HatButton b e ++
   match observer_of e with
   | Some f => flat_map (hat_step e f id b v) hat_bits
   | None => []
   end).
Proof.
  unfold TriggerOnHatButtonChange, bind at 1 2.
  rewrite notify_pollers_eq, mapping_observer_eq.
  destruct (observer_of e) as [f|]; [|run; by rewrite ?app_nil_r].
  by rewrite hat_loop_eq.
Qed.

Lemma TriggerOnAxisChange_eq id a v e :
  TriggerOnAxisChange id a v e =
  (Ok tt, e,
   notify_trace id Analog a e ++
   match observer_of e with
   | Some f =>
       trace_of (GetAxis id a e) ++
       if f32_lt (f32_abs (f32_sub v (default f32_zero (stored_axis e id a))))
            f32_0_5
       then []
       else [CallOnData f
               (mkData (input_engine e) id Analog a false EmptyString v BasicMotion_zero)]
   | None => []
   end).
Proof.
  unfold TriggerOnAxisChange, bind at 1 2.
  rewrite notify_pollers_eq, mapping_observer_eq.
  destruct (observer_of e) as [f|]; [|run; by rewrite ?app_nil_r].
  destruct (GetAxis_pure e id a) as [t Hget].
  unfold bind at 1. rewrite Hget. unfold trace_of. simpl.
  destruct (f32_lt _ _); run; by rewrite ?app_nil_r.
Qed.

Lemma TriggerOnBatteryChange_eq id v e :
  TriggerOnBatteryChange id v e = (Ok tt, e, notify_trace id Battery 0 e).
Proof. apply notify_pollers_eq. Qed.

Lemma TriggerOnMotionChange_trace id m v e :
  exists t, TriggerOnMotionChange id m v e =
            (Ok tt, e, notify_trace id Motion m e ++ t) /\
            notifications t = [].
Proof.
  unfold TriggerOnMotionChange, bind at 1 2.
  rewrite notify_pollers_eq, mapping_observer_eq.
  destruct (observer_of e) as [f|]; [|by exists []].
  destruct (negb _); run; eauto.
Qed.

Lemma set_then_trigger id f (k : M unit) e :
  is_Some (controller_list e !! id) ->
  (_ <- controller_at id ;;
   cfg <- gets configuring ;;
   (if negb cfg then controller_update id f else ret tt) ;;;
   k) e = k (written id f e).
Proof.
  intros [c Hc]. unfold written, bind, controller_at, gets. rewrite Hc.
  destruct (configuring e); run.
  - by destruct (k e) as [[r e'] t].
  - by destruct (k _) as [[r e'] t].
Qed.

Lemma written_controller id f e c :
  controller_list e !! id = Some c ->
  controller_list (written id f e) !! id =
  Some (if configuring e then c else f c).
Proof.
  intros Hc. unfold written. destruct (configuring e); [done|].
  simpl. by rewrite lookup_alter_eq, Hc.
Qed.

Lemma written_registry id f e :
  callback_list (written id f e) = callback_list e /\
  configuring (written id f e) = configuring e /\
  mapping_callback (written id f e) = mapping_callback e /\
  input_engine (written id f e) = input_engine e /\
  GetHatButtonName (written id f e) = GetHatButtonName e /\
  last_callback_key (written id f e) = last_callback_key e.
Proof. unfold written. by destruct (configuring e) eqn:E. Qed.

(** ** Pre-setting *)

Lemma PreSetButton_stored e id b :
  is_Some (controller_list e !! id) ->
  outcome_of (PreSetButton id b e) = Ok tt /\
  stored_button (engine_of (PreSetButton id b e)) id b =
    Some (default false (stored_button e id b)) /\
  (is_Some (stored_button e id b) -> engine_of (PreSetButton id b e) = e).
Proof.
  intros Hc. unfold PreSetButton. rewrite at_then_update by done.
  destruct Hc as [c Hc]. unfold stored_button, outcome_of, engine_of. simpl.
  rewrite lookup_alter_eq, Hc. simpl. rewrite try_emplace_lookup.
  split; [done|]. split; [done|]. intros Hs. apply update_noop.
  intros c' Hc'. rewrite Hc in Hc'. injection Hc' as <-.
  by apply with_buttons_noop.
Qed.

Lemma PreSetHatButton_stored e id b :
  is_Some (controller_list e !! id) ->
  outcome_of (PreSetHatButton id b e) = Ok tt /\
  stored_hat (engine_of (PreSetHatButton id b e)) id b =
    Some (default 0 (stored_hat e id b)) /\
  (is_Some (stored_hat e id b) -> engine_of (PreSetHatButton id b e) = e).
Proof.
  intros Hc. unfold PreSetHatButton. rewrite at_then_update by done.
  destruct Hc as [c Hc]. unfold stored_hat, outcome_of, engine_of. simpl.
  rewrite lookup_alter_eq, Hc. simpl. rewrite try_emplace_lookup.
  split; [done|]. split; [done|]. intros Hs. apply update_noop.
  intros c' Hc'. rewrite Hc in Hc'. injection Hc' as <-.
  by apply with_hat_buttons_noop.
Qed.

Lemma PreSetAxis_stored e id b :
  is_Some (controller_list e !! id) ->
  outcome_of (PreSetAxis id b e) = Ok tt /\
  stored_axis (engine_of (PreSetAxis id b e)) id b =
    Some (default f32_zero (stored_axis e id b)) /\
  (is_Some (stored_axis e id b) -> engine_of (PreSetAxis id b e) = e).
Proof.
  intros Hc. unfold PreSetAxis. rewrite at_then_update by done.
  destruct Hc as [c Hc]. unfold stored_axis, outcome_of, engine_of. simpl.
  rewrite lookup_alter_eq, Hc. simpl. rewrite try_emplace_lookup.
  split; [done|]. split; [done|]. intros Hs. apply update_noop.
  intros c' Hc'. rewrite Hc in Hc'. injection Hc' as <-.
  by apply with_axes_noop.
Qed.

Lemma PreSetMotion_stored e id b :
  is_Some (controller_list e !! id) ->
  outcome_of (PreSetMotion id b e) = Ok tt /\
  stored_motion (engine_of (PreSetMotion id b e)) id b =
    Some (default BasicMotion_zero (stored_motion e id b)) /\
  (is_Some (stored_motion e id b) -> engine_of (PreSetMotion id b e) = e).
Proof.
  intros Hc. unfold PreSetMotion. rewrite at_then_update by done.
  destruct Hc as [c Hc]. unfold stored_motion, outcome_of, engine_of. simpl.
  rewrite lookup_alter_eq, Hc. simpl. rewrite try_emplace_lookup.
  split; [done|]. split; [done|]. intros Hs. apply update_noop.
  intros c' Hc'. rewrite Hc in Hc'. injection Hc' as <-.
  by apply with_motions_noop.
Qed.

(** C7. On a device that [PreSetController] has registered, each of
    [PreSetButton], [PreSetHatButton], [PreSetAxis] and [PreSetMotion]
    returns normally; afterwards the entry holds the value it held before
    when it was present (the engine is then unchanged altogether), and the
    default ([false], [0], [0.0f], the zeroed sample) when it was absent. *)
Theorem PreSet_never_overwrites e id idx :
  is_Some (controller_list e !! id) ->
  (outcome_of (PreSetButton id idx e) = Ok tt /\
   stored_button (engine_of (PreSetButton id idx e)) id idx =
     Some (default false (stored_button e id idx)) /\
   (is_Some (stored_button e id idx) -> engine_of (PreSetButton id idx e) = e)) /\
  (outcome_of (PreSetHatButton id idx e) = Ok tt /\
   stored_hat (engine_of (PreSetHatButton id idx e)) id idx =
     Some (default 0 (stored_hat e id idx)) /\
   (is_Some (stored_hat e id idx) -> engine_of (PreSetHatButton id idx e) = e)) /\
  (outcome_of (PreSetAxis id idx e) = Ok tt /\
   stored_axis (engine_of (PreSetAxis id idx e)) id idx =
     Some (default f32_zero (stored_axis e id idx)) /\
   (is_Some (stored_axis e id idx) -> engine_of (PreSetAxis id idx e) = e)) /\
  (outcome_of (PreSetMotion id idx e) = Ok tt /\
   stored_motion (engine_of (PreSetMotion id idx e)) id idx =
     Some (default BasicMotion_zero (stored_motion e id idx)) /\
   (is_Some (stored_motion e id idx) -> engine_of (PreSetMotion id idx e) = e)).
Proof.
  intros Hc. split; [|split; [|split]].
  - by apply PreSetButton_stored.
  - by apply PreSetHatButton_stored.
  - by apply PreSetAxis_stored.
  - by apply PreSetMotion_stored.
Qed.

(** ** The mutators *)

Lemma observer_of_written id f e :
  observer_of (written id f e) = observer_of e.
Proof.
  unfold observer_of.
  destruct (written_registry id f e) as (_ & -> & -> & _). done.
Qed.

Lemma notify_trace_written id' f id ty idx e :
  notify_trace id ty idx (written id' f e) = notify_trace id ty idx e.
Proof.
  unfold notify_trace. by destruct (written_registry id' f e) as (-> & _).
Qed.

Lemma SetButton_eq e id b v c :
  controller_list e !! id = Some c ->
  (exists f, observer_of e = Some f /\
     SetButton id b v e =
     (Ok tt,
      set_controller_list
        (alter (with_buttons (try_emplace b false)) id (controller_list e)) e,
      notify_trace id Button b e ++
      if Bool.eqb v (default false (buttons c !! b)) then []
      else [CallOnData f
              (mkData (input_engine e) id Button b v EmptyString f32_zero
                 BasicMotion_zero)])) \/
  (observer_of e = None /\
   SetButton id b v e =
   (Ok tt, written id (with_buttons (insert_or_assign b v)) e,
    notify_trace id Button b e)).
Proof.
  intros Hc. unfold SetButton. rewrite set_then_trigger by done.
  rewrite TriggerOnButtonChange_eq, observer_of_written, notify_trace_written.
  destruct (observer_of e) as [f|] eqn:Ho; [left; exists f|right; done].
  assert (written id (with_buttons (insert_or_assign b v)) e = e) as Hw.
  { unfold written, observer_of in *. by destruct (configuring e). }
  by rewrite !Hw, Hc.
Qed.

Lemma SetButton_ok e id b v :
  is_Some (controller_list e !! id) -> outcome_of (SetButton id b v e) = Ok tt.
Proof.
  intros [c Hc].
  by destruct (SetButton_eq e id b v c Hc) as [(f & _ & ->)|[_ ->]].
Qed.

Lemma SetButton_notifications e id b v :
  is_Some (controller_list e !! id) ->
  notifications (trace_of (SetButton id b v e)) =
  notifications (notify_trace id Button b e).
Proof.
  intros [c Hc].
  destruct (SetButton_eq e id b v c Hc) as [(f & _ & ->)|[_ ->]]; [|done].
  unfold trace_of, notifications. simpl. rewrite omap_app.
  destruct (Bool.eqb _ _); simpl; by rewrite app_nil_r.
Qed.

Lemma SetButton_engine e id b v old :
  stored_button e id b = Some old ->
  engine_of (SetButton id b v e) =
  written id (with_buttons (insert_or_assign b v)) e.
Proof.
  intros (c & Hc & Hb)%stored_button_Some.
  destruct (SetButton_eq e id b v c Hc) as [(f & Ho & ->)|[_ ->]]; [|done].
  unfold engine_of. simpl.
  assert (written id (with_buttons (insert_or_assign b v)) e = e) as ->.
  { unfold written, observer_of in *. by destruct (configuring e). }
  apply update_noop. intros c'. rewrite Hc. intros [= <-].
  apply with_buttons_noop. by rewrite Hb.
Qed.

Lemma SetButton_trace e id b v old :
  stored_button e id b = Some old ->
  trace_of (SetButton id b v e) =
  notify_trace id Button b e ++
  match observer_of e with
  | Some f =>
      if Bool.eqb v old then []
      else [CallOnData f
              (mkData (input_engine e) id Button b v EmptyString f32_zero
                 BasicMotion_zero)]
  | None => []
  end.
Proof.
  intros (c & Hc & Hb)%stored_button_Some.
  destruct (SetButton_eq e id b v c Hc) as [(f & Ho & ->)|[Ho ->]];
    rewrite Ho; unfold trace_of; simpl.
  - by rewrite Hb.
  - by rewrite app_nil_r.
Qed.

Lemma SetButton_normal e id b v :
  is_Some (controller_list e !! id) ->
  configuring e = false ->
  SetButton id b v e =
  (Ok tt, written id (with_buttons (insert_or_assign b v)) e,
   notify_trace id Button b e).
Proof.
  intros [c Hc] Hcfg.
  destruct (SetButton_eq e id b v c Hc) as [(f & Ho & _)|[_ ->]]; [|done].
  unfold observer_of in Ho. by rewrite Hcfg in Ho.
Qed.

Lemma SetHatButton_eq e id b v :
  is_Some (controller_list e !! id) ->
  SetHatButton id b v e =
  (Ok tt, written id (with_hat_buttons (insert_or_assign b v)) e,
   notify_trace id HatButton b e ++
   match observer_of e with
   | Some f =>
       flat_map
         (hat_step (written id (with_hat_buttons (insert_or_assign b v)) e)
            f id b v) hat_bits
   | None => []
   end).
Proof.
  intros Hc. unfold SetHatButton. rewrite set_then_trigger by done.
  by rewrite TriggerOnHatButtonChange_eq, observer_of_written,
    notify_trace_written.
Qed.

Lemma SetAxis_eq e id a v :
  is_Some (controller_list e !! id) ->
  SetAxis id a v e =
  (Ok tt, written id (with_axes (insert_or_assign a v)) e,
   notify_trace id Analog a e ++
   match observer_of e with
   | Some f =>
       trace_of (GetAxis id a e) ++
       if f32_lt (f32_abs (f32_sub v (default f32_zero (stored_axis e id a))))
            f32_0_5
       then []
       else [CallOnData f
               (mkData (input_engine e) id Analog a false EmptyString v BasicMotion_zero)]
   | None => []
   end).
Proof.
  intros Hc. unfold SetAxis. rewrite set_then_trigger by done.
  rewrite TriggerOnAxisChange_eq, observer_of_written, notify_trace_written.
  destruct (observer_of e) as [f|] eqn:Ho; [|done].
  assert (written id (with_axes (insert_or_assign a v)) e = e) as Hw.
  { unfold written, observer_of in *. by destruct (configuring e). }
  by rewrite !Hw.
Qed.

Lemma SetBattery_eq e id v :
  is_Some (controller_list e !! id) ->
  SetBattery id v e =
  (Ok tt, written id (with_battery v) e, notify_trace id Battery 0 e).
Proof.
  intros Hc. unfold SetBattery. rewrite set_then_trigger by done.
  by rewrite TriggerOnBatteryChange_eq, notify_trace_written.
Qed.

Lemma SetMotion_eq e id m v :
  is_Some (controller_list e !! id) ->
  exists t,
    SetMotion id m v e =
    (Ok tt, written id (with_motions (insert_or_assign m v)) e,
     notify_trace id Motion m e ++ t) /\
    notifications t = [].
Proof.
  intros Hc. unfold SetMotion. rewrite set_then_trigger by done.
  destruct (TriggerOnMotionChange_trace id m v
              (written id (with_motions (insert_or_assign m v)) e))
    as (t & -> & Ht).
  exists t. by rewrite notify_trace_written.
Qed.

Lemma GetButton_stored e id b x :
  stored_button e id b = Some x -> GetButton id b e = (Ok x, e, []).
Proof.
  intros (c & Hc & Hb)%stored_button_Some. by rewrite GetButton_eq, Hc, Hb.
Qed.

Lemma GetHatButton_stored e id b d x :
  stored_hat e id b = Some x ->
  GetHatButton id b d e = (Ok (negb (Z.land x d =? 0)), e, []).
Proof.
  intros (c & Hc & Hb)%stored_hat_Some. by rewrite GetHatButton_eq, Hc, Hb.
Qed.

Lemma GetAxis_stored e id a x :
  stored_axis e id a = Some x -> GetAxis id a e = (Ok x, e, []).
Proof.
  intros (c & Hc & Hb)%stored_axis_Some. by rewrite GetAxis_eq, Hc, Hb.
Qed.

Lemma GetBattery_stored e id x :
  stored_battery e id = Some x -> GetBattery id e = (Ok x, e, []).
Proof.
  intros (c & Hc & Hb)%stored_battery_Some. by rewrite GetBattery_eq, Hc, Hb.
Qed.

Lemma GetMotion_stored e id m x :
  stored_motion e id m = Some x -> GetMotion id m e = (Ok x, e, []).
Proof.
  intros (c & Hc & Hb)%stored_motion_Some. by rewrite GetMotion_eq, Hc, Hb.
Qed.

Lemma stored_button_written e id b v old :
  stored_button e id b = Some old ->
  stored_button (written id (with_buttons (insert_or_assign b v)) e) id b =
  Some (if configuring e then old else v).
Proof.
  intros (c & Hc & Hb)%stored_button_Some. unfold stored_button.
  rewrite (written_controller _ _ _ _ Hc). simpl.
  destruct (configuring e); simpl; [done|].
  unfold insert_or_assign. by rewrite lookup_insert_eq.
Qed.

Lemma stored_hat_written e id b v old :
  stored_hat e id b = Some old ->
  stored_hat (written id (with_hat_buttons (insert_or_assign b v)) e) id b =
  Some (if configuring e then old else v).
Proof.
  intros (c & Hc & Hb)%stored_hat_Some. unfold stored_hat.
  rewrite (written_controller _ _ _ _ Hc). simpl.
  destruct (configuring e); simpl; [done|].
  unfold insert_or_assign. by rewrite lookup_insert_eq.
Qed.

Lemma stored_axis_written e id a v old :
  stored_axis e id a = Some old ->
  stored_axis (written id (with_axes (insert_or_assign a v)) e) id a =
  Some (if configuring e then old else v).
Proof.
  intros (c & Hc & Hb)%stored_axis_Some. unfold stored_axis.
  rewrite (written_controller _ _ _ _ Hc). simpl.
  destruct (configuring e); simpl; [done|].
  unfold insert_or_assign. by rewrite lookup_insert_eq.
Qed.

Lemma stored_motion_written e id m v old :
  stored_motion e id m = Some old ->
  stored_motion (written id (with_motions (insert_or_assign m v)) e) id m =
  Some (if configuring e then old else v).
Proof.
  intros (c & Hc & Hb)%stored_motion_Some. unfold stored_motion.
  rewrite (written_controller _ _ _ _ Hc). simpl.
  destruct (configuring e); simpl; [done|].
  unfold insert_or_assign. by rewrite lookup_insert_eq.
Qed.

Lemma stored_battery_written e id v old :
  stored_battery e id = Some old ->
  stored_battery (written id (with_battery v) e) id =
  Some (if configuring e then old else v).
Proof.
  intros (c & Hc & Hb)%stored_battery_Some. unfold stored_battery.
  rewrite (written_controller _ _ _ _ Hc). simpl.
  subst old. by destruct (configuring e).
Qed.

(** C1. On a device and an index that are in the table, every mutator
    returns normally and the value the table holds afterwards, which is
    what the matching [Get] then returns, is the written value in normal
    mode and the value held before the call in configuring mode. *)
Theorem Set_mode_gating e id idx :
  (forall old v, stored_button e id idx = Some old ->
     let r := SetButton id idx v e in
     let now := if configuring e then old else v in
     outcome_of r = Ok tt /\
     stored_button (engine_of r) id idx = Some now /\
     GetButton id idx (engine_of r) = (Ok now, engine_of r, [])) /\
  (forall old v, stored_hat e id idx = Some old ->
     let r := SetHatButton id idx v e in
     let now := if configuring e then old else v in
     outcome_of r = Ok tt /\
     stored_hat (engine_of r) id idx = Some now /\
     forall d, GetHatButton id idx d (engine_of r) =
               (Ok (negb (Z.land now d =? 0)), engine_of r, [])) /\
  (forall old v, stored_axis e id idx = Some old ->
     let r := SetAxis id idx v e in
     let now := if configuring e then old else v in
     outcome_of r = Ok tt /\
     stored_axis (engine_of r) id idx = Some now /\
     GetAxis id idx (engine_of r) = (Ok now, engine_of r, [])) /\
  (forall old v, stored_battery e id = Some old ->
     let r := SetBattery id v e in
     let now := if configuring e then old else v in
     outcome_of r = Ok tt /\
     stored_battery (engine_of r) id = Some now /\
     GetBattery id (engine_of r) = (Ok now, engine_of r, [])) /\
  (forall old v, stored_motion e id idx = Some old ->
     let r := SetMotion id idx v e in
     let now := if configuring e then old else v in
     outcome_of r = Ok tt /\
     stored_motion (engine_of r) id idx = Some now /\
     GetMotion id idx (engine_of r) = (Ok now, engine_of r, [])).
Proof.
  repeat apply conj; intros old v Hs; simpl.
  - assert (stored_button (engine_of (SetButton id idx v e)) id idx =
            Some (if configuring e then old else v)) as Hnow.
    { rewrite (SetButton_engine _ _ _ _ _ Hs). by apply stored_button_written. }
    split; [|split; [done|by apply GetButton_stored]].
    apply SetButton_ok.
    apply stored_button_Some in Hs as (c & -> & _). done.
  - assert (is_Some (controller_list e !! id)) as Hc.
    { apply stored_hat_Some in Hs as (c & -> & _). done. }
    rewrite SetHatButton_eq by done. unfold outcome_of, engine_of. simpl.
    pose proof (stored_hat_written e id idx v old Hs) as Hnow.
    split; [done|split; [done|]]. intros d. by apply GetHatButton_stored.
  - assert (is_Some (controller_list e !! id)) as Hc.
    { apply stored_axis_Some in Hs as (c & -> & _). done. }
    rewrite SetAxis_eq by done. unfold outcome_of, engine_of. simpl.
    pose proof (stored_axis_written e id idx v old Hs) as Hnow.
    split; [done|split; [done|]]. by apply GetAxis_stored.
  - assert (is_Some (controller_list e !! id)) as Hc.
    { apply stored_battery_Some in Hs as (c & -> & _). done. }
    rewrite SetBattery_eq by done. unfold outcome_of, engine_of. simpl.
    pose proof (stored_battery_written e id v old Hs) as Hnow.
    split; [done|split; [done|]]. by apply GetBattery_stored.
  - assert (is_Some (controller_list e !! id)) as Hc.
    { apply stored_motion_Some in Hs as (c & -> & _). done. }
    destruct (SetMotion_eq e id idx v Hc) as (t & -> & _).
    unfold outcome_of, engine_of. simpl.
    pose proof (stored_motion_written e id idx v old Hs) as Hnow.
    split; [done|split; [done|]]. by apply GetMotion_stored.
Qed.

Lemma Set_mode_gating_witness :
  (stored_button engine_playing padA 0 = Some false /\
   stored_button (engine_of (SetButton padA 0 true engine_playing)) padA 0 =
     Some true) /\
  (stored_hat engine_playing padA 0 = Some 0 /\
   stored_hat (engine_of (SetHatButton padA 0 5 engine_playing)) padA 0 =
     Some 5) /\
  (stored_axis engine_playing padA 0 = Some f32_zero /\
   stored_axis (engine_of (SetAxis padA 0 f32_0_6 engine_playing)) padA 0 =
     Some f32_0_6) /\
  (stored_battery engine_playing padA = Some Empty /\
   stored_battery (engine_of (SetBattery padA Full engine_playing)) padA =
     Some Full) /\
  (stored_motion engine_playing padA 0 = Some BasicMotion_zero /\
   outcome_of (SetMotion padA 0 BasicMotion_zero engine_playing) = Ok tt).
Proof.
  destruct (Set_mode_gating engine_playing padA 0) as (Hb & Hh & Ha & Hbat & Hm).
  repeat apply conj.
  - vm_compute; reflexivity.
  - apply (Hb false true). vm_compute; reflexivity.
  - vm_compute; reflexivity.
  - apply (Hh 0 5). vm_compute; reflexivity.
  - vm_compute; reflexivity.
  - apply (Ha f32_zero f32_0_6). vm_compute; reflexivity.
  - vm_compute; reflexivity.
  - apply (Hbat Empty Full). vm_compute; reflexivity.
  - vm_compute; reflexivity.
  - apply (Hm BasicMotion_zero BasicMotion_zero). vm_compute; reflexivity.
Defined.

(** ** Queries *)

(** X19. Queries on a device that is not in the table, and queries of a
    button, hat button or axis that is not in the device's record: one
    error line and the default. *)
Lemma Get_unknown_defaults e id idx :
  (controller_list e !! id = None ->
     GetButton id idx e = (Ok false, e, [LogInvalidIdentifier id]) /\
     (forall d, GetHatButton id idx d e =
                (Ok false, e, [LogInvalidIdentifier id])) /\
     GetAxis id idx e = (Ok f32_zero, e, [LogInvalidIdentifier id]) /\
     GetBattery id e = (Ok Charging, e, [LogInvalidIdentifier id]) /\
     GetMotion id idx e = (Ok BasicMotion_zero, e, [LogInvalidIdentifier id])) /\
  (forall c, controller_list e !! id = Some c ->
     (buttons c !! idx = None ->
        GetButton id idx e = (Ok false, e, [LogInvalidButton idx])) /\
     (hat_buttons c !! idx = None ->
        forall d, GetHatButton id idx d e =
                  (Ok false, e, [LogInvalidHatButton idx])) /\
     (axes c !! idx = None ->
        GetAxis id idx e = (Ok f32_zero, e, [LogInvalidAxis idx]))).
Proof.
  split.
  - intros Hc.
    rewrite GetButton_eq, GetAxis_eq, GetBattery_eq, GetMotion_eq, Hc.
    repeat apply conj; try done. intros d. by rewrite GetHatButton_eq, Hc.
  - intros c Hc. repeat apply conj; intros Hi.
    + by rewrite GetButton_eq, Hc, Hi.
    + intros d. by rewrite GetHatButton_eq, Hc, Hi.
    + by rewrite GetAxis_eq, Hc, Hi.
Qed.

(** C2. [GetMotion] on a device that is in the table with a motion index
    that is not: the lookup [motions.at(motion)] throws
    [std::out_of_range]; nothing is logged and no default is returned. *)
Theorem GetMotion_unknown_index_throws e id c motion :
  controller_list e !! id = Some c ->
  motions c !! motion = None ->
  GetMotion id motion e = (Throw std_out_of_range, e, []).
Proof. intros Hc Hm. by rewrite GetMotion_eq, Hc, Hm. Qed.

Lemma GetMotion_unknown_index_throws_witness :
  controller_list engine_registered !! padA = Some ControllerData_new /\
  motions ControllerData_new !! 0 = None /\
  GetMotion padA 0 engine_registered =
    (Throw std_out_of_range, engine_registered, []).
Proof.
  repeat apply conj.
  - vm_compute; reflexivity.
  - vm_compute; reflexivity.
  - apply (GetMotion_unknown_index_throws _ padA ControllerData_new 0);
      vm_compute; reflexivity.
Defined.

(** ** The listener registry *)

(** C8. [DeleteCallback] with a key that is not in the registry logs one
    error line and leaves the engine as it was; with a key that is in it,
    it erases that key and no other, and logs nothing. *)
Theorem DeleteCallback_removes_or_logs e key :
  (callback_list e !! key = None ->
     DeleteCallback key e = (Ok tt, e, [LogNonExistentCallback key])) /\
  (is_Some (callback_list e !! key) ->
     DeleteCallback key e =
       (Ok tt, set_callback_list (delete key (callback_list e)) e, []) /\
     callback_list (engine_of (DeleteCallback key e)) !! key = None /\
     forall k, k ≠ key ->
       callback_list (engine_of (DeleteCallback key e)) !! k =
       callback_list e !! k).
Proof.
  unfold DeleteCallback. run. split.
  - intros ->. done.
  - intros [p ->]. unfold engine_of. simpl.
    split; [done|]. split; [apply lookup_delete_eq|].
    intros k Hk. by apply lookup_delete_ne.
Qed.

Lemma DeleteCallback_removes_or_logs_witness :
  (callback_list engine_playing !! 9 = None /\
   DeleteCallback 9 engine_playing =
     (Ok tt, engine_playing, [LogNonExistentCallback 9])) /\
  (is_Some (callback_list engine_playing !! 0) /\
   callback_list (engine_of (DeleteCallback 0 engine_playing)) !! 0 = None).
Proof.
  destruct (DeleteCallback_removes_or_logs engine_playing 9) as [Habsent _].
  destruct (DeleteCallback_removes_or_logs engine_playing 0) as [_ Hpresent].
  assert (callback_list engine_playing !! 9 = None) as H9
    by (vm_compute; reflexivity).
  assert (is_Some (callback_list engine_playing !! 0)) as H0
    by (vm_compute; eexists; reflexivity).
  repeat apply conj; [exact H9 | exact (Habsent H9) | exact H0 |].
  exact (proj1 (proj2 (Hpresent H0))).
Defined.

(** ** Notification and mapping detection *)

Lemma mapping_events_app t1 t2 :
  mapping_events (t1 ++ t2) = mapping_events t1 ++ mapping_events t2.
Proof. apply omap_app. Qed.

Lemma notifications_app t1 t2 :
  notifications (t1 ++ t2) = notifications t1 ++ notifications t2.
Proof. apply omap_app. Qed.

Lemma elem_of_notifications k f t :
  (k, f) ∈ notifications t <-> CallOnChange k f ∈ t.
Proof.
  unfold notifications. rewrite list_elem_of_omap. split.
  - intros (ev & Hin & Hev). destruct ev; try done. by injection Hev as -> ->.
  - intros Hin. by exists (CallOnChange k f).
Qed.

Lemma notified_iff_subscribed e id ty idx t k f :
  notifications t = notifications (notify_trace id ty idx e) ->
  CallOnChange k f ∈ t <-> subscribed e k f id ty idx.
Proof.
  intros Ht. rewrite <- elem_of_notifications, Ht, elem_of_notifications.
  rewrite elem_of_notify_trace. unfold subscribed. split.
  - intros (k' & p & f' & [= -> ->] & H). by exists p.
  - intros (p & H). by exists k, p, f.
Qed.

Lemma GetAxis_trace_quiet e id a :
  mapping_events (trace_of (GetAxis id a e)) = [] /\
  notifications (trace_of (GetAxis id a e)) = [].
Proof.
  rewrite GetAxis_eq. destruct (controller_list e !! id) as [c|]; [|done].
  by destruct (axes c !! a).
Qed.

Lemma hat_step_notifications e f id b v idx :
  notifications (hat_step e f id b v idx) = [].
Proof.
  unfold hat_step. rewrite GetHatButton_eq.
  destruct (controller_list e !! id) as [c|]; simpl.
  - destruct (hat_buttons c !! b); simpl; by destruct (Bool.eqb _ _).
  - by destruct (Bool.eqb _ _).
Qed.

Lemma hat_trace_notifications e f id b v l :
  notifications (flat_map (hat_step e f id b v) l) = [].
Proof.
  induction l as [|i l IH]; simpl; [done|].
  by rewrite notifications_app, hat_step_notifications, IH.
Qed.

Lemma SetHatButton_notifications e id b v :
  is_Some (controller_list e !! id) ->
  notifications (trace_of (SetHatButton id b v e)) =
  notifications (notify_trace id HatButton b e).
Proof.
  intros Hc. rewrite SetHatButton_eq by done. unfold trace_of. cbn [snd].
  rewrite notifications_app.
  destruct (observer_of e); [|by rewrite app_nil_r].
  by rewrite hat_trace_notifications, app_nil_r.
Qed.

Lemma SetAxis_notifications e id a v :
  is_Some (controller_list e !! id) ->
  notifications (trace_of (SetAxis id a v e)) =
  notifications (notify_trace id Analog a e).
Proof.
  intros Hc. rewrite SetAxis_eq by done. unfold trace_of at 1. simpl.
  rewrite notifications_app.
  destruct (observer_of e); [|by rewrite app_nil_r].
  rewrite notifications_app, (proj2 (GetAxis_trace_quiet e id a)).
  destruct (f32_lt _ _); simpl; by rewrite app_nil_r.
Qed.

(** C5. A call of a mutator on a registered device returns, and during it
    the notifier [f] of subscription [k] is invoked exactly when
    subscription [k] is for the device, the kind and the index of the call
    (index 0 for the battery). *)
Theorem listener_notified_iff_subscribed e id idx k f :
  is_Some (controller_list e !! id) ->
  (forall v, outcome_of (SetButton id idx v e) = Ok tt /\
     (CallOnChange k f ∈ trace_of (SetButton id idx v e) <->
      subscribed e k f id Button idx)) /\
  (forall v, outcome_of (SetHatButton id idx v e) = Ok tt /\
     (CallOnChange k f ∈ trace_of (SetHatButton id idx v e) <->
      subscribed e k f id HatButton idx)) /\
  (forall v, outcome_of (SetAxis id idx v e) = Ok tt /\
     (CallOnChange k f ∈ trace_of (SetAxis id idx v e) <->
      subscribed e k f id Analog idx)) /\
  (forall v, outcome_of (SetBattery id v e) = Ok tt /\
     (CallOnChange k f ∈ trace_of (SetBattery id v e) <->
      subscribed e k f id Battery 0)) /\
  (forall v, outcome_of (SetMotion id idx v e) = Ok tt /\
     (CallOnChange k f ∈ trace_of (SetMotion id idx v e) <->
      subscribed e k f id Motion idx)).
Proof.
  intros Hc.
  repeat apply conj; intros v; (split; [|apply notified_iff_subscribed]).
  - by apply SetButton_ok.
  - by apply SetButton_notifications.
  - by rewrite SetHatButton_eq.
  - by apply SetHatButton_notifications.
  - by rewrite SetAxis_eq.
  - by apply SetAxis_notifications.
  - by rewrite SetBattery_eq.
  - by rewrite SetBattery_eq.
  - by destruct (SetMotion_eq e id idx v Hc) as (t & -> & _).
  - destruct (SetMotion_eq e id idx v Hc) as (t & -> & Ht).
    unfold trace_of. simpl. by rewrite notifications_app, Ht, app_nil_r.
Qed.

Lemma listener_notified_iff_subscribed_witness :
  is_Some (controller_list engine_playing !! padA) /\
  CallOnChange 0 1%nat ∈ trace_of (SetButton padA 5 true engine_playing).
Proof.
  assert (is_Some (controller_list engine_playing !! padA)) as Hc
    by (vm_compute; eexists; reflexivity).
  split; [exact Hc|].
  destruct (listener_notified_iff_subscribed engine_playing padA 5 0 1%nat Hc)
    as [Hbutton _].
  apply (proj2 (proj2 (Hbutton true))).
  exists listener_A5.
  repeat apply conj; vm_compute; reflexivity.
Defined.

(** The listener of (device A, button 5) hears [SetButton(A, 5, true)] and
    hears neither [SetButton(A, 6, true)] nor [SetButton(B, 5, true)]. *)
Example listener_matching_example :
  notifications (trace_of (SetButton padA 5 true engine_playing)) = [(0, 1%nat)] /\
  notifications (trace_of (SetButton padA 6 true engine_playing)) = [] /\
  notifications (trace_of (SetButton padB 5 true engine_playing)) = [].
Proof. repeat apply conj; vm_compute; reflexivity. Qed.

Lemma observer_of_configuring e f :
  configuring e = true -> on_data (mapping_callback e) = Some f ->
  observer_of e = Some f.
Proof. unfold observer_of. by intros -> ->. Qed.

Lemma SetAxis_mapping_events e id axis f :
  is_Some (controller_list e !! id) ->
  configuring e = true ->
  on_data (mapping_callback e) = Some f ->
  forall v,
    mapping_events (trace_of (SetAxis id axis v e)) =
    if f32_lt (f32_abs (f32_sub v (default f32_zero (stored_axis e id axis))))
         f32_0_5
    then []
    else [mkData (input_engine e) id Analog axis false EmptyString v BasicMotion_zero].
Proof.
  intros Hc Hcfg Hobs v.
  rewrite SetAxis_eq by done. unfold trace_of at 1. simpl.
  rewrite (observer_of_configuring e f) by done.
  rewrite !mapping_events_app, mapping_events_notify_trace.
  rewrite (proj1 (GetAxis_trace_quiet e id axis)). simpl.
  by destruct (f32_lt _ _).
Qed.

(** C3. In configuring mode with a mapping observer, [SetAxis] on a
    registered device returns and hands the observer one event carrying
    the incoming value, unless the absolute difference between the incoming
    and the stored value (0.0 for an axis not in the table) is less than
    0.5, in which case it hands over none.  With 0.0 stored, 0.3 gives no
    event, 0.6 gives one event carrying 0.6, and so does 0.5. *)
Theorem SetAxis_detection_threshold e id axis f :
  is_Some (controller_list e !! id) ->
  configuring e = true ->
  on_data (mapping_callback e) = Some f ->
  let event v :=
    mkData (input_engine e) id Analog axis false EmptyString v
      BasicMotion_zero in
  (forall v,
     outcome_of (SetAxis id axis v e) = Ok tt /\
     mapping_events (trace_of (SetAxis id axis v e)) =
     if f32_lt (f32_abs (f32_sub v (default f32_zero (stored_axis e id axis))))
          f32_0_5
     then [] else [event v]) /\
  (stored_axis e id axis = Some f32_zero ->
     mapping_events (trace_of (SetAxis id axis f32_0_3 e)) = [] /\
     mapping_events (trace_of (SetAxis id axis f32_0_6 e)) = [event f32_0_6] /\
     mapping_events (trace_of (SetAxis id axis f32_0_5 e)) = [event f32_0_5]).
Proof.
  intros Hc Hcfg Hobs event.
  pose proof (SetAxis_mapping_events e id axis f Hc Hcfg Hobs) as Hgen.
  split.
  - intros v. split; [by rewrite SetAxis_eq|apply Hgen].
  - intros Hs. rewrite !Hgen, Hs. done.
Qed.

Lemma SetAxis_detection_threshold_witness :
  (is_Some (controller_list engine_configuring !! padA) /\
   configuring engine_configuring = true /\
   on_data (mapping_callback engine_configuring) = Some 7%nat /\
   stored_axis engine_configuring padA 0 = Some f32_zero) /\
  mapping_events (trace_of (SetAxis padA 0 f32_0_3 engine_configuring)) = [] /\
  mapping_events (trace_of (SetAxis padA 0 f32_0_6 engine_configuring)) =
    [mkData "sdl" padA Analog 0 false EmptyString f32_0_6 BasicMotion_zero].
Proof.
  assert (is_Some (controller_list engine_configuring !! padA)) as Hc
    by (vm_compute; eexists; reflexivity).
  assert (configuring engine_configuring = true) as Hcfg
    by (vm_compute; reflexivity).
  assert (on_data (mapping_callback engine_configuring) = Some 7%nat) as Hobs
    by (vm_compute; reflexivity).
  assert (stored_axis engine_configuring padA 0 = Some f32_zero) as Hs
    by (vm_compute; reflexivity).
  destruct (SetAxis_detection_threshold engine_configuring padA 0 7%nat
              Hc Hcfg Hobs) as [_ Hex].
  destruct (Hex Hs) as (H3 & H6 & _).
  split; [by repeat apply conj|]. split; [exact H3|exact H6].
Defined.

(** The claim read literally (an event exactly when the difference
    exceeds 0.5) fails at the difference 0.5: with 0.0 stored, an incoming
    0.5 is reported although it does not exceed the threshold. *)
Lemma SetAxis_at_threshold_counterexample :
  ~ (mapping_events (trace_of (SetAxis padA 0 f32_0_5 engine_configuring)) ≠ []
     <-> exceeds_threshold f32_0_5 f32_zero = true).
Proof.
  intros [Hemit _].
  assert (exceeds_threshold f32_0_5 f32_zero = true) as Hex.
  { apply Hemit. vm_compute. discriminate. }
  vm_compute in Hex. discriminate.
Qed.

Lemma land_pow2_eqb v i :
  0 <= i -> (Z.land v (2 ^ i) =? 0) = negb (Z.testbit v i).
Proof.
  intros Hi. destruct (Z.testbit v i) eqn:E; simpl.
  - apply Z.eqb_neq. intros Hz.
    assert (Z.testbit (Z.land v (2 ^ i)) i = true) as Hb.
    { by rewrite Z.land_spec, E, Z.pow2_bits_true. }
    rewrite Hz, Z.bits_0 in Hb. discriminate.
  - apply Z.eqb_eq, Z.bits_inj'. intros n Hn.
    rewrite Z.land_spec, Z.bits_0, Z.pow2_bits_eqb by done.
    destruct (Z.eqb_spec i n) as [->|]; [by rewrite E|apply andb_false_r].
Qed.

Lemma to_u8_small z : 0 <= z < 256 -> to_u8 z = z.
Proof. intros Hz. unfold to_u8. by apply Z.mod_small. Qed.

Lemma hat_step_stored e f id b v old i :
  stored_hat e id b = Some old ->
  0 <= i < 8 ->
  mapping_events (hat_step e f id b v (2 ^ i)) =
  if bit_differs v old i then [hat_event e id b (2 ^ i)] else [].
Proof.
  intros Hs Hi. unfold hat_step.
  assert (to_u8 (2 ^ i) = 2 ^ i) as ->.
  { apply to_u8_small. split; [apply Z.pow_nonneg; lia|].
    change 256 with (2 ^ 8). apply Z.pow_lt_mono_r; lia. }
  rewrite (GetHatButton_stored _ _ _ _ _ Hs).
  unfold trace_of, outcome_of, bit_differs, hat_event. simpl.
  rewrite !land_pow2_eqb, !negb_involutive by lia.
  by destruct (Bool.eqb _ _).
Qed.

Lemma hat_trace_stored e f id b v old (l : list Z) :
  stored_hat e id b = Some old ->
  Forall (fun i => 0 <= i < 8) l ->
  mapping_events (flat_map (hat_step e f id b v) (map (Z.pow 2) l)) =
  map (fun i => hat_event e id b (2 ^ i)) (List.filter (bit_differs v old) l).
Proof.
  intros Hs Hl. induction Hl as [|i l Hi Hl IH]; [done|].
  cbn [map flat_map List.filter].
  rewrite mapping_events_app, IH, (hat_step_stored _ _ _ _ _ old) by done.
  by destruct (bit_differs v old i).
Qed.

Lemma SetHatButton_mapping_events e id button f old :
  configuring e = true ->
  on_data (mapping_callback e) = Some f ->
  stored_hat e id button = Some old ->
  forall value,
    mapping_events (trace_of (SetHatButton id button value e)) =
    map (fun i => hat_event e id button (2 ^ i))
      (List.filter (bit_differs value old) [0; 1; 2; 3; 4; 5; 6; 7]).
Proof.
  intros Hcfg Hobs Hs value.
  assert (is_Some (controller_list e !! id)) as Hc.
  { apply stored_hat_Some in Hs as (c & -> & _). done. }
  rewrite SetHatButton_eq by done. unfold trace_of, written. cbn [snd].
  rewrite Hcfg, (observer_of_configuring e f) by done.
  rewrite mapping_events_app, mapping_events_notify_trace.
  change hat_bits with (map (Z.pow 2) [0; 1; 2; 3; 4; 5; 6; 7]).
  apply (hat_trace_stored _ _ _ _ _ old); [done|].
  repeat (constructor; [lia|]). constructor.
Qed.

(** C4. In configuring mode with a mapping observer, [SetHatButton] on a
    hat button that is in the table returns and hands the observer one
    event for each of the bits 0 to 7 (directions 1, 2, 4, ..., 128) in
    which the incoming mask and the stored mask differ, in increasing
    order, each carrying the name of that direction, and no other event.
    With 0x00 stored, the mask 0x05 gives two events, for the directions 1
    and 4. *)
Theorem SetHatButton_detection e id button f old :
  configuring e = true ->
  on_data (mapping_callback e) = Some f ->
  stored_hat e id button = Some old ->
  (forall value,
     outcome_of (SetHatButton id button value e) = Ok tt /\
     mapping_events (trace_of (SetHatButton id button value e)) =
     map (fun i => hat_event e id button (2 ^ i))
       (List.filter (bit_differs value old) [0; 1; 2; 3; 4; 5; 6; 7])) /\
  (old = 0 ->
     mapping_events (trace_of (SetHatButton id button 5 e)) =
     [hat_event e id button 1; hat_event e id button 4]).
Proof.
  intros Hcfg Hobs Hs.
  pose proof (SetHatButton_mapping_events e id button f old Hcfg Hobs Hs)
    as Hgen.
  split.
  - intros value. split; [|apply Hgen]. rewrite SetHatButton_eq; [done|].
    apply stored_hat_Some in Hs as (c & -> & _). done.
  - intros ->. by rewrite Hgen.
Qed.

Lemma SetHatButton_detection_witness :
  (configuring engine_configuring = true /\
   on_data (mapping_callback engine_configuring) = Some 7%nat /\
   stored_hat engine_configuring padA 0 = Some 0) /\
  mapping_events (trace_of (SetHatButton padA 0 5 engine_configuring)) =
    [hat_event engine_configuring padA 0 1; hat_event engine_configuring padA 0 4].
Proof.
  assert (configuring engine_configuring = true) as Hcfg
    by (vm_compute; reflexivity).
  assert (on_data (mapping_callback engine_configuring) = Some 7%nat) as Hobs
    by (vm_compute; reflexivity).
  assert (stored_hat engine_configuring padA 0 = Some 0) as Hs
    by (vm_compute; reflexivity).
  destruct (SetHatButton_detection engine_configuring padA 0 7%nat 0
              Hcfg Hobs Hs) as [_ Hex].
  split; [by repeat apply conj|]. exact (Hex eq_refl).
Defined.

(** ** What the calls leave alone *)

Section Keeps.
Variable R : InputEngine -> InputEngine -> Prop.
Hypothesis R_refl : forall e, R e e.
Hypothesis R_trans : forall e1 e2 e3, R e1 e2 -> R e2 e3 -> R e1 e3.

Lemma keeps_pure {A} (m : M A) :
  (forall e, engine_of (m e) = e) -> keeps R m.
Proof using R_refl. intros H e. rewrite H. apply R_refl. Qed.

Lemma keeps_bind {A B} (m : M A) (k : A -> M B) :
  keeps R m -> (forall a, keeps R (k a)) -> keeps R (bind m k).
Proof using R_trans.
  intros Hm Hk e. unfold bind. specialize (Hm e).
  destruct (m e) as [[[a|x|] e1] t1]; unfold engine_of in *; simpl in *;
    try done.
  specialize (Hk a e1). unfold engine_of in Hk.
  destruct (k a e1) as [[r e2] t2]. simpl in *. by eapply R_trans.
Qed.

Lemma keeps_for_each {X} (l : list X) (body : X -> M unit) :
  (forall x, keeps R (body x)) -> keeps R (for_each l body).
Proof using R_refl R_trans.
  intros Hbody. induction l as [|x l IH]; simpl.
  - by apply keeps_pure.
  - apply keeps_bind; [apply Hbody|]. intros _. apply IH.
Qed.

Lemma keeps_discard {A} (m : M A) : keeps R m -> keeps R (discard m).
Proof using R_refl R_trans.
  intros Hm. apply keeps_bind; [done|]. intros a. by apply keeps_pure.
Qed.
End Keeps.

Lemma table_only_refl e : table_only e e.
Proof. by repeat apply conj. Qed.

Lemma table_only_trans e1 e2 e3 :
  table_only e1 e2 -> table_only e2 e3 -> table_only e1 e3.
Proof.
  intros (Ha & Hb & Hc & Hd & He & Hf & Hg) (Ha' & Hb' & Hc' & Hd' & He' & Hf' & Hg').
  repeat apply conj; try congruence. intros id Hid. by apply Hg', Hg.
Qed.

Lemma table_only_later e e' : table_only e e' -> later e e'.
Proof. by intros (_ & _ & _ & _ & _ & _ & Hreg). Qed.

Lemma later_refl e : later e e.
Proof. by intros id. Qed.

Lemma later_trans e1 e2 e3 : later e1 e2 -> later e2 e3 -> later e1 e3.
Proof. intros Hr Hr' id Hid. by apply Hr', Hr. Qed.

Lemma keeps_controller_at id : keeps table_only (controller_at id).
Proof.
  apply keeps_pure; [apply table_only_refl|]. intros e.
  unfold controller_at. by destruct (controller_list e !! id).
Qed.

Lemma keeps_controller_update id f : keeps table_only (controller_update id f).
Proof.
  intros e. unfold controller_update, modify, engine_of. simpl.
  repeat apply conj; try done. simpl. intros id' Hid.
  by apply lookup_alter_is_Some.
Qed.

Lemma keeps_PreSetController id : keeps table_only (PreSetController id).
Proof.
  intros e. unfold PreSetController, modify, engine_of. simpl.
  repeat apply conj; try done. simpl. intros id' Hid.
  unfold try_emplace. destruct (controller_list e !! id) eqn:E; [done|].
  destruct (decide (id = id')) as [Heq|Hne].
  - rewrite Heq. by rewrite lookup_insert_eq.
  - by rewrite lookup_insert_ne.
Qed.

Lemma keeps_PreSetButton id b : keeps table_only (PreSetButton id b).
Proof.
  unfold PreSetButton.
  apply keeps_bind; [apply table_only_trans|apply keeps_controller_at|].
  intros _. apply keeps_controller_update.
Qed.

Lemma keeps_PreSetHatButton id b : keeps table_only (PreSetHatButton id b).
Proof.
  unfold PreSetHatButton.
  apply keeps_bind; [apply table_only_trans|apply keeps_controller_at|].
  intros _. apply keeps_controller_update.
Qed.

Lemma keeps_PreSetAxis id b : keeps table_only (PreSetAxis id b).
Proof.
  unfold PreSetAxis.
  apply keeps_bind; [apply table_only_trans|apply keeps_controller_at|].
  intros _. apply keeps_controller_update.
Qed.

Lemma keeps_PreSetMotion id b : keeps table_only (PreSetMotion id b).
Proof.
  unfold PreSetMotion.
  apply keeps_bind; [apply table_only_trans|apply keeps_controller_at|].
  intros _. apply keeps_controller_update.
Qed.

Lemma keeps_GetButton id b : keeps table_only (GetButton id b).
Proof.
  apply keeps_pure; [apply table_only_refl|]. intros e. rewrite GetButton_eq.
  destruct (controller_list e !! id) as [c|]; [|done].
  by destruct (buttons c !! b).
Qed.

Lemma keeps_GetHatButton id b d : keeps table_only (GetHatButton id b d).
Proof.
  apply keeps_pure; [apply table_only_refl|]. intros e.
  by destruct (GetHatButton_pure e id b d) as (cur & t & ->).
Qed.

Lemma keeps_GetAxis id a : keeps table_only (GetAxis id a).
Proof.
  apply keeps_pure; [apply table_only_refl|]. intros e.
  by destruct (GetAxis_pure e id a) as (t & ->).
Qed.

Lemma keeps_GetBattery id : keeps table_only (GetBattery id).
Proof.
  apply keeps_pure; [apply table_only_refl|]. intros e. rewrite GetBattery_eq.
  by destruct (controller_list e !! id).
Qed.

Lemma keeps_GetMotion id m : keeps table_only (GetMotion id m).
Proof.
  apply keeps_pure; [apply table_only_refl|]. intros e. rewrite GetMotion_eq.
  destruct (controller_list e !! id) as [c|]; [|done].
  by destruct (motions c !! m).
Qed.

Lemma keeps_notify_pollers id ty idx : keeps table_only (notify_pollers id ty idx).
Proof.
  apply keeps_pure; [apply table_only_refl|]. intros e.
  by rewrite notify_pollers_eq.
Qed.

Lemma keeps_hat_loop fuel f id b v idx :
  keeps table_only (hat_loop fuel f id b v idx).
Proof.
  revert idx. induction fuel as [|fuel IH]; intros idx; simpl.
  - by apply keeps_pure; [apply table_only_refl|].
  - destruct (idx <? 255); [|by apply keeps_pure; [apply table_only_refl|]].
    apply keeps_bind; [apply table_only_trans|apply keeps_GetHatButton|].
    intros cur.
    apply keeps_bind; [apply table_only_trans| |intros ?; apply IH].
    destruct (Bool.eqb _ cur);
      by apply keeps_pure; [apply table_only_refl|].
Qed.

Create HintDb keeps.
#[local] Hint Resolve keeps_controller_at keeps_controller_update
  keeps_PreSetController keeps_PreSetButton keeps_PreSetHatButton
  keeps_PreSetAxis keeps_PreSetMotion keeps_GetButton keeps_GetHatButton
  keeps_GetAxis keeps_GetBattery keeps_GetMotion keeps_notify_pollers
  keeps_hat_loop : keeps.

Ltac keeps_table :=
  repeat first
    [ solve [auto with keeps]
    | apply keeps_pure; [apply table_only_refl | intros ?; reflexivity]
    | apply keeps_bind; [apply table_only_trans | | intros ?]
    | apply keeps_for_each;
        [apply table_only_refl | apply table_only_trans | intros ?]
    | apply keeps_discard; [apply table_only_refl | apply table_only_trans | ]
    | match goal with
      | |- keeps _ (match ?x with _ => _ end) => destruct x
      end ].

Lemma keeps_TriggerOnButtonChange id b v :
  keeps table_only (TriggerOnButtonChange id b v).
Proof. unfold TriggerOnButtonChange. keeps_table. Qed.

Lemma keeps_TriggerOnHatButtonChange id b v :
  keeps table_only (TriggerOnHatButtonChange id b v).
Proof. unfold TriggerOnHatButtonChange. keeps_table. Qed.

Lemma keeps_TriggerOnAxisChange id a v :
  keeps table_only (TriggerOnAxisChange id a v).
Proof. unfold TriggerOnAxisChange. keeps_table. Qed.

Lemma keeps_TriggerOnBatteryChange id v :
  keeps table_only (TriggerOnBatteryChange id v).
Proof. unfold TriggerOnBatteryChange. keeps_table. Qed.

Lemma keeps_TriggerOnMotionChange id m v :
  keeps table_only (TriggerOnMotionChange id m v).
Proof. unfold TriggerOnMotionChange. keeps_table. Qed.

#[local] Hint Resolve keeps_TriggerOnButtonChange
  keeps_TriggerOnHatButtonChange keeps_TriggerOnAxisChange
  keeps_TriggerOnBatteryChange keeps_TriggerOnMotionChange : keeps.

Lemma keeps_SetButton id b v : keeps table_only (SetButton id b v).
Proof. unfold SetButton. keeps_table. Qed.

Lemma keeps_SetHatButton id b v : keeps table_only (SetHatButton id b v).
Proof. unfold SetHatButton. keeps_table. Qed.

Lemma keeps_SetAxis id a v : keeps table_only (SetAxis id a v).
Proof. unfold SetAxis. keeps_table. Qed.

Lemma keeps_SetBattery id v : keeps table_only (SetBattery id v).
Proof. unfold SetBattery. keeps_table. Qed.

Lemma keeps_SetMotion id m v : keeps table_only (SetMotion id m v).
Proof. unfold SetMotion. keeps_table. Qed.

#[local] Hint Resolve keeps_SetButton keeps_SetHatButton keeps_SetAxis
  keeps_SetBattery keeps_SetMotion : keeps.

Lemma keeps_ResetButtonState : keeps table_only ResetButtonState.
Proof. unfold ResetButtonState. keeps_table. Qed.

Lemma keeps_ResetAnalogState : keeps table_only ResetAnalogState.
Proof. unfold ResetAnalogState. keeps_table. Qed.

Lemma keeps_later_of_table {A} (m : M A) : keeps table_only m -> keeps later m.
Proof. intros H e. apply table_only_later, H. Qed.

Lemma SetCallback_eq ii e :
  SetCallback ii e =
  (Ok (last_callback_key e),
   set_last_callback_key (to_int (last_callback_key e + 1))
     (set_callback_list
        (insert_or_assign (last_callback_key e) ii (callback_list e)) e),
   []).
Proof. reflexivity. Qed.

Lemma keeps_SetCallback ii : keeps later (SetCallback ii).
Proof. intros e. rewrite SetCallback_eq. by intros id. Qed.

Lemma keeps_DeleteCallback key : keeps later (DeleteCallback key).
Proof.
  intros e. unfold DeleteCallback. run.
  destruct (callback_list e !! key); by intros id.
Qed.

Lemma keeps_exec c : keeps later (exec c).
Proof.
  destruct c; simpl;
    try (apply keeps_discard; [apply later_refl|apply later_trans|]);
    try (apply keeps_later_of_table; auto with keeps; fail).
  - apply keeps_later_of_table, keeps_ResetButtonState.
  - apply keeps_later_of_table, keeps_ResetAnalogState.
  - by intros e id.
  - by intros e id.
  - apply keeps_SetCallback.
  - by intros e id.
  - apply keeps_DeleteCallback.
Qed.

Lemma run_calls_later cs e : later e (run_calls cs e).
Proof.
  revert e. induction cs as [|c cs IH]; intros e; simpl.
  - apply later_refl.
  - eapply later_trans; [apply keeps_exec|apply IH].
Qed.

(** ** Callback keys *)

Lemma to_int_small z : INT_MIN <= z <= INT_MAX -> to_int z = z.
Proof.
  unfold to_int, INT_MIN, INT_MAX. intros Hz.
  rewrite Z.mod_small; lia.
Qed.


Lemma subscriptions_in_nonneg cs : 0 <= subscriptions_in cs.
Proof. induction cs as [|c cs IH]; simpl; [lia|]. destruct (is_SetCallback c); lia. Qed.


(** Only [SetCallback] moves the key counter, to the next [int]. *)
Lemma exec_counter c e :
  last_callback_key (engine_of (exec c e)) =
  if is_SetCallback c then to_int (last_callback_key e + 1)
  else last_callback_key e.
Proof.
  assert (forall m : M unit, keeps table_only m ->
            last_callback_key (engine_of (m e)) = last_callback_key e) as Htab.
  { intros m Hm. by destruct (Hm e) as (_ & _ & _ & Hk & _). }
  destruct c; cbn [is_SetCallback exec];
    try (apply Htab;
         first [apply keeps_discard;
                [apply table_only_refl|apply table_only_trans|]|idtac];
         first [apply keeps_ResetButtonState | apply keeps_ResetAnalogState
               | auto with keeps]; fail);
    try reflexivity.
  unfold DeleteCallback. run. by destruct (callback_list e !! key).
Qed.

(** As long as the counter stays within [INT_MAX], it counts the calls of
    [SetCallback]. *)
Lemma run_calls_counter cs e :
  INT_MIN <= last_callback_key e ->
  last_callback_key e + subscriptions_in cs <= INT_MAX ->
  last_callback_key (run_calls cs e) = last_callback_key e + subscriptions_in cs.
Proof.
  revert e. induction cs as [|c cs IH]; intros e Hmin Hmax.
  - simpl. lia.
  - pose proof (subscriptions_in_nonneg cs) as Hpos.
    pose proof (exec_counter c e) as Hc.
    cbn [subscriptions_in] in *.
    change (run_calls (c :: cs) e) with (run_calls cs (engine_of (exec c e))).
    destruct (is_SetCallback c).
    + rewrite to_int_small in Hc by lia. rewrite IH; lia.
    + rewrite IH; lia.
Qed.







(** Three subscriptions get the keys 0, 1 and 2; after the middle one is
    deleted the next subscription gets 3. *)
Example callback_keys_example :
  let e1 := engine_of (SetCallback listener_A5 engine_fresh) in
  let e2 := engine_of (SetCallback listener_A5 e1) in
  let e3 := engine_of (SetCallback listener_A5 e2) in
  let e4 := engine_of (DeleteCallback 1 e3) in
  outcome_of (SetCallback listener_A5 engine_fresh) = Ok 0 /\
  outcome_of (SetCallback listener_A5 e1) = Ok 1 /\
  outcome_of (SetCallback listener_A5 e2) = Ok 2 /\
  callback_list e4 !! 1 = None /\
  outcome_of (SetCallback listener_A5 e4) = Ok 3.
Proof. repeat apply conj; vm_compute; reflexivity. Qed.

(** ** Devices that were never registered *)

Lemma PreSetController_registers id e :
  is_Some (controller_list (engine_of (PreSetController id e)) !! id).
Proof.
  unfold PreSetController, modify, engine_of. simpl.
  rewrite try_emplace_lookup. done.
Qed.

Lemma registered_calls_return e id idx :
  is_Some (controller_list e !! id) ->
  (forall v, outcome_of (SetButton id idx v e) = Ok tt) /\
  (forall v, outcome_of (SetHatButton id idx v e) = Ok tt) /\
  (forall v, outcome_of (SetAxis id idx v e) = Ok tt) /\
  (forall v, outcome_of (SetBattery id v e) = Ok tt) /\
  (forall v, outcome_of (SetMotion id idx v e) = Ok tt) /\
  outcome_of (PreSetButton id idx e) = Ok tt /\
  outcome_of (PreSetHatButton id idx e) = Ok tt /\
  outcome_of (PreSetAxis id idx e) = Ok tt /\
  outcome_of (PreSetMotion id idx e) = Ok tt.
Proof.
  intros Hc. repeat apply conj; try intros v.
  - by apply SetButton_ok.
  - by rewrite SetHatButton_eq.
  - by rewrite SetAxis_eq.
  - by rewrite SetBattery_eq.
  - by destruct (SetMotion_eq e id idx v Hc) as (t & -> & _).
  - by apply PreSetButton_stored.
  - by apply PreSetHatButton_stored.
  - by apply PreSetAxis_stored.
  - by apply PreSetMotion_stored.
Qed.

(** C10. On a device that is not in the controller table, every [Set] and
    every [PreSetButton], [PreSetHatButton], [PreSetAxis] and [PreSetMotion]
    ends with [std::out_of_range] and leaves the engine as it was, with
    nothing logged.  Once [PreSetController] has been called for the
    device, and whatever calls follow, each of them returns. *)
Theorem unregistered_device_faults e id idx :
  (controller_list e !! id = None ->
     (forall v, SetButton id idx v e = (Throw std_out_of_range, e, [])) /\
     (forall v, SetHatButton id idx v e = (Throw std_out_of_range, e, [])) /\
     (forall v, SetAxis id idx v e = (Throw std_out_of_range, e, [])) /\
     (forall v, SetBattery id v e = (Throw std_out_of_range, e, [])) /\
     (forall v, SetMotion id idx v e = (Throw std_out_of_range, e, [])) /\
     PreSetButton id idx e = (Throw std_out_of_range, e, []) /\
     PreSetHatButton id idx e = (Throw std_out_of_range, e, []) /\
     PreSetAxis id idx e = (Throw std_out_of_range, e, []) /\
     PreSetMotion id idx e = (Throw std_out_of_range, e, [])) /\
  (forall cs e',
     e' = run_calls cs (engine_of (PreSetController id e)) ->
     (forall v, outcome_of (SetButton id idx v e') = Ok tt) /\
     (forall v, outcome_of (SetHatButton id idx v e') = Ok tt) /\
     (forall v, outcome_of (SetAxis id idx v e') = Ok tt) /\
     (forall v, outcome_of (SetBattery id v e') = Ok tt) /\
     (forall v, outcome_of (SetMotion id idx v e') = Ok tt) /\
     outcome_of (PreSetButton id idx e') = Ok tt /\
     outcome_of (PreSetHatButton id idx e') = Ok tt /\
     outcome_of (PreSetAxis id idx e') = Ok tt /\
     outcome_of (PreSetMotion id idx e') = Ok tt).
Proof.
  split.
  - intros Hc. repeat apply conj; try intros v;
      by apply controller_at_absent.
  - intros cs e' ->. apply registered_calls_return.
    apply (run_calls_later cs), PreSetController_registers.
Qed.

Lemma unregistered_device_faults_witness :
  (controller_list engine_fresh !! padA = None /\
   SetButton padA 0 true engine_fresh =
     (Throw std_out_of_range, engine_fresh, [])) /\
  outcome_of
    (SetButton padA 0 true (engine_of (PreSetController padA engine_fresh)))
    = Ok tt.
Proof.
  destruct (unregistered_device_faults engine_fresh padA 0) as [Hfault Hreg].
  assert (controller_list engine_fresh !! padA = None) as Hc
    by (vm_compute; reflexivity).
  split; [split; [exact Hc|exact (proj1 (Hfault Hc) true)]|].
  exact (proj1 (Hreg [] _ eq_refl) true).
Defined.

(** ** Resets *)

Lemma bind_ok {A B} (m : M A) (k : A -> M B) e a :
  outcome_of (m e) = Ok a ->
  bind m k e =
  (outcome_of (k a (engine_of (m e))), engine_of (k a (engine_of (m e))),
   trace_of (m e) ++ trace_of (k a (engine_of (m e)))).
Proof.
  unfold bind, outcome_of, engine_of, trace_of.
  destruct (m e) as [[r e1] t1]. simpl. intros ->.
  by destruct (k a e1) as [[r2 e2] t2].
Qed.

Lemma for_each_inv {X} (I : InputEngine -> Prop) (g : X -> list Event)
    (l : list X) (body : X -> M unit) :
  (forall x e, x ∈ l -> I e ->
     outcome_of (body x e) = Ok tt /\ I (engine_of (body x e)) /\
     trace_of (body x e) = g x) ->
  forall e, I e ->
    outcome_of (for_each l body e) = Ok tt /\
    I (engine_of (for_each l body e)) /\
    trace_of (for_each l body e) = flat_map g l.
Proof.
  induction l as [|x l IH]; intros Hbody e He; simpl; [done|].
  destruct (Hbody x e) as (Hok & HI & Ht); [left|done|].
  rewrite (bind_ok _ _ _ _ Hok).
  destruct (IH (fun y e' Hy => Hbody y e' (list_elem_of_further _ _ _ Hy))
              _ HI) as (Hok' & HI' & Ht').
  repeat apply conj; [exact Hok'|exact HI'|].
  exact (f_equal2 (@app Event) Ht Ht').
Qed.

Lemma for_each_pres {X} (I P : InputEngine -> Prop) (l : list X)
    (body : X -> M unit) :
  (forall x e, x ∈ l -> I e ->
     outcome_of (body x e) = Ok tt /\ I (engine_of (body x e))) ->
  (forall x e, x ∈ l -> I e -> P e -> P (engine_of (body x e))) ->
  forall e, I e -> P e -> P (engine_of (for_each l body e)).
Proof.
  induction l as [|x l IH]; intros Hbody Hpres e He HP; simpl; [done|].
  destruct (Hbody x e) as (Hok & HI); [left|done|].
  rewrite (bind_ok _ _ _ _ Hok). unfold engine_of at 1. simpl.
  apply IH; [| |done|].
  - intros y e' Hy. apply Hbody. by right.
  - intros y e' Hy. apply Hpres. by right.
  - apply Hpres; [left|done|done].
Qed.

Lemma for_each_post {X} (I P : InputEngine -> Prop) (l : list X)
    (body : X -> M unit) x :
  (forall y e, y ∈ l -> I e ->
     outcome_of (body y e) = Ok tt /\ I (engine_of (body y e))) ->
  (forall y e, y ∈ l -> I e -> P e -> P (engine_of (body y e))) ->
  x ∈ l ->
  (forall e, I e -> P (engine_of (body x e))) ->
  forall e, I e -> P (engine_of (for_each l body e)).
Proof.
  induction l as [|y l IH]; intros Hbody Hpres Hx Hest e He; simpl.
  - by apply elem_of_nil in Hx.
  - destruct (Hbody y e) as (Hok & HI); [left|done|].
    rewrite (bind_ok _ _ _ _ Hok). unfold engine_of at 1. simpl.
    apply elem_of_cons in Hx as [->|Hx].
    + apply (for_each_pres I P); [| |done|by apply Hest].
      * intros z e' Hz. apply Hbody. by right.
      * intros z e' Hz. apply Hpres. by right.
    + apply IH; [| |done|done|done].
      * intros z e' Hz. apply Hbody. by right.
      * intros z e' Hz. apply Hpres. by right.
Qed.

Lemma reset_inv_refl e : reset_inv e e.
Proof. split; [apply table_only_refl|done]. Qed.

Lemma reset_inv_registered e e' id :
  reset_inv e e' -> is_Some (controller_list e !! id) ->
  is_Some (controller_list e' !! id).
Proof. intros [(_ & _ & _ & _ & _ & _ & H) _]. apply H. Qed.

Lemma reset_inv_notify e e' id ty idx :
  reset_inv e e' -> notify_trace id ty idx e' = notify_trace id ty idx e.
Proof.
  intros [(_ & _ & _ & _ & H & _) _]. unfold notify_trace. by rewrite H.
Qed.

Lemma reset_inv_normal e e' :
  reset_inv e e' -> configuring e = false -> configuring e' = false.
Proof. intros [(_ & H & _) _]. by rewrite H. Qed.

Lemma observer_of_normal e : configuring e = false -> observer_of e = None.
Proof. unfold observer_of. by intros ->. Qed.

Lemma written_configuring id f e : configuring e = true -> written id f e = e.
Proof. unfold written. by intros ->. Qed.

Lemma SetButton_in_reset e e' id c b v :
  controller_list e !! id = Some c ->
  is_Some (buttons c !! b) ->
  reset_inv e e' ->
  outcome_of (SetButton id b v e') = Ok tt /\
  reset_inv e (engine_of (SetButton id b v e')) /\
  trace_of (SetButton id b v e') = trace_of (SetButton id b v e).
Proof.
  intros Hc [old Hb] Hinv.
  assert (is_Some (controller_list e' !! id)) as Hc'.
  { by eapply reset_inv_registered. }
  split; [by apply SetButton_ok|].
  destruct (configuring e) eqn:Hcfg.
  - destruct Hinv as [_ He]. rewrite (He Hcfg).
    split; [|done]. split; [apply keeps_SetButton|]. intros _.
    rewrite (SetButton_engine e id b v old).
    + by apply written_configuring.
    + apply stored_button_Some. eauto.
  - split.
    + split; [|intros ?; congruence]. eapply table_only_trans; [apply Hinv|].
      apply keeps_SetButton.
    + rewrite !SetButton_normal; eauto using reset_inv_normal.
      unfold trace_of. simpl. by apply reset_inv_notify.
Qed.

Lemma SetHatButton_in_reset e e' id b v :
  is_Some (controller_list e !! id) ->
  reset_inv e e' ->
  outcome_of (SetHatButton id b v e') = Ok tt /\
  reset_inv e (engine_of (SetHatButton id b v e')) /\
  trace_of (SetHatButton id b v e') = trace_of (SetHatButton id b v e).
Proof.
  intros Hc Hinv.
  assert (is_Some (controller_list e' !! id)) as Hc'.
  { by eapply reset_inv_registered. }
  split; [by rewrite SetHatButton_eq|].
  destruct (configuring e) eqn:Hcfg.
  - destruct Hinv as [_ He]. rewrite (He Hcfg).
    split; [|done]. split; [apply keeps_SetHatButton|]. intros _.
    rewrite SetHatButton_eq by done. unfold engine_of. simpl.
    by apply written_configuring.
  - split.
    + split; [|intros ?; congruence]. eapply table_only_trans; [apply Hinv|].
      apply keeps_SetHatButton.
    + rewrite !SetHatButton_eq by done. unfold trace_of. cbn [snd].
      rewrite !observer_of_normal by eauto using reset_inv_normal.
      f_equal. by apply reset_inv_notify.
Qed.

Lemma SetAxis_in_reset e e' id a v :
  is_Some (controller_list e !! id) ->
  reset_inv e e' ->
  outcome_of (SetAxis id a v e') = Ok tt /\
  reset_inv e (engine_of (SetAxis id a v e')) /\
  trace_of (SetAxis id a v e') = trace_of (SetAxis id a v e).
Proof.
  intros Hc Hinv.
  assert (is_Some (controller_list e' !! id)) as Hc'.
  { by eapply reset_inv_registered. }
  split; [by rewrite SetAxis_eq|].
  destruct (configuring e) eqn:Hcfg.
  - destruct Hinv as [_ He]. rewrite (He Hcfg).
    split; [|done]. split; [apply keeps_SetAxis|]. intros _.
    rewrite SetAxis_eq by done. unfold engine_of. simpl.
    by apply written_configuring.
  - split.
    + split; [|intros ?; congruence]. eapply table_only_trans; [apply Hinv|].
      apply keeps_SetAxis.
    + rewrite !SetAxis_eq by done. unfold trace_of at 1 3. cbn [snd].
      rewrite !observer_of_normal by eauto using reset_inv_normal.
      f_equal. by apply reset_inv_notify.
Qed.

Lemma gets_bind {A B} (f : InputEngine -> A) (k : A -> M B) e :
  (x <- gets f ;; k x) e = k (f e) e.
Proof. unfold bind, gets. by destruct (k (f e) e) as [[r e'] t]. Qed.

Lemma ResetButtonState_unfold e :
  ResetButtonState e =
  for_each (map_to_list (controller_list e)) reset_device_buttons e.
Proof. unfold ResetButtonState. by rewrite gets_bind. Qed.

Lemma ResetAnalogState_unfold e :
  ResetAnalogState e =
  for_each (map_to_list (controller_list e)) reset_device_axes e.
Proof. unfold ResetAnalogState. by rewrite gets_bind. Qed.

Lemma buttons_loop_inv e e' id c :
  controller_list e !! id = Some c ->
  reset_inv e e' ->
  let loop := for_each (map_to_list (buttons c))
                (fun button => SetButton id button.1 false) in
  outcome_of (loop e') = Ok tt /\
  reset_inv e (engine_of (loop e')) /\
  trace_of (loop e') =
    flat_map (fun button : Z * bool => trace_of (SetButton id button.1 false e))
      (map_to_list (buttons c)).
Proof.
  intros Hc Hinv. simpl.
  apply (for_each_inv (reset_inv e)
    (fun button : Z * bool => trace_of (SetButton id button.1 false e)));
    [|done].
  intros [b v] e1 Hin%elem_of_map_to_list He1. simpl.
  by apply (SetButton_in_reset e e1 id c).
Qed.

Lemma hats_loop_inv e e' id c :
  controller_list e !! id = Some c ->
  reset_inv e e' ->
  let loop := for_each (map_to_list (hat_buttons c))
                (fun button => SetHatButton id button.1 0) in
  outcome_of (loop e') = Ok tt /\
  reset_inv e (engine_of (loop e')) /\
  trace_of (loop e') =
    flat_map (fun button : Z * Z => trace_of (SetHatButton id button.1 0 e))
      (map_to_list (hat_buttons c)).
Proof.
  intros Hc Hinv. simpl.
  apply (for_each_inv (reset_inv e)
    (fun button : Z * Z => trace_of (SetHatButton id button.1 0 e)));
    [|done].
  intros [b v] e1 Hin He1. simpl. by apply SetHatButton_in_reset.
Qed.

Lemma reset_device_buttons_inv e e' id c :
  controller_list e !! id = Some c ->
  reset_inv e e' ->
  outcome_of (reset_device_buttons (id, c) e') = Ok tt /\
  reset_inv e (engine_of (reset_device_buttons (id, c) e')) /\
  trace_of (reset_device_buttons (id, c) e') =
    flat_map (fun button : Z * bool => trace_of (SetButton id button.1 false e))
      (map_to_list (buttons c)) ++
    flat_map (fun button : Z * Z => trace_of (SetHatButton id button.1 0 e))
      (map_to_list (hat_buttons c)).
Proof.
  intros Hc Hinv. unfold reset_device_buttons. simpl.
  destruct (buttons_loop_inv e e' id c Hc Hinv) as (Hok & Hinv1 & Ht1).
  rewrite (bind_ok _ _ _ _ Hok).
  destruct (hats_loop_inv e _ id c Hc Hinv1) as (Hok2 & Hinv2 & Ht2).
  split; [exact Hok2|]. split; [exact Hinv2|].
  exact (f_equal2 (@app Event) Ht1 Ht2).
Qed.

Lemma reset_device_axes_inv e e' id c :
  controller_list e !! id = Some c ->
  reset_inv e e' ->
  outcome_of (reset_device_axes (id, c) e') = Ok tt /\
  reset_inv e (engine_of (reset_device_axes (id, c) e')) /\
  trace_of (reset_device_axes (id, c) e') =
    flat_map (fun axis : Z * spec_float =>
        trace_of (SetAxis id axis.1 f32_zero e))
      (map_to_list (axes c)).
Proof.
  intros Hc Hinv. unfold reset_device_axes. simpl.
  apply (for_each_inv (reset_inv e)
    (fun axis : Z * spec_float => trace_of (SetAxis id axis.1 f32_zero e)));
    [|done].
  intros [a v] e1 Hin He1. simpl. by apply SetAxis_in_reset.
Qed.

Lemma ResetButtonState_inv e :
  outcome_of (ResetButtonState e) = Ok tt /\
  reset_inv e (engine_of (ResetButtonState e)) /\
  trace_of (ResetButtonState e) = reset_button_trace e.
Proof.
  rewrite ResetButtonState_unfold. unfold reset_button_trace.
  apply (for_each_inv (reset_inv e)
    (fun controller : PadIdentifier * ControllerData =>
       flat_map (fun button : Z * bool =>
           trace_of (SetButton controller.1 button.1 false e))
         (map_to_list (buttons controller.2)) ++
       flat_map (fun button : Z * Z =>
           trace_of (SetHatButton controller.1 button.1 0 e))
         (map_to_list (hat_buttons controller.2))));
    [|apply reset_inv_refl].
  intros [id c] e' Hin%elem_of_map_to_list He'.
  by apply reset_device_buttons_inv.
Qed.

Lemma ResetAnalogState_inv e :
  outcome_of (ResetAnalogState e) = Ok tt /\
  reset_inv e (engine_of (ResetAnalogState e)) /\
  trace_of (ResetAnalogState e) = reset_analog_trace e.
Proof.
  rewrite ResetAnalogState_unfold. unfold reset_analog_trace.
  apply (for_each_inv (reset_inv e)
    (fun controller : PadIdentifier * ControllerData =>
       flat_map (fun axis : Z * spec_float =>
           trace_of (SetAxis controller.1 axis.1 f32_zero e))
         (map_to_list (axes controller.2))));
    [|apply reset_inv_refl].
  intros [id c] e' Hin%elem_of_map_to_list He'.
  by apply reset_device_axes_inv.
Qed.

Lemma reset_button_trace_button e id b old ev :
  stored_button e id b = Some old ->
  ev ∈ trace_of (SetButton id b false e) -> ev ∈ reset_button_trace e.
Proof.
  intros (c & Hc & Hb)%stored_button_Some Hev. unfold reset_button_trace.
  apply list_elem_of_In, in_flat_map. exists (id, c). split.
  - by apply list_elem_of_In, elem_of_map_to_list.
  - apply in_or_app. left. apply in_flat_map. exists (b, old). split.
    + by apply list_elem_of_In, elem_of_map_to_list.
    + by apply list_elem_of_In.
Qed.

Lemma reset_button_trace_hat e id b old ev :
  stored_hat e id b = Some old ->
  ev ∈ trace_of (SetHatButton id b 0 e) -> ev ∈ reset_button_trace e.
Proof.
  intros (c & Hc & Hb)%stored_hat_Some Hev. unfold reset_button_trace.
  apply list_elem_of_In, in_flat_map. exists (id, c). split.
  - by apply list_elem_of_In, elem_of_map_to_list.
  - apply in_or_app. right. apply in_flat_map. exists (b, old). split.
    + by apply list_elem_of_In, elem_of_map_to_list.
    + by apply list_elem_of_In.
Qed.

Lemma reset_analog_trace_axis e id a old ev :
  stored_axis e id a = Some old ->
  ev ∈ trace_of (SetAxis id a f32_zero e) -> ev ∈ reset_analog_trace e.
Proof.
  intros (c & Hc & Hb)%stored_axis_Some Hev. unfold reset_analog_trace.
  apply list_elem_of_In, in_flat_map. exists (id, c). split.
  - by apply list_elem_of_In, elem_of_map_to_list.
  - apply in_flat_map. exists (a, old). split.
    + by apply list_elem_of_In, elem_of_map_to_list.
    + by apply list_elem_of_In.
Qed.

(** *** The table after a reset in normal mode *)

Lemma written_lookup id' f e id :
  configuring e = false ->
  controller_list (written id' f e) !! id =
  if decide (id' = id) then f <$> controller_list e !! id
  else controller_list e !! id.
Proof.
  intros Hcfg. unfold written. rewrite Hcfg. simpl.
  destruct (decide (id' = id)) as [->|Hne].
  - apply lookup_alter_eq.
  - by apply lookup_alter_ne.
Qed.

Lemma SetButton_false_pres e id' b' id b :
  is_Some (controller_list e !! id') -> configuring e = false ->
  stored_button e id b = Some false ->
  stored_button (engine_of (SetButton id' b' false e)) id b = Some false.
Proof.
  intros Hc Hcfg Hs. rewrite SetButton_normal by done.
  unfold engine_of, stored_button in *. simpl.
  rewrite written_lookup by done.
  destruct (decide (id' = id)) as [->|Hne]; [|done].
  destruct (controller_list e !! id) as [c|]; [|done]. simpl in *.
  unfold insert_or_assign. destruct (decide (b' = b)) as [->|Hb].
  - by rewrite lookup_insert_eq.
  - by rewrite lookup_insert_ne.
Qed.

Lemma SetButton_false_est e id b :
  is_Some (controller_list e !! id) -> configuring e = false ->
  stored_button (engine_of (SetButton id b false e)) id b = Some false.
Proof.
  intros [c Hc] Hcfg. rewrite SetButton_normal by done.
  unfold engine_of, stored_button. simpl.
  rewrite written_lookup, decide_True, Hc by done. simpl.
  unfold insert_or_assign. by rewrite lookup_insert_eq.
Qed.

Lemma SetButton_keeps_hat e id' b' v id h :
  is_Some (controller_list e !! id') -> configuring e = false ->
  stored_hat (engine_of (SetButton id' b' v e)) id h = stored_hat e id h.
Proof.
  intros Hc Hcfg. rewrite SetButton_normal by done.
  unfold engine_of, stored_hat. simpl.
  rewrite written_lookup by done.
  destruct (decide (id' = id)) as [->|Hne]; [|done].
  by destruct (controller_list e !! id).
Qed.

Lemma SetHatButton_keeps_button e id' h v id b :
  is_Some (controller_list e !! id') -> configuring e = false ->
  stored_button (engine_of (SetHatButton id' h v e)) id b =
  stored_button e id b.
Proof.
  intros Hc Hcfg. rewrite SetHatButton_eq by done.
  unfold engine_of, stored_button. simpl.
  rewrite written_lookup by done.
  destruct (decide (id' = id)) as [->|Hne]; [|done].
  by destruct (controller_list e !! id).
Qed.

Lemma SetHatButton_zero_pres e id' h' id h :
  is_Some (controller_list e !! id') -> configuring e = false ->
  stored_hat e id h = Some 0 ->
  stored_hat (engine_of (SetHatButton id' h' 0 e)) id h = Some 0.
Proof.
  intros Hc Hcfg Hs. rewrite SetHatButton_eq by done.
  unfold engine_of, stored_hat in *. simpl.
  rewrite written_lookup by done.
  destruct (decide (id' = id)) as [->|Hne]; [|done].
  destruct (controller_list e !! id) as [c|]; [|done]. simpl in *.
  unfold insert_or_assign. destruct (decide (h' = h)) as [->|Hb].
  - by rewrite lookup_insert_eq.
  - by rewrite lookup_insert_ne.
Qed.

Lemma SetHatButton_zero_est e id h :
  is_Some (controller_list e !! id) -> configuring e = false ->
  stored_hat (engine_of (SetHatButton id h 0 e)) id h = Some 0.
Proof.
  intros [c Hc] Hcfg. rewrite SetHatButton_eq by done.
  unfold engine_of, stored_hat. simpl.
  rewrite written_lookup, decide_True, Hc by done. simpl.
  unfold insert_or_assign. by rewrite lookup_insert_eq.
Qed.

Lemma SetAxis_zero_pres e id' a' id a :
  is_Some (controller_list e !! id') -> configuring e = false ->
  stored_axis e id a = Some f32_zero ->
  stored_axis (engine_of (SetAxis id' a' f32_zero e)) id a = Some f32_zero.
Proof.
  intros Hc Hcfg Hs. rewrite SetAxis_eq by done.
  unfold engine_of, stored_axis in *. simpl.
  rewrite written_lookup by done.
  destruct (decide (id' = id)) as [->|Hne]; [|done].
  destruct (controller_list e !! id) as [c|]; [|done]. simpl in *.
  unfold insert_or_assign. destruct (decide (a' = a)) as [->|Hb].
  - by rewrite lookup_insert_eq.
  - by rewrite lookup_insert_ne.
Qed.

Lemma SetAxis_zero_est e id a :
  is_Some (controller_list e !! id) -> configuring e = false ->
  stored_axis (engine_of (SetAxis id a f32_zero e)) id a = Some f32_zero.
Proof.
  intros [c Hc] Hcfg. rewrite SetAxis_eq by done.
  unfold engine_of, stored_axis. simpl.
  rewrite written_lookup, decide_True, Hc by done. simpl.
  unfold insert_or_assign. by rewrite lookup_insert_eq.
Qed.

Section LoopsOfReset.
Variable e : InputEngine.
Variable P : InputEngine -> Prop.
Variable id : PadIdentifier.
Variable c : ControllerData.
Hypothesis Hc : controller_list e !! id = Some c.

Lemma buttons_loop_pres e1 :
  (forall b e2, reset_inv e e2 -> P e2 ->
     P (engine_of (SetButton id b false e2))) ->
  reset_inv e e1 -> P e1 ->
  P (engine_of (for_each (map_to_list (buttons c))
                  (fun button => SetButton id button.1 false) e1)).
Proof using Hc.
  intros Hpres. apply (for_each_pres (reset_inv e) P).
  - intros [b v] e2 Hin%elem_of_map_to_list He2. simpl.
    destruct (SetButton_in_reset e e2 id c b false Hc) as (? & ? & _); eauto.
  - intros [b v] e2 _. apply Hpres.
Qed.

Lemma buttons_loop_post b old e1 :
  buttons c !! b = Some old ->
  (forall b' e2, reset_inv e e2 -> P e2 ->
     P (engine_of (SetButton id b' false e2))) ->
  (forall e2, reset_inv e e2 -> P (engine_of (SetButton id b false e2))) ->
  reset_inv e e1 ->
  P (engine_of (for_each (map_to_list (buttons c))
                  (fun button => SetButton id button.1 false) e1)).
Proof using Hc.
  intros Hb Hpres Hest.
  apply (for_each_post (reset_inv e) P _ _ (b, old)).
  - intros [b' v] e2 Hin%elem_of_map_to_list He2. simpl.
    destruct (SetButton_in_reset e e2 id c b' false Hc) as (? & ? & _); eauto.
  - intros [b' v] e2 _. apply Hpres.
  - by apply elem_of_map_to_list.
  - apply Hest.
Qed.

Lemma hats_loop_pres e1 :
  (forall h e2, reset_inv e e2 -> P e2 ->
     P (engine_of (SetHatButton id h 0 e2))) ->
  reset_inv e e1 -> P e1 ->
  P (engine_of (for_each (map_to_list (hat_buttons c))
                  (fun button => SetHatButton id button.1 0) e1)).
Proof using Hc.
  intros Hpres. apply (for_each_pres (reset_inv e) P).
  - intros [h v] e2 Hin He2. simpl.
    destruct (SetHatButton_in_reset e e2 id h 0) as (? & ? & _); eauto.
  - intros [h v] e2 _. apply Hpres.
Qed.

Lemma hats_loop_post h old e1 :
  hat_buttons c !! h = Some old ->
  (forall h' e2, reset_inv e e2 -> P e2 ->
     P (engine_of (SetHatButton id h' 0 e2))) ->
  (forall e2, reset_inv e e2 -> P (engine_of (SetHatButton id h 0 e2))) ->
  reset_inv e e1 ->
  P (engine_of (for_each (map_to_list (hat_buttons c))
                  (fun button => SetHatButton id button.1 0) e1)).
Proof using Hc.
  intros Hb Hpres Hest.
  apply (for_each_post (reset_inv e) P _ _ (h, old)).
  - intros [h' v] e2 Hin He2. simpl.
    destruct (SetHatButton_in_reset e e2 id h' 0) as (? & ? & _); eauto.
  - intros [h' v] e2 _. apply Hpres.
  - by apply elem_of_map_to_list.
  - apply Hest.
Qed.

Lemma axes_loop_pres e1 :
  (forall a e2, reset_inv e e2 -> P e2 ->
     P (engine_of (SetAxis id a f32_zero e2))) ->
  reset_inv e e1 -> P e1 ->
  P (engine_of (reset_device_axes (id, c) e1)).
Proof using Hc.
  intros Hpres. apply (for_each_pres (reset_inv e) P).
  - intros [a v] e2 Hin He2. simpl.
    destruct (SetAxis_in_reset e e2 id a f32_zero) as (? & ? & _); eauto.
  - intros [a v] e2 _. apply Hpres.
Qed.

Lemma axes_loop_post a old e1 :
  axes c !! a = Some old ->
  (forall a' e2, reset_inv e e2 -> P e2 ->
     P (engine_of (SetAxis id a' f32_zero e2))) ->
  (forall e2, reset_inv e e2 -> P (engine_of (SetAxis id a f32_zero e2))) ->
  reset_inv e e1 ->
  P (engine_of (reset_device_axes (id, c) e1)).
Proof using Hc.
  intros Hb Hpres Hest.
  apply (for_each_post (reset_inv e) P _ _ (a, old)).
  - intros [a' v] e2 Hin He2. simpl.
    destruct (SetAxis_in_reset e e2 id a' f32_zero) as (? & ? & _); eauto.
  - intros [a' v] e2 _. apply Hpres.
  - by apply elem_of_map_to_list.
  - apply Hest.
Qed.

Lemma device_buttons_engine e1 :
  reset_inv e e1 ->
  engine_of (reset_device_buttons (id, c) e1) =
  engine_of
    (for_each (map_to_list (hat_buttons c))
       (fun button => SetHatButton id button.1 0)
       (engine_of
          (for_each (map_to_list (buttons c))
             (fun button => SetButton id button.1 false) e1))) /\
  reset_inv e
    (engine_of
       (for_each (map_to_list (buttons c))
          (fun button => SetButton id button.1 false) e1)).
Proof using Hc.
  intros He1. unfold reset_device_buttons. simpl.
  destruct (buttons_loop_inv e e1 id c Hc He1) as (Hok & Hinv1 & _).
  by rewrite (bind_ok _ _ _ _ Hok).
Qed.
End LoopsOfReset.

Lemma ResetButtonState_clears_button e id b old :
  configuring e = false ->
  stored_button e id b = Some old ->
  stored_button (engine_of (ResetButtonState e)) id b = Some false.
Proof.
  intros Hcfg (c & Hc & Hb)%stored_button_Some.
  rewrite ResetButtonState_unfold.
  pose (P := fun e' : InputEngine => stored_button e' id b = Some false).
  assert (forall id' b' e2, is_Some (controller_list e !! id') ->
            reset_inv e e2 -> P e2 ->
            P (engine_of (SetButton id' b' false e2))) as Hbtn.
  { intros id' b' e2 Hid He2. apply SetButton_false_pres;
      eauto using reset_inv_registered, reset_inv_normal. }
  assert (forall id' h v e2, is_Some (controller_list e !! id') ->
            reset_inv e e2 -> P e2 ->
            P (engine_of (SetHatButton id' h v e2))) as Hhat.
  { intros id' h v e2 Hid He2 HP. unfold P.
    rewrite SetHatButton_keeps_button;
      eauto using reset_inv_registered, reset_inv_normal. }
  apply (for_each_post (reset_inv e) P _ _ (id, c)).
  - intros [id' c'] e1 Hin%elem_of_map_to_list He1.
    destruct (reset_device_buttons_inv e e1 id' c') as (? & ? & _); eauto.
  - intros [id' c'] e1 Hin%elem_of_map_to_list He1 HP.
    destruct (device_buttons_engine e id' c' Hin e1 He1) as [-> Hinv1].
    apply (hats_loop_pres e P id' c'); eauto.
    apply (buttons_loop_pres e P id' c'); eauto.
  - by apply elem_of_map_to_list.
  - intros e1 He1.
    destruct (device_buttons_engine e id c Hc e1 He1) as [-> Hinv1].
    apply (hats_loop_pres e P id c); eauto.
    apply (buttons_loop_post e P id c Hc b old); eauto.
    intros e2 He2. apply SetButton_false_est;
      eauto using reset_inv_registered, reset_inv_normal.
  - apply reset_inv_refl.
Qed.

Lemma ResetButtonState_clears_hat e id h old :
  configuring e = false ->
  stored_hat e id h = Some old ->
  stored_hat (engine_of (ResetButtonState e)) id h = Some 0.
Proof.
  intros Hcfg (c & Hc & Hb)%stored_hat_Some.
  rewrite ResetButtonState_unfold.
  pose (P := fun e' : InputEngine => stored_hat e' id h = Some 0).
  assert (forall id' b' e2, is_Some (controller_list e !! id') ->
            reset_inv e e2 -> P e2 ->
            P (engine_of (SetButton id' b' false e2))) as Hbtn.
  { intros id' b' e2 Hid He2 HP. unfold P.
    rewrite SetButton_keeps_hat;
      eauto using reset_inv_registered, reset_inv_normal. }
  assert (forall id' h' e2, is_Some (controller_list e !! id') ->
            reset_inv e e2 -> P e2 ->
            P (engine_of (SetHatButton id' h' 0 e2))) as Hhat.
  { intros id' h' e2 Hid He2. apply SetHatButton_zero_pres;
      eauto using reset_inv_registered, reset_inv_normal. }
  apply (for_each_post (reset_inv e) P _ _ (id, c)).
  - intros [id' c'] e1 Hin%elem_of_map_to_list He1.
    destruct (reset_device_buttons_inv e e1 id' c') as (? & ? & _); eauto.
  - intros [id' c'] e1 Hin%elem_of_map_to_list He1 HP.
    destruct (device_buttons_engine e id' c' Hin e1 He1) as [-> Hinv1].
    apply (hats_loop_pres e P id' c'); eauto.
    apply (buttons_loop_pres e P id' c'); eauto.
  - by apply elem_of_map_to_list.
  - intros e1 He1.
    destruct (device_buttons_engine e id c Hc e1 He1) as [-> Hinv1].
    apply (hats_loop_post e P id c Hc h old); eauto.
    intros e2 He2. apply SetHatButton_zero_est;
      eauto using reset_inv_registered, reset_inv_normal.
  - apply reset_inv_refl.
Qed.

Lemma ResetAnalogState_clears_axis e id a old :
  configuring e = false ->
  stored_axis e id a = Some old ->
  stored_axis (engine_of (ResetAnalogState e)) id a = Some f32_zero.
Proof.
  intros Hcfg (c & Hc & Hb)%stored_axis_Some.
  rewrite ResetAnalogState_unfold.
  pose (P := fun e' : InputEngine => stored_axis e' id a = Some f32_zero).
  assert (forall id' a' e2, is_Some (controller_list e !! id') ->
            reset_inv e e2 -> P e2 ->
            P (engine_of (SetAxis id' a' f32_zero e2))) as Hax.
  { intros id' a' e2 Hid He2. apply SetAxis_zero_pres;
      eauto using reset_inv_registered, reset_inv_normal. }
  apply (for_each_post (reset_inv e) P _ _ (id, c)).
  - intros [id' c'] e1 Hin%elem_of_map_to_list He1.
    destruct (reset_device_axes_inv e e1 id' c') as (? & ? & _); eauto.
  - intros [id' c'] e1 Hin%elem_of_map_to_list He1 HP.
    apply (axes_loop_pres e P id' c'); eauto.
  - by apply elem_of_map_to_list.
  - intros e1 He1.
    apply (axes_loop_post e P id c Hc a old); eauto.
    intros e2 He2. apply SetAxis_zero_est;
      eauto using reset_inv_registered, reset_inv_normal.
  - apply reset_inv_refl.
Qed.

Lemma elem_of_mapping_events d t :
  d ∈ mapping_events t <-> exists f, CallOnData f d ∈ t.
Proof.
  unfold mapping_events. rewrite list_elem_of_omap. split.
  - intros (ev & Hin & Hev). destruct ev; try done.
    injection Hev as ->. eauto.
  - intros [f Hin]. by exists (CallOnData f d).
Qed.

Lemma mapping_events_mono (t t' : list Event) d :
  (forall ev, ev ∈ t -> ev ∈ t') ->
  d ∈ mapping_events t -> d ∈ mapping_events t'.
Proof.
  intros Hsub [f Hin]%elem_of_mapping_events.
  apply elem_of_mapping_events. exists f. by apply Hsub.
Qed.

(** C9. [ResetButtonState] and [ResetAnalogState] return, and what they
    make observable is what the calls [SetButton(id, b, false)] and
    [SetHatButton(id, h, 0)], respectively [SetAxis(id, a, 0.0)], make
    observable, one call per device and index in the table.  In normal mode
    every button then reads [false], every hat 0 and every axis 0.0; in
    configuring mode the table is left as it was.  A listener of an input
    in the table is notified, and in configuring mode with a mapping
    observer a held button, a set hat direction and a deflected axis are
    each reported to the observer. *)
Theorem Reset_routes_through_Set e :
  (outcome_of (ResetButtonState e) = Ok tt /\
   trace_of (ResetButtonState e) = reset_button_trace e) /\
  (outcome_of (ResetAnalogState e) = Ok tt /\
   trace_of (ResetAnalogState e) = reset_analog_trace e) /\
  (configuring e = false ->
     forall id idx,
       (is_Some (stored_button e id idx) ->
          stored_button (engine_of (ResetButtonState e)) id idx = Some false) /\
       (is_Some (stored_hat e id idx) ->
          stored_hat (engine_of (ResetButtonState e)) id idx = Some 0) /\
       (is_Some (stored_axis e id idx) ->
          stored_axis (engine_of (ResetAnalogState e)) id idx = Some f32_zero)) /\
  (configuring e = true ->
     engine_of (ResetButtonState e) = e /\ engine_of (ResetAnalogState e) = e) /\
  (forall id idx k f,
     (is_Some (stored_button e id idx) -> subscribed e k f id Button idx ->
        CallOnChange k f ∈ trace_of (ResetButtonState e)) /\
     (is_Some (stored_hat e id idx) -> subscribed e k f id HatButton idx ->
        CallOnChange k f ∈ trace_of (ResetButtonState e)) /\
     (is_Some (stored_axis e id idx) -> subscribed e k f id Analog idx ->
        CallOnChange k f ∈ trace_of (ResetAnalogState e))) /\
  (forall f, configuring e = true -> on_data (mapping_callback e) = Some f ->
     forall id idx,
     (stored_button e id idx = Some true ->
        mkData (input_engine e) id Button idx false EmptyString f32_zero BasicMotion_zero
          ∈ mapping_events (trace_of (ResetButtonState e))) /\
     (forall old i, stored_hat e id idx = Some old -> 0 <= i < 8 ->
        Z.testbit old i = true ->
        hat_event e id idx (2 ^ i)
          ∈ mapping_events (trace_of (ResetButtonState e))) /\
     (forall old, stored_axis e id idx = Some old ->
        f32_lt (f32_abs (f32_sub f32_zero old)) f32_0_5 = false ->
        mkData (input_engine e) id Analog idx false EmptyString f32_zero BasicMotion_zero
          ∈ mapping_events (trace_of (ResetAnalogState e)))).
Proof.
  destruct (ResetButtonState_inv e) as (Hbok & [_ Hbcfg] & Hbt).
  destruct (ResetAnalogState_inv e) as (Haok & [_ Hacfg] & Hat).
  split; [done|]. split; [done|]. split; [|split; [|split]].
  - intros Hcfg id idx. repeat apply conj; intros [old Hs].
    + by apply (ResetButtonState_clears_button e id idx old).
    + by apply (ResetButtonState_clears_hat e id idx old).
    + by apply (ResetAnalogState_clears_axis e id idx old).
  - intros Hcfg. split; [by apply Hbcfg|by apply Hacfg].
  - intros id idx k f. rewrite Hbt, Hat.
    repeat apply conj; intros [old Hs] Hsub.
    + apply (reset_button_trace_button e id idx old); [done|].
      apply (notified_iff_subscribed e id Button idx); [|done].
      apply SetButton_notifications.
      apply stored_button_Some in Hs as (c & -> & _). done.
    + apply (reset_button_trace_hat e id idx old); [done|].
      apply (notified_iff_subscribed e id HatButton idx); [|done].
      apply SetHatButton_notifications.
      apply stored_hat_Some in Hs as (c & -> & _). done.
    + apply (reset_analog_trace_axis e id idx old); [done|].
      apply (notified_iff_subscribed e id Analog idx); [|done].
      apply SetAxis_notifications.
      apply stored_axis_Some in Hs as (c & -> & _). done.
  - intros f Hcfg Hobs id idx. rewrite Hbt, Hat. repeat apply conj.
    + intros Hs.
      apply (mapping_events_mono (trace_of (SetButton id idx false e)));
        [intros ev; by apply (reset_button_trace_button e id idx true)|].
      rewrite (SetButton_trace e id idx false true Hs).
      rewrite (observer_of_configuring e f), mapping_events_app by done.
      apply elem_of_app. right. simpl. by left.
    + intros old i Hs Hi Hbit.
      apply (mapping_events_mono (trace_of (SetHatButton id idx 0 e)));
        [intros ev; by apply (reset_button_trace_hat e id idx old)|].
      rewrite (SetHatButton_mapping_events e id idx f old) by done.
      apply list_elem_of_In, in_map_iff. exists i. split; [done|].
      apply filter_In. split.
      * simpl. lia.
      * unfold bit_differs. by rewrite Z.bits_0, Hbit.
    + intros old Hs Hlt.
      apply (mapping_events_mono (trace_of (SetAxis id idx f32_zero e)));
        [intros ev; by apply (reset_analog_trace_axis e id idx old)|].
      rewrite SetAxis_mapping_events with (f := f); [|
        apply stored_axis_Some in Hs as (c & -> & _); done|done|done].
      rewrite Hs. change (default f32_zero (Some old)) with old.
      rewrite Hlt. by left.
Qed.

Lemma Reset_routes_through_Set_witness :
  (configuring engine_playing = false /\
   is_Some (stored_button engine_playing padA 5) /\
   stored_button (engine_of (ResetButtonState engine_playing)) padA 5 =
     Some false) /\
  (subscribed engine_playing 0 1%nat padA Button 5 /\
   CallOnChange 0 1%nat ∈ trace_of (ResetButtonState engine_playing)) /\
  (configuring engine_held = true /\
   on_data (mapping_callback engine_held) = Some 7%nat /\
   stored_button engine_held padA 5 = Some true /\
   engine_of (ResetButtonState engine_held) = engine_held /\
   mkData "sdl" padA Button 5 false EmptyString f32_zero BasicMotion_zero
     ∈ mapping_events (trace_of (ResetButtonState engine_held))).
Proof.
  destruct (Reset_routes_through_Set engine_playing)
    as (_ & _ & Hclear & _ & Hnotify & _).
  destruct (Reset_routes_through_Set engine_held)
    as (_ & _ & _ & Hsame & _ & Hmap).
  assert (configuring engine_playing = false) as Hcfg
    by (vm_compute; reflexivity).
  assert (is_Some (stored_button engine_playing padA 5)) as Hs
    by (vm_compute; eexists; reflexivity).
  assert (subscribed engine_playing 0 1%nat padA Button 5) as Hsub.
  { exists listener_A5. repeat apply conj; vm_compute; reflexivity. }
  assert (configuring engine_held = true) as Hcfg'
    by (vm_compute; reflexivity).
  assert (on_data (mapping_callback engine_held) = Some 7%nat) as Hobs
    by (vm_compute; reflexivity).
  assert (stored_button engine_held padA 5 = Some true) as Hs'
    by (vm_compute; reflexivity).
  split; [|split].
  - split; [exact Hcfg|]. split; [exact Hs|].
    exact (proj1 (Hclear Hcfg padA 5) Hs).
  - split; [exact Hsub|]. exact (proj1 (Hnotify padA 5 0 1%nat) Hs Hsub).
  - split; [exact Hcfg'|]. split; [exact Hobs|]. split; [exact Hs'|].
    split; [exact (proj1 (Hsame Hcfg'))|].
    exact (proj1 (Hmap 7%nat Hcfg' Hobs padA 5) Hs').
Defined.

Lemma PreSet_never_overwrites_witness :
  is_Some (controller_list engine_playing !! padA) /\
  stored_button (engine_of (PreSetButton padA 5 engine_playing)) padA 5 =
    Some false /\
  engine_of (PreSetButton padA 5 engine_playing) = engine_playing /\
  stored_button (engine_of (PreSetButton padA 9 engine_playing)) padA 9 =
    Some false.
Proof.
  assert (is_Some (controller_list engine_playing !! padA)) as Hc
    by (vm_compute; eexists; reflexivity).
  destruct (PreSet_never_overwrites engine_playing padA 5 Hc)
    as ((_ & H5 & Hsame) & _).
  destruct (PreSet_never_overwrites engine_playing padA 9 Hc)
    as ((_ & H9 & _) & _).
  split; [exact Hc|]. split; [exact H5|]. split; [|exact H9].
  apply Hsame. vm_compute. eexists. reflexivity.
Defined.

(** Read for every identity, the claim fails on a device that was never
    registered: the entry is absent, and [PreSetButton] throws instead of
    registering it. *)
Lemma PreSet_unregistered_counterexample :
  ~ (stored_button engine_fresh padA 0 = None ->
     stored_button (engine_of (PreSetButton padA 0 engine_fresh)) padA 0 =
       Some false).
Proof.
  intros H. assert (stored_button engine_fresh padA 0 = None) as Habsent
    by (vm_compute; reflexivity).
  specialize (H Habsent). vm_compute in H. discriminate.
Qed.

(** Read for every call, the claim fails on a device that was never
    registered: [SetButton] throws before the listeners are scanned, so a
    listener of that very input is not notified. *)
Lemma listener_unregistered_counterexample :
  ~ (CallOnChange 1 2%nat ∈ trace_of (SetButton padC 5 true engine_stale) <->
     subscribed engine_stale 1 2%nat padC Button 5).
Proof.
  intros [_ H].
  assert (subscribed engine_stale 1 2%nat padC Button 5) as Hsub.
  { exists listener_C5. repeat apply conj; vm_compute; reflexivity. }
  specialize (H Hsub). vm_compute in H. by apply elem_of_nil in H.
Qed.

(** * Further properties of the engine *)

(** ** Mapping detection for buttons, motion and the battery *)

Lemma observer_of_Some e f :
  observer_of e = Some f <->
  configuring e = true /\ on_data (mapping_callback e) = Some f.
Proof.
  unfold observer_of. destruct (configuring e); simpl; naive_solver.
Qed.

Lemma SetButton_trace_any e id b v :
  is_Some (controller_list e !! id) ->
  trace_of (SetButton id b v e) =
  notify_trace id Button b e ++
  match observer_of e with
  | Some f =>
      if Bool.eqb v (default false (stored_button e id b)) then []
      else [CallOnData f (button_event e id b v)]
  | None => []
  end.
Proof.
  intros [c Hc].
  destruct (SetButton_eq e id b v c Hc) as [(f & Ho & ->)|[Ho ->]];
    rewrite Ho; unfold trace_of, stored_button; simpl.
  - by rewrite Hc.
  - by rewrite app_nil_r.
Qed.

Lemma SetMotion_trace e id m v :
  is_Some (controller_list e !! id) ->
  SetMotion id m v e =
  (Ok tt, written id (with_motions (insert_or_assign m v)) e,
   notify_trace id Motion m e ++
   match observer_of e with
   | Some f =>
       if motion_is_active v then [CallOnData f (motion_event e id m v)]
       else []
   | None => []
   end).
Proof.
  intros Hc. unfold SetMotion. rewrite set_then_trigger by done.
  unfold TriggerOnMotionChange, bind at 1 2.
  rewrite notify_pollers_eq, mapping_observer_eq, observer_of_written,
    notify_trace_written.
  destruct (observer_of e) as [f|] eqn:Ho; [|run; by rewrite ?app_nil_r].
  assert (written id (with_motions (insert_or_assign m v)) e = e) as ->.
  { apply written_configuring. by apply observer_of_Some in Ho as [? _]. }
  fold (exceeds f32_1_5 (accel_x v)) (exceeds f32_1_5 (accel_y v))
    (exceeds f32_1_5 (accel_z v)) (exceeds f32_0_6 (gyro_x v))
    (exceeds f32_0_6 (gyro_y v)) (exceeds f32_0_6 (gyro_z v)).
  fold (motion_is_active v).
  destruct (motion_is_active v); run; by rewrite ?app_nil_r.
Qed.

(** X1. In configuring mode with a mapping observer, [SetButton] on a
    registered device returns and hands the observer one event carrying the
    incoming value when that value differs from the stored one ([false]
    for a button that is not in the table), and no event when it is equal. *)
Theorem SetButton_detection e id button f :
  is_Some (controller_list e !! id) ->
  configuring e = true ->
  on_data (mapping_callback e) = Some f ->
  forall value,
    outcome_of (SetButton id button value e) = Ok tt /\
    mapping_events (trace_of (SetButton id button value e)) =
    if Bool.eqb value (default false (stored_button e id button)) then []
    else [button_event e id button value].
Proof.
  intros Hc Hcfg Hobs value. split; [by apply SetButton_ok|].
  rewrite SetButton_trace_any by done.
  rewrite (observer_of_configuring e f) by done.
  rewrite mapping_events_app, mapping_events_notify_trace.
  by destruct (Bool.eqb _ _).
Qed.

Lemma SetButton_detection_witness :
  (is_Some (controller_list engine_held !! padA) /\
   configuring engine_held = true /\
   on_data (mapping_callback engine_held) = Some 7%nat) /\
  mapping_events (trace_of (SetButton padA 5 false engine_held)) =
    [button_event engine_held padA 5 false] /\
  mapping_events (trace_of (SetButton padA 5 true engine_held)) = [].
Proof.
  assert (is_Some (controller_list engine_held !! padA)) as Hc
    by (vm_compute; eexists; reflexivity).
  assert (configuring engine_held = true) as Hcfg by (vm_compute; reflexivity).
  assert (on_data (mapping_callback engine_held) = Some 7%nat) as Hobs
    by (vm_compute; reflexivity).
  pose proof (SetButton_detection engine_held padA 5 7%nat Hc Hcfg Hobs) as H.
  split; [by repeat apply conj|]. split.
  - exact (proj2 (H false)).
  - exact (proj2 (H true)).
Defined.

Lemma GetButton_after_lazy_preset e id b c :
  controller_list e !! id = Some c ->
  buttons c !! b = None ->
  stored_button
    (set_controller_list
       (alter (with_buttons (try_emplace b false)) id (controller_list e)) e)
    id b = Some false.
Proof.
  intros Hc Hb. unfold stored_button. simpl.
  rewrite lookup_alter_eq, Hc. simpl. by rewrite try_emplace_lookup, Hb.
Qed.

(** X2. In configuring mode on a registered device, [SetHatButton],
    [SetAxis], [SetBattery] and [SetMotion] leave the engine exactly as it
    was, and so does [SetButton] when the button is in the table or no
    mapping observer is registered.  With an observer, [SetButton] on a
    button that is not in the table enters it with [false], whatever the
    incoming value. *)
Theorem configuring_mode_table_effect e id idx :
  is_Some (controller_list e !! id) ->
  configuring e = true ->
  (forall v, engine_of (SetHatButton id idx v e) = e) /\
  (forall v, engine_of (SetAxis id idx v e) = e) /\
  (forall v, engine_of (SetBattery id v e) = e) /\
  (forall v, engine_of (SetMotion id idx v e) = e) /\
  (forall v, is_Some (stored_button e id idx) \/
             on_data (mapping_callback e) = None ->
             engine_of (SetButton id idx v e) = e) /\
  (forall v f, stored_button e id idx = None ->
               on_data (mapping_callback e) = Some f ->
               stored_button (engine_of (SetButton id idx v e)) id idx =
                 Some false).
Proof.
  intros Hc Hcfg. repeat apply conj; intros v.
  - rewrite SetHatButton_eq by done. by apply written_configuring.
  - rewrite SetAxis_eq by done. by apply written_configuring.
  - rewrite SetBattery_eq by done. by apply written_configuring.
  - rewrite SetMotion_trace by done. by apply written_configuring.
  - intros [[old Hs]|Hnone].
    + rewrite (SetButton_engine e id idx v old Hs).
      by apply written_configuring.
    + destruct Hc as [c Hc].
      destruct (SetButton_eq e id idx v c Hc) as [(f & Ho & _)|[_ ->]].
      * apply observer_of_Some in Ho as [_ Ho]. congruence.
      * by apply written_configuring.
  - intros f Hs Hobs. destruct Hc as [c Hc].
    destruct (SetButton_eq e id idx v c Hc) as [(f' & _ & ->)|[Ho _]].
    + apply (GetButton_after_lazy_preset e id idx c Hc).
      unfold stored_button in Hs. by rewrite Hc in Hs.
    + rewrite (observer_of_configuring e f) in Ho; done.
Qed.

Lemma configuring_mode_table_effect_witness :
  (is_Some (controller_list engine_configuring !! padA) /\
   configuring engine_configuring = true) /\
  engine_of (SetAxis padA 0 f32_0_6 engine_configuring) = engine_configuring /\
  engine_of (SetButton padA 5 true engine_configuring) = engine_configuring /\
  (stored_button engine_configuring padA 9 = None /\
   stored_button (engine_of (SetButton padA 9 true engine_configuring)) padA 9
     = Some false).
Proof.
  assert (is_Some (controller_list engine_configuring !! padA)) as Hc
    by (vm_compute; eexists; reflexivity).
  assert (configuring engine_configuring = true) as Hcfg
    by (vm_compute; reflexivity).
  destruct (configuring_mode_table_effect engine_configuring padA 0 Hc Hcfg)
    as (_ & Hax & _).
  destruct (configuring_mode_table_effect engine_configuring padA 5 Hc Hcfg)
    as (_ & _ & _ & _ & Hb & _).
  destruct (configuring_mode_table_effect engine_configuring padA 9 Hc Hcfg)
    as (_ & _ & _ & _ & _ & Hlazy).
  assert (stored_button engine_configuring padA 9 = None) as H9
    by (vm_compute; reflexivity).
  split; [by split|]. split; [exact (Hax f32_0_6)|]. split.
  - apply Hb. left. vm_compute. eexists. reflexivity.
  - split; [exact H9|]. apply (Hlazy true 7%nat H9). vm_compute. reflexivity.
Defined.

(** X3. In configuring mode with a mapping observer, [SetMotion] on a
    registered device returns, leaves the table alone and hands the
    observer one event carrying the sample when the absolute value of some
    accelerometer component exceeds 1.5 or that of some gyroscope component
    exceeds 0.6, and no event otherwise.  The stored sample plays no part. *)
Theorem SetMotion_detection e id motion f :
  is_Some (controller_list e !! id) ->
  configuring e = true ->
  on_data (mapping_callback e) = Some f ->
  forall value,
    outcome_of (SetMotion id motion value e) = Ok tt /\
    engine_of (SetMotion id motion value e) = e /\
    (exceeds f32_1_5 (accel_x value) = true \/
     exceeds f32_1_5 (accel_y value) = true \/
     exceeds f32_1_5 (accel_z value) = true \/
     exceeds f32_0_6 (gyro_x value) = true \/
     exceeds f32_0_6 (gyro_y value) = true \/
     exceeds f32_0_6 (gyro_z value) = true ->
     mapping_events (trace_of (SetMotion id motion value e)) =
       [motion_event e id motion value]) /\
    (exceeds f32_1_5 (accel_x value) = false ->
     exceeds f32_1_5 (accel_y value) = false ->
     exceeds f32_1_5 (accel_z value) = false ->
     exceeds f32_0_6 (gyro_x value) = false ->
     exceeds f32_0_6 (gyro_y value) = false ->
     exceeds f32_0_6 (gyro_z value) = false ->
     mapping_events (trace_of (SetMotion id motion value e)) = []).
Proof.
  intros Hc Hcfg Hobs value. rewrite SetMotion_trace by done.
  unfold outcome_of, engine_of, trace_of. simpl.
  rewrite (observer_of_configuring e f) by done.
  rewrite mapping_events_app, mapping_events_notify_trace. simpl.
  split; [done|]. split; [by apply written_configuring|]. split.
  - intros Hact.
    assert (motion_is_active value = true) as ->; [|done].
    unfold motion_is_active.
    destruct Hact as [-> | [-> | [-> | [-> | [-> | -> ]]]]];
      rewrite ?orb_true_r; done.
  - intros H1 H2 H3 H4 H5 H6. unfold motion_is_active.
    by rewrite H1, H2, H3, H4, H5, H6.
Qed.

Lemma SetMotion_detection_witness :
  (is_Some (controller_list engine_configuring !! padA) /\
   configuring engine_configuring = true /\
   on_data (mapping_callback engine_configuring) = Some 7%nat) /\
  mapping_events
    (trace_of (SetMotion padA 0 BasicMotion_zero engine_configuring)) = [] /\
  mapping_events
    (trace_of
       (SetMotion padA 0
          (mkMotion f32_1_5 f32_zero f32_zero f32_zero f32_zero f32_zero)
          engine_configuring)) =
    [motion_event engine_configuring padA 0
       (mkMotion f32_1_5 f32_zero f32_zero f32_zero f32_zero f32_zero)].
Proof.
  assert (is_Some (controller_list engine_configuring !! padA)) as Hc
    by (vm_compute; eexists; reflexivity).
  assert (configuring engine_configuring = true) as Hcfg
    by (vm_compute; reflexivity).
  assert (on_data (mapping_callback engine_configuring) = Some 7%nat) as Hobs
    by (vm_compute; reflexivity).
  pose proof (SetMotion_detection engine_configuring padA 0 7%nat Hc Hcfg Hobs)
    as H.
  split; [by repeat apply conj|]. split.
  - apply (proj2 (proj2 (proj2 (H BasicMotion_zero)))); vm_compute; reflexivity.
  - apply (proj1 (proj2 (proj2
      (H (mkMotion f32_1_5 f32_zero f32_zero f32_zero f32_zero f32_zero))))).
    right. right. right. left. vm_compute. reflexivity.
Defined.

(** ** What reaches the observer and the listeners *)

Lemma Set_absent e id idx :
  controller_list e !! id = None ->
  (forall v, SetButton id idx v e = (Throw std_out_of_range, e, [])) /\
  (forall v, SetHatButton id idx v e = (Throw std_out_of_range, e, [])) /\
  (forall v, SetAxis id idx v e = (Throw std_out_of_range, e, [])) /\
  (forall v, SetBattery id v e = (Throw std_out_of_range, e, [])) /\
  (forall v, SetMotion id idx v e = (Throw std_out_of_range, e, [])).
Proof.
  intros Hc. repeat apply conj; intros v; by apply controller_at_absent.
Qed.

Lemma CallOnData_not_notify e id ty idx f d :
  CallOnData f d ∈ notify_trace id ty idx e -> False.
Proof. intros (k & p & f' & Hev & _)%elem_of_notify_trace. done. Qed.

Lemma CallOnData_in_hat_step e f id b v idx f' d :
  CallOnData f' d ∈ hat_step e f id b v idx ->
  f' = f /\ d = hat_event e id b (to_u8 idx).
Proof.
  unfold hat_step. rewrite GetHatButton_eq.
  destruct (controller_list e !! id) as [c|]; [destruct (hat_buttons c !! b)|];
    unfold trace_of, outcome_of; simpl;
    destruct (Bool.eqb _ _); simpl;
    rewrite ?elem_of_cons, ?elem_of_nil; intros H;
    repeat (destruct H as [H|H]); try done;
    by injection H as -> ->.
Qed.

Lemma CallOnData_in_hat_trace e f id b v f' d :
  CallOnData f' d ∈ flat_map (hat_step e f id b v) hat_bits ->
  f' = f /\ exists i, 0 <= i < 8 /\ d = hat_event e id b (2 ^ i).
Proof.
  intros (idx & Hidx & Hin%list_elem_of_In)%list_elem_of_In%in_flat_map.
  apply CallOnData_in_hat_step in Hin as [-> ->]. split; [done|].
  unfold hat_bits in Hidx. simpl in Hidx.
  destruct Hidx as [<-|[<-|[<-|[<-|[<-|[<-|[<-|[<-|[]]]]]]]]].
  - by exists 0.
  - by exists 1.
  - by exists 2.
  - by exists 3.
  - by exists 4.
  - by exists 5.
  - by exists 6.
  - by exists 7.
Qed.

Lemma CallOnData_addressed e id idx f d :
  (forall v, CallOnData f d ∈ trace_of (SetButton id idx v e) ->
     configuring e = true /\ on_data (mapping_callback e) = Some f /\
     d = button_event e id idx v) /\
  (forall v, CallOnData f d ∈ trace_of (SetHatButton id idx v e) ->
     configuring e = true /\ on_data (mapping_callback e) = Some f /\
     exists i, 0 <= i < 8 /\ d = hat_event e id idx (2 ^ i)) /\
  (forall v, CallOnData f d ∈ trace_of (SetAxis id idx v e) ->
     configuring e = true /\ on_data (mapping_callback e) = Some f /\
     d = axis_event e id idx v) /\
  (forall v, CallOnData f d ∈ trace_of (SetBattery id v e) -> False) /\
  (forall v, CallOnData f d ∈ trace_of (SetMotion id idx v e) ->
     configuring e = true /\ on_data (mapping_callback e) = Some f /\
     d = motion_event e id idx v).
Proof.
  destruct (controller_list e !! id) as [c|] eqn:Hc.
  2:{ destruct (Set_absent e id idx Hc) as (Hb & Hh & Ha & Hbat & Hm).
      repeat apply conj; intros v;
        rewrite ?Hb, ?Hh, ?Ha, ?Hbat, ?Hm; unfold trace_of; simpl;
        by intros ?%elem_of_nil. }
  assert (is_Some (controller_list e !! id)) as Hreg by done.
  repeat apply conj; intros v.
  - rewrite SetButton_trace_any by done.
    intros [Hin|Hin]%elem_of_app; [by apply CallOnData_not_notify in Hin|].
    destruct (observer_of e) as [f'|] eqn:Ho; [|by apply elem_of_nil in Hin].
    destruct (Bool.eqb _ _); [by apply elem_of_nil in Hin|].
    apply list_elem_of_singleton in Hin. injection Hin as -> ->.
    by apply observer_of_Some in Ho as [? ?].
  - rewrite SetHatButton_eq by done. unfold trace_of. cbn [snd].
    intros [Hin|Hin]%elem_of_app; [by apply CallOnData_not_notify in Hin|].
    destruct (observer_of e) as [f'|] eqn:Ho; [|by apply elem_of_nil in Hin].
    apply observer_of_Some in Ho as [Hcfg Hobs].
    rewrite written_configuring in Hin by done.
    apply CallOnData_in_hat_trace in Hin as [-> Hi]. done.
  - rewrite SetAxis_eq by done. unfold trace_of at 1. cbn [snd].
    intros [Hin|Hin]%elem_of_app; [by apply CallOnData_not_notify in Hin|].
    destruct (observer_of e) as [f'|] eqn:Ho; [|by apply elem_of_nil in Hin].
    apply elem_of_app in Hin as [Hin|Hin].
    { exfalso. revert Hin. rewrite GetAxis_eq, Hc.
      destruct (axes c !! idx); unfold trace_of; simpl;
        rewrite ?elem_of_cons, ?elem_of_nil; naive_solver. }
    destruct (f32_lt _ _); [by apply elem_of_nil in Hin|].
    apply list_elem_of_singleton in Hin. injection Hin as -> ->.
    by apply observer_of_Some in Ho as [? ?].
  - rewrite SetBattery_eq by done. apply CallOnData_not_notify.
  - rewrite SetMotion_trace by done. unfold trace_of. cbn [snd].
    intros [Hin|Hin]%elem_of_app; [by apply CallOnData_not_notify in Hin|].
    destruct (observer_of e) as [f'|] eqn:Ho; [|by apply elem_of_nil in Hin].
    destruct (motion_is_active v); [|by apply elem_of_nil in Hin].
    apply list_elem_of_singleton in Hin. injection Hin as -> ->.
    by apply observer_of_Some in Ho as [? ?].
Qed.

(** X4. Whatever a mutator hands to a mapping observer, it hands to the
    observer that is registered, in configuring mode, and the event names
    the engine, the device, the kind and the index of the call: a button
    and an axis event carry the incoming value, a motion event the incoming
    sample, a hat event the name of one of the eight directions.
    [SetBattery] hands over nothing. *)
Theorem mapping_events_addressed e id idx f d :
  (forall v, CallOnData f d ∈ trace_of (SetButton id idx v e) ->
     configuring e = true /\ on_data (mapping_callback e) = Some f /\
     d = button_event e id idx v) /\
  (forall v, CallOnData f d ∈ trace_of (SetHatButton id idx v e) ->
     configuring e = true /\ on_data (mapping_callback e) = Some f /\
     exists i, 0 <= i < 8 /\ d = hat_event e id idx (2 ^ i)) /\
  (forall v, CallOnData f d ∈ trace_of (SetAxis id idx v e) ->
     configuring e = true /\ on_data (mapping_callback e) = Some f /\
     d = axis_event e id idx v) /\
  (forall v, CallOnData f d ∈ trace_of (SetBattery id v e) -> False) /\
  (forall v, CallOnData f d ∈ trace_of (SetMotion id idx v e) ->
     configuring e = true /\ on_data (mapping_callback e) = Some f /\
     d = motion_event e id idx v).
Proof. exact (CallOnData_addressed e id idx f d). Qed.

Lemma mapping_events_addressed_witness :
  CallOnData 7%nat (button_event engine_held padA 5 false)
    ∈ trace_of (SetButton padA 5 false engine_held) /\
  configuring engine_held = true /\
  on_data (mapping_callback engine_held) = Some 7%nat.
Proof.
  assert (CallOnData 7%nat (button_event engine_held padA 5 false)
            ∈ trace_of (SetButton padA 5 false engine_held)) as Hin.
  { apply list_elem_of_In. vm_compute. auto. }
  destruct (mapping_events_addressed engine_held padA 5 7%nat
              (button_event engine_held padA 5 false)) as (Hb & _).
  destruct (Hb false Hin) as (Hcfg & Hobs & _).
  by repeat apply conj.
Defined.

Lemma notifications_notify_one id ty idx kp :
  notifications (notify_one id ty idx kp) = [] \/
  exists f, notifications (notify_one id ty idx kp) = [(kp.1, f)].
Proof.
  unfold notify_one. destruct (negb _); [by left|].
  destruct (on_change _) as [f|]; [right; by exists f|by left].
Qed.

Lemma notifications_flat_notify id ty idx (l : list (Z * InputIdentifier)) :
  NoDup (l.*1) ->
  NoDup (notifications (flat_map (notify_one id ty idx) l)) /\
  forall k f, (k, f) ∈ notifications (flat_map (notify_one id ty idx) l) ->
              k ∈ l.*1.
Proof.
  induction l as [|kp l IH]; simpl; intros Hnd.
  - split; [constructor|]. intros k f H. by apply elem_of_nil in H.
  - apply NoDup_cons in Hnd as [Hkp Hnd]. destruct (IH Hnd) as [IH1 IH2].
    rewrite notifications_app.
    destruct (notifications_notify_one id ty idx kp) as [->|[f ->]]; simpl.
    + split; [done|]. intros k f H. right. by eapply IH2.
    + split.
      * apply NoDup_cons. split; [|done]. intros H. by apply IH2 in H.
      * intros k f' [[= -> ->]|H]%elem_of_cons; [by left|].
        right. by eapply IH2.
Qed.

Lemma NoDup_notifications_notify_trace id ty idx e :
  NoDup (notifications (notify_trace id ty idx e)).
Proof.
  unfold notify_trace. apply notifications_flat_notify.
  apply NoDup_fst_map_to_list.
Qed.

Lemma SetBattery_notifications e id v :
  is_Some (controller_list e !! id) ->
  notifications (trace_of (SetBattery id v e)) =
  notifications (notify_trace id Battery 0 e).
Proof. intros Hc. by rewrite SetBattery_eq. Qed.

Lemma SetMotion_notifications e id m v :
  is_Some (controller_list e !! id) ->
  notifications (trace_of (SetMotion id m v e)) =
  notifications (notify_trace id Motion m e).
Proof.
  intros Hc. destruct (SetMotion_eq e id m v Hc) as (t & -> & Ht).
  unfold trace_of. simpl. by rewrite notifications_app, Ht, app_nil_r.
Qed.

Lemma notifications_sound e id ty idx t :
  notifications t = [] \/
  notifications t = notifications (notify_trace id ty idx e) ->
  NoDup (notifications t) /\
  forall k f, (k, f) ∈ notifications t -> subscribed e k f id ty idx.
Proof.
  intros [->| ->].
  - split; [constructor|]. intros k f H. by apply elem_of_nil in H.
  - split; [apply NoDup_notifications_notify_trace|].
    intros k f H. apply elem_of_notifications in H.
    by apply (notified_iff_subscribed e id ty idx (notify_trace id ty idx e)).
Qed.

(** X5. In one call of a mutator, on any device, no subscription is
    notified twice, and a notifier that is invoked belongs to a
    subscription for the device, the kind and the index of the call. *)
Theorem listeners_notified_at_most_once e id idx :
  (forall v,
     NoDup (notifications (trace_of (SetButton id idx v e))) /\
     forall k f, (k, f) ∈ notifications (trace_of (SetButton id idx v e)) ->
                 subscribed e k f id Button idx) /\
  (forall v,
     NoDup (notifications (trace_of (SetHatButton id idx v e))) /\
     forall k f, (k, f) ∈ notifications (trace_of (SetHatButton id idx v e)) ->
                 subscribed e k f id HatButton idx) /\
  (forall v,
     NoDup (notifications (trace_of (SetAxis id idx v e))) /\
     forall k f, (k, f) ∈ notifications (trace_of (SetAxis id idx v e)) ->
                 subscribed e k f id Analog idx) /\
  (forall v,
     NoDup (notifications (trace_of (SetBattery id v e))) /\
     forall k f, (k, f) ∈ notifications (trace_of (SetBattery id v e)) ->
                 subscribed e k f id Battery 0) /\
  (forall v,
     NoDup (notifications (trace_of (SetMotion id idx v e))) /\
     forall k f, (k, f) ∈ notifications (trace_of (SetMotion id idx v e)) ->
                 subscribed e k f id Motion idx).
Proof.
  destruct (controller_list e !! id) as [c|] eqn:Hc.
  - assert (is_Some (controller_list e !! id)) as Hreg by done.
    repeat apply conj; intros v; apply notifications_sound; right.
    + by apply SetButton_notifications.
    + by apply SetHatButton_notifications.
    + by apply SetAxis_notifications.
    + by apply SetBattery_notifications.
    + by apply SetMotion_notifications.
  - destruct (Set_absent e id idx Hc) as (Hb & Hh & Ha & Hbat & Hm).
    repeat apply conj; intros v; apply notifications_sound; left;
      by rewrite ?Hb, ?Hh, ?Ha, ?Hbat, ?Hm.
Qed.

Lemma listeners_notified_at_most_once_witness :
  (0, 1%nat) ∈ notifications (trace_of (SetButton padA 5 true engine_playing)) /\
  subscribed engine_playing 0 1%nat padA Button 5.
Proof.
  assert ((0, 1%nat)
            ∈ notifications (trace_of (SetButton padA 5 true engine_playing)))
    as Hin.
  { apply list_elem_of_In. vm_compute. auto. }
  destruct (listeners_notified_at_most_once engine_playing padA 5) as (Hb & _).
  split; [exact Hin|]. exact (proj2 (Hb true) 0 1%nat Hin).
Defined.

Lemma notify_trace_only_notifies e id ty idx ev :
  ev ∈ notify_trace id ty idx e -> exists k f, ev = CallOnChange k f.
Proof. intros (k & p & f & -> & _)%elem_of_notify_trace. eauto. Qed.

Lemma notified_first_intro e id ty idx t :
  notifications t = [] -> notified_first (notify_trace id ty idx e ++ t).
Proof.
  intros Ht. exists (notify_trace id ty idx e), t.
  split; [done|]. split; [apply notify_trace_only_notifies|done].
Qed.

Lemma notified_first_nil : notified_first [].
Proof.
  exists [], []. split; [done|]. split; [|done].
  intros ev H. by apply elem_of_nil in H.
Qed.

(** X6. In the trace of a call of a mutator, the notifications of the
    listeners come first: the error lines and the events of the mapping
    observer follow the last notification. *)
Theorem listeners_notified_first e id idx :
  (forall v, notified_first (trace_of (SetButton id idx v e))) /\
  (forall v, notified_first (trace_of (SetHatButton id idx v e))) /\
  (forall v, notified_first (trace_of (SetAxis id idx v e))) /\
  (forall v, notified_first (trace_of (SetBattery id v e))) /\
  (forall v, notified_first (trace_of (SetMotion id idx v e))).
Proof.
  destruct (controller_list e !! id) as [c|] eqn:Hc.
  - assert (is_Some (controller_list e !! id)) as Hreg by done.
    repeat apply conj; intros v.
    + rewrite SetButton_trace_any by done. apply notified_first_intro.
      destruct (observer_of e); [|done]. by destruct (Bool.eqb _ _).
    + rewrite SetHatButton_eq by done. unfold trace_of. cbn [snd].
      apply notified_first_intro.
      destruct (observer_of e); [|done]. apply hat_trace_notifications.
    + rewrite SetAxis_eq by done. unfold trace_of at 1. cbn [snd].
      apply notified_first_intro.
      destruct (observer_of e); [|done].
      rewrite notifications_app, (proj2 (GetAxis_trace_quiet e id idx)).
      by destruct (f32_lt _ _).
    + rewrite SetBattery_eq by done. unfold trace_of. cbn [snd].
      rewrite <- (app_nil_r (notify_trace _ _ _ _)).
      by apply notified_first_intro.
    + destruct (SetMotion_eq e id idx v Hreg) as (t & -> & Ht).
      by apply notified_first_intro.
  - destruct (Set_absent e id idx Hc) as (Hb & Hh & Ha & Hbat & Hm).
    repeat apply conj; intros v; rewrite ?Hb, ?Hh, ?Ha, ?Hbat, ?Hm;
      apply notified_first_nil.
Qed.

(** ** Error lines *)

Lemma error_lines_app t1 t2 :
  error_lines (t1 ++ t2) = error_lines t1 ++ error_lines t2.
Proof. apply List.filter_app. Qed.

Lemma error_lines_notify_trace id ty idx e :
  error_lines (notify_trace id ty idx e) = [].
Proof.
  unfold notify_trace.
  induction (map_to_list (callback_list e)) as [|kp l IH]; simpl; [done|].
  rewrite error_lines_app, IH, app_nil_r. unfold notify_one.
  destruct (negb _); [done|]. by destruct (on_change _).
Qed.

Lemma error_lines_hat_step e f id b v idx c :
  controller_list e !! id = Some c ->
  error_lines (hat_step e f id b v idx) =
  match hat_buttons c !! b with
  | Some _ => []
  | None => [LogInvalidHatButton b]
  end.
Proof.
  intros Hc. unfold hat_step. rewrite GetHatButton_eq, Hc.
  destruct (hat_buttons c !! b); unfold trace_of, outcome_of; simpl;
    by destruct (Bool.eqb _ _).
Qed.

(** X7. On a registered device a mutator logs an error only while it
    looks for a binding, that is in configuring mode with a mapping
    observer, and only for an index that is not in the table: [SetAxis]
    then logs one line, [SetHatButton] one line for each of the eight
    directions.  [SetButton], [SetBattery] and [SetMotion] never log. *)
Theorem Set_error_lines e id idx :
  is_Some (controller_list e !! id) ->
  (forall v, error_lines (trace_of (SetButton id idx v e)) = []) /\
  (forall v, error_lines (trace_of (SetHatButton id idx v e)) =
     match observer_of e, stored_hat e id idx with
     | Some _, None => replicate 8 (LogInvalidHatButton idx)
     | _, _ => []
     end) /\
  (forall v, error_lines (trace_of (SetAxis id idx v e)) =
     match observer_of e, stored_axis e id idx with
     | Some _, None => [LogInvalidAxis idx]
     | _, _ => []
     end) /\
  (forall v, error_lines (trace_of (SetBattery id v e)) = []) /\
  (forall v, error_lines (trace_of (SetMotion id idx v e)) = []).
Proof.
  intros Hreg. destruct (Hreg) as [c Hc]. repeat apply conj; intros v.
  - rewrite SetButton_trace_any, error_lines_app, error_lines_notify_trace
      by done.
    destruct (observer_of e); [|done]. by destruct (Bool.eqb _ _).
  - rewrite SetHatButton_eq by done. unfold trace_of. cbn [snd].
    rewrite error_lines_app, error_lines_notify_trace.
    destruct (observer_of e) as [f|] eqn:Ho; [|done].
    apply observer_of_Some in Ho as [Hcfg _].
    rewrite written_configuring by done.
    unfold hat_bits, stored_hat. cbn [flat_map]. rewrite Hc.
    rewrite !error_lines_app, !(error_lines_hat_step _ _ _ _ _ _ c) by done.
    simpl. by destruct (hat_buttons c !! idx).
  - rewrite SetAxis_eq by done. unfold trace_of at 1. cbn [snd].
    rewrite error_lines_app, error_lines_notify_trace.
    destruct (observer_of e) as [f|]; [|done].
    rewrite error_lines_app, GetAxis_eq. unfold stored_axis. rewrite Hc.
    simpl. destruct (axes c !! idx); unfold trace_of; simpl;
      by destruct (f32_lt _ _).
  - rewrite SetBattery_eq by done. apply error_lines_notify_trace.
  - rewrite SetMotion_trace by done. unfold trace_of. cbn [snd].
    rewrite error_lines_app, error_lines_notify_trace.
    destruct (observer_of e); [|done]. by destruct (motion_is_active v).
Qed.

Lemma Set_error_lines_witness :
  is_Some (controller_list engine_configuring !! padA) /\
  error_lines (trace_of (SetAxis padA 9 f32_0_6 engine_configuring)) =
    [LogInvalidAxis 9] /\
  error_lines (trace_of (SetHatButton padA 9 5 engine_configuring)) =
    replicate 8 (LogInvalidHatButton 9) /\
  error_lines (trace_of (SetAxis padA 0 f32_0_6 engine_configuring)) = [].
Proof.
  assert (is_Some (controller_list engine_configuring !! padA)) as Hc
    by (vm_compute; eexists; reflexivity).
  destruct (Set_error_lines engine_configuring padA 9 Hc) as (_ & Hh & Ha & _).
  destruct (Set_error_lines engine_configuring padA 0 Hc) as (_ & _ & Ha0 & _).
  split; [exact Hc|]. split; [|split].
  - rewrite Ha. vm_compute. reflexivity.
  - rewrite Hh. vm_compute. reflexivity.
  - rewrite Ha0. vm_compute. reflexivity.
Defined.

(** ** Writes in normal mode *)

Lemma written_normal_lookup id f e c :
  controller_list e !! id = Some c -> configuring e = false ->
  controller_list (written id f e) !! id = Some (f c).
Proof.
  intros Hc Hcfg. rewrite (written_controller _ _ _ _ Hc). by rewrite Hcfg.
Qed.

(** X8. In normal mode on a registered device, a mutator needs no
    pre-set: whether or not the index is in the table, it returns, the
    table then holds the written value, and the matching query returns it
    without logging. *)
Theorem Set_normal_mode_enters_value e id idx :
  is_Some (controller_list e !! id) ->
  configuring e = false ->
  (forall v, outcome_of (SetButton id idx v e) = Ok tt /\
     GetButton id idx (engine_of (SetButton id idx v e)) =
       (Ok v, engine_of (SetButton id idx v e), [])) /\
  (forall v, outcome_of (SetHatButton id idx v e) = Ok tt /\
     stored_hat (engine_of (SetHatButton id idx v e)) id idx = Some v) /\
  (forall v, outcome_of (SetAxis id idx v e) = Ok tt /\
     GetAxis id idx (engine_of (SetAxis id idx v e)) =
       (Ok v, engine_of (SetAxis id idx v e), [])) /\
  (forall v, outcome_of (SetBattery id v e) = Ok tt /\
     GetBattery id (engine_of (SetBattery id v e)) =
       (Ok v, engine_of (SetBattery id v e), [])) /\
  (forall v, outcome_of (SetMotion id idx v e) = Ok tt /\
     GetMotion id idx (engine_of (SetMotion id idx v e)) =
       (Ok v, engine_of (SetMotion id idx v e), [])).
Proof.
  intros Hreg Hcfg. destruct (Hreg) as [c Hc]. repeat apply conj; intros v.
  - rewrite SetButton_normal by done. split; [done|].
    apply GetButton_stored. unfold stored_button, engine_of. simpl.
    rewrite (written_normal_lookup _ _ _ c) by done. simpl.
    unfold insert_or_assign. by rewrite lookup_insert_eq.
  - rewrite SetHatButton_eq by done. split; [done|].
    unfold stored_hat, engine_of. simpl.
    rewrite (written_normal_lookup _ _ _ c) by done. simpl.
    unfold insert_or_assign. by rewrite lookup_insert_eq.
  - rewrite SetAxis_eq by done. split; [done|].
    apply GetAxis_stored. unfold stored_axis, engine_of. simpl.
    rewrite (written_normal_lookup _ _ _ c) by done. simpl.
    unfold insert_or_assign. by rewrite lookup_insert_eq.
  - rewrite SetBattery_eq by done. split; [done|].
    apply GetBattery_stored. unfold stored_battery, engine_of. simpl.
    by rewrite (written_normal_lookup _ _ _ c).
  - rewrite SetMotion_trace by done. split; [done|].
    apply GetMotion_stored. unfold stored_motion, engine_of. simpl.
    rewrite (written_normal_lookup _ _ _ c) by done. simpl.
    unfold insert_or_assign. by rewrite lookup_insert_eq.
Qed.

Lemma Set_normal_mode_enters_value_witness :
  (is_Some (controller_list engine_registered !! padA) /\
   configuring engine_registered = false) /\
  stored_motion engine_registered padA 3 = None /\
  outcome_of
    (GetMotion padA 3
       (engine_of (SetMotion padA 3 BasicMotion_zero engine_registered))) =
    Ok BasicMotion_zero.
Proof.
  assert (is_Some (controller_list engine_registered !! padA)) as Hc
    by (vm_compute; eexists; reflexivity).
  assert (configuring engine_registered = false) as Hcfg
    by (vm_compute; reflexivity).
  destruct (Set_normal_mode_enters_value engine_registered padA 3 Hc Hcfg)
    as (_ & _ & _ & _ & Hm).
  split; [by split|]. split; [vm_compute; reflexivity|].
  by rewrite (proj2 (Hm BasicMotion_zero)).
Defined.

(** ** Registering a device *)

(** X9. [PreSetController] returns and logs nothing; afterwards the device
    is in the table.  A device that was in it keeps its record (the engine
    is unchanged altogether); a new device gets a record with no button,
    hat, axis or motion in it; the other devices keep theirs. *)
Theorem PreSetController_keeps_state e id :
  outcome_of (PreSetController id e) = Ok tt /\
  trace_of (PreSetController id e) = [] /\
  is_Some (controller_list (engine_of (PreSetController id e)) !! id) /\
  (is_Some (controller_list e !! id) ->
     engine_of (PreSetController id e) = e) /\
  (controller_list e !! id = None ->
     forall idx,
       stored_button (engine_of (PreSetController id e)) id idx = None /\
       stored_hat (engine_of (PreSetController id e)) id idx = None /\
       stored_axis (engine_of (PreSetController id e)) id idx = None /\
       stored_motion (engine_of (PreSetController id e)) id idx = None) /\
  (forall id', id' <> id ->
     controller_list (engine_of (PreSetController id e)) !! id' =
     controller_list e !! id').
Proof.
  unfold PreSetController, modify, outcome_of, trace_of, engine_of. simpl.
  split; [done|]. split; [done|]. split; [by rewrite try_emplace_lookup|].
  split; [|split].
  - intros Hc. rewrite try_emplace_present by done.
    apply set_controller_list_id.
  - intros Hc idx.
    unfold stored_button, stored_hat, stored_axis, stored_motion. simpl.
    rewrite try_emplace_lookup, Hc. done.
  - intros id' Hne. unfold try_emplace.
    destruct (controller_list e !! id); [done|].
    by rewrite lookup_insert_ne.
Qed.

Lemma PreSetController_keeps_state_witness :
  (is_Some (controller_list engine_playing !! padA) /\
   engine_of (PreSetController padA engine_playing) = engine_playing) /\
  (controller_list engine_fresh !! padA = None /\
   stored_button (engine_of (PreSetController padA engine_fresh)) padA 0 = None).
Proof.
  destruct (PreSetController_keeps_state engine_playing padA)
    as (_ & _ & _ & Hsame & _).
  destruct (PreSetController_keeps_state engine_fresh padA)
    as (_ & _ & _ & _ & Hnew & _).
  assert (is_Some (controller_list engine_playing !! padA)) as Hc
    by (vm_compute; eexists; reflexivity).
  assert (controller_list engine_fresh !! padA = None) as Hn
    by (vm_compute; reflexivity).
  split; [split; [exact Hc|exact (Hsame Hc)]|].
  split; [exact Hn|exact (proj1 (Hnew Hn 0))].
Defined.

(** ** Queries of what is not in the table *)

Lemma Get_unknown_defaults_witness :
  (controller_list engine_fresh !! padA = None /\
   GetBattery padA engine_fresh =
     (Ok Charging, engine_fresh, [LogInvalidIdentifier padA])) /\
  (controller_list engine_registered !! padA = Some ControllerData_new /\
   buttons ControllerData_new !! 0 = None /\
   hat_buttons ControllerData_new !! 0 = None /\
   axes ControllerData_new !! 0 = None /\
   GetButton padA 0 engine_registered =
     (Ok false, engine_registered, [LogInvalidButton 0]) /\
   GetHatButton padA 0 1 engine_registered =
     (Ok false, engine_registered, [LogInvalidHatButton 0]) /\
   GetAxis padA 0 engine_registered =
     (Ok f32_zero, engine_registered, [LogInvalidAxis 0])).
Proof.
  destruct (Get_unknown_defaults engine_fresh padA 0) as [Hdev _].
  destruct (Get_unknown_defaults engine_registered padA 0) as [_ Hidx].
  assert (controller_list engine_fresh !! padA = None) as Hn
    by (vm_compute; reflexivity).
  assert (controller_list engine_registered !! padA = Some ControllerData_new)
    as Hc by (vm_compute; reflexivity).
  destruct (Hidx _ Hc) as (Hb & Hh & Ha).
  split; [split; [exact Hn|exact (proj1 (proj2 (proj2 (proj2 (Hdev Hn)))))]|].
  split; [exact Hc|].
  split; [reflexivity|]. split; [reflexivity|]. split; [reflexivity|].
  split; [exact (Hb eq_refl)|]. split; [exact (Hh eq_refl 1)|exact (Ha eq_refl)].
Defined.

(** ** What every call respects *)

Lemma Get_engine e id idx :
  engine_of (GetButton id idx e) = e /\
  (forall d, engine_of (GetHatButton id idx d e) = e) /\
  engine_of (GetAxis id idx e) = e /\
  engine_of (GetBattery id e) = e /\
  engine_of (GetMotion id idx e) = e.
Proof.
  rewrite GetButton_eq, GetAxis_eq, GetBattery_eq, GetMotion_eq.
  repeat apply conj; try intros d; try rewrite GetHatButton_eq;
    destruct (controller_list e !! id) as [c|]; try done.
  - by destruct (buttons c !! idx).
  - by destruct (hat_buttons c !! idx).
  - by destruct (axes c !! idx).
  - by destruct (motions c !! idx).
Qed.

Section Respects.
Variable R : InputEngine -> InputEngine -> Prop.
Hypothesis R_refl : forall e, R e e.
Hypothesis R_trans : forall e1 e2 e3, R e1 e2 -> R e2 e3 -> R e1 e3.
Hypothesis R_write : forall id f e,
  table_write f -> R e (set_controller_list (alter f id (controller_list e)) e).
Hypothesis R_register : forall id e,
  R e (set_controller_list
         (try_emplace id ControllerData_new (controller_list e)) e).

Lemma respects_controller_at id : keeps R (controller_at id).
Proof using R_refl.
  apply keeps_pure; [apply R_refl|]. intros e.
  unfold controller_at. by destruct (controller_list e !! id).
Qed.

Lemma respects_controller_update id f :
  table_write f -> keeps R (controller_update id f).
Proof using R_write. intros Hf e. by apply R_write. Qed.

Lemma respects_PreSetController id : keeps R (PreSetController id).
Proof using R_register. intros e. apply R_register. Qed.

Lemma respects_at_update id f :
  table_write f ->
  keeps R (_ <- controller_at id ;; controller_update id f).
Proof using R_refl R_trans R_write.
  intros Hf. apply keeps_bind; [apply R_trans|apply respects_controller_at|].
  intros _. by apply respects_controller_update.
Qed.

Lemma respects_Get id idx :
  keeps R (GetButton id idx) /\
  (forall d, keeps R (GetHatButton id idx d)) /\
  keeps R (GetAxis id idx) /\
  keeps R (GetBattery id) /\
  keeps R (GetMotion id idx).
Proof using R_refl.
  split; [|split; [|split; [|split]]]; try intros d;
    (apply keeps_pure; [apply R_refl|]); intros e;
    destruct (Get_engine e id idx) as (H1 & H2 & H3 & H4 & H5).
  - exact H1.
  - exact (H2 d).
  - exact H3.
  - exact H4.
  - exact H5.
Qed.

Lemma respects_notify_pollers id ty idx : keeps R (notify_pollers id ty idx).
Proof using R_refl.
  apply keeps_pure; [apply R_refl|]. intros e. by rewrite notify_pollers_eq.
Qed.

Lemma respects_hat_loop fuel f id b v idx :
  keeps R (hat_loop fuel f id b v idx).
Proof using R_refl R_trans.
  revert idx. induction fuel as [|fuel IH]; intros idx; simpl.
  - by apply keeps_pure; [apply R_refl|].
  - destruct (idx <? 255); [|by apply keeps_pure; [apply R_refl|]].
    apply keeps_bind;
      [apply R_trans|exact (proj1 (proj2 (respects_Get id b)) (to_u8 idx))|].
    intros cur.
    apply keeps_bind; [apply R_trans| |intros ?; apply IH].
    destruct (Bool.eqb _ cur); by apply keeps_pure; [apply R_refl|].
Qed.

Lemma respects_Trigger id idx :
  (forall v, keeps R (TriggerOnButtonChange id idx v)) /\
  (forall v, keeps R (TriggerOnHatButtonChange id idx v)) /\
  (forall v, keeps R (TriggerOnAxisChange id idx v)) /\
  (forall v, keeps R (TriggerOnBatteryChange id v)) /\
  (forall v, keeps R (TriggerOnMotionChange id idx v)).
Proof using R_refl R_trans R_write.
  pose proof (respects_notify_pollers id) as Hn.
  pose proof (respects_Get id idx) as (Hgb & Hgh & Hga & _).
  repeat apply conj; intros v.
  - unfold TriggerOnButtonChange.
    apply keeps_bind; [apply R_trans|apply Hn|]. intros _.
    apply keeps_bind; [apply R_trans|by apply keeps_pure|]. intros [f|];
      [|by apply keeps_pure].
    apply keeps_bind; [apply R_trans| |intros _].
    { apply respects_at_update. constructor. }
    apply keeps_bind; [apply R_trans|apply Hgb|]. intros cur.
    destruct (Bool.eqb v cur); by apply keeps_pure.
  - unfold TriggerOnHatButtonChange.
    apply keeps_bind; [apply R_trans|apply Hn|]. intros _.
    apply keeps_bind; [apply R_trans|by apply keeps_pure|]. intros [f|];
      [apply respects_hat_loop|by apply keeps_pure].
  - unfold TriggerOnAxisChange.
    apply keeps_bind; [apply R_trans|apply Hn|]. intros _.
    apply keeps_bind; [apply R_trans|by apply keeps_pure|]. intros [f|];
      [|by apply keeps_pure].
    apply keeps_bind; [apply R_trans|apply Hga|]. intros cur.
    destruct (f32_lt _ _); by apply keeps_pure.
  - apply Hn.
  - unfold TriggerOnMotionChange.
    apply keeps_bind; [apply R_trans|apply Hn|]. intros _.
    apply keeps_bind; [apply R_trans|by apply keeps_pure|]. intros [f|];
      [|by apply keeps_pure].
    destruct (negb _); by apply keeps_pure.
Qed.

Lemma respects_set id f (k : M unit) :
  table_write f -> keeps R k ->
  keeps R (_ <- controller_at id ;;
           cfg <- gets configuring ;;
           (if negb cfg then controller_update id f else ret tt) ;;;
           k).
Proof using R_refl R_trans R_write.
  intros Hf Hk.
  apply keeps_bind; [apply R_trans|apply respects_controller_at|]. intros _.
  apply keeps_bind; [apply R_trans|by apply keeps_pure|]. intros cfg.
  apply keeps_bind; [apply R_trans| |by intros _].
  destruct (negb cfg); [by apply respects_controller_update|by apply keeps_pure].
Qed.

Lemma respects_Set id idx :
  (forall v, keeps R (SetButton id idx v)) /\
  (forall v, keeps R (SetHatButton id idx v)) /\
  (forall v, keeps R (SetAxis id idx v)) /\
  (forall v, keeps R (SetBattery id v)) /\
  (forall v, keeps R (SetMotion id idx v)).
Proof using R_refl R_trans R_write.
  destruct (respects_Trigger id idx) as (Hb & Hh & Ha & Hbat & Hm).
  repeat apply conj; intros v; apply respects_set; auto; constructor.
Qed.

Lemma respects_Reset :
  keeps R ResetButtonState /\ keeps R ResetAnalogState.
Proof using R_refl R_trans R_write.
  split.
  - unfold ResetButtonState.
    apply keeps_bind; [apply R_trans|by apply keeps_pure|]. intros cl.
    apply keeps_for_each; [apply R_refl|apply R_trans|]. intros [id c].
    apply keeps_bind; [apply R_trans| |intros _];
      (apply keeps_for_each; [apply R_refl|apply R_trans|]); intros [i x];
      destruct (respects_Set id i) as (Hb & Hh & _).
    + exact (Hb false).
    + exact (Hh 0).
  - unfold ResetAnalogState.
    apply keeps_bind; [apply R_trans|by apply keeps_pure|]. intros cl.
    apply keeps_for_each; [apply R_refl|apply R_trans|]. intros [id c].
    apply keeps_for_each; [apply R_refl|apply R_trans|]. intros [i x].
    destruct (respects_Set id i) as (_ & _ & Ha & _). exact (Ha f32_zero).
Qed.

Hypothesis R_callbacks : forall m e, R e (set_callback_list m e).
Hypothesis R_key : forall k e, R e (set_last_callback_key k e).
Hypothesis R_mode : forall b e, R e (set_configuring b e).
Hypothesis R_observer : forall c e, R e (set_mapping_callback c e).

Lemma respects_exec c : keeps R (exec c).
Proof using All.
  destruct c as [id|id i|id i|id i|id i|id i v|id i v|id i v|id v|id i v
                |id i|id i d|id i|id|id i| | | | |ii|cb|key]; simpl.
  - apply respects_PreSetController.
  - apply respects_at_update. constructor.
  - apply respects_at_update. constructor.
  - apply respects_at_update. constructor.
  - apply respects_at_update. constructor.
  - exact (proj1 (respects_Set id i) v).
  - exact (proj1 (proj2 (respects_Set id i)) v).
  - exact (proj1 (proj2 (proj2 (respects_Set id i))) v).
  - exact (proj1 (proj2 (proj2 (proj2 (respects_Set id 0)))) v).
  - exact (proj2 (proj2 (proj2 (proj2 (respects_Set id i)))) v).
  - apply keeps_discard; [apply R_refl|apply R_trans|].
    exact (proj1 (respects_Get id i)).
  - apply keeps_discard; [apply R_refl|apply R_trans|].
    exact (proj1 (proj2 (respects_Get id i)) d).
  - apply keeps_discard; [apply R_refl|apply R_trans|].
    exact (proj1 (proj2 (proj2 (respects_Get id i)))).
  - apply keeps_discard; [apply R_refl|apply R_trans|].
    exact (proj1 (proj2 (proj2 (proj2 (respects_Get id 0))))).
  - apply keeps_discard; [apply R_refl|apply R_trans|].
    exact (proj2 (proj2 (proj2 (proj2 (respects_Get id i))))).
  - exact (proj1 respects_Reset).
  - exact (proj2 respects_Reset).
  - intros e. apply R_mode.
  - intros e. apply R_mode.
  - apply keeps_discard; [apply R_refl|apply R_trans|].
    intros e. rewrite SetCallback_eq. unfold engine_of. simpl.
    eapply R_trans; [apply R_callbacks|apply R_key].
  - intros e. apply R_observer.
  - intros e. unfold DeleteCallback. run.
    destruct (callback_list e !! key); unfold engine_of; simpl;
      [apply R_callbacks|apply R_refl].
Qed.

Lemma respects_run_calls cs e : R e (run_calls cs e).
Proof using All.
  revert e. induction cs as [|c cs IH]; intros e; simpl.
  - apply R_refl.
  - eapply R_trans; [apply respects_exec|apply IH].
Qed.
End Respects.

(** *** Inputs stay in the table *)

Lemma is_Some_try_emplace `{Countable K} {V} (k i : K) (v : V) (m : gmap K V) :
  is_Some (m !! i) -> is_Some (try_emplace k v m !! i).
Proof.
  intros Hi. unfold try_emplace. destruct (m !! k) eqn:Hk; [done|].
  apply lookup_insert_is_Some'. by right.
Qed.

Lemma is_Some_insert_or_assign `{Countable K} {V} (k i : K) (v : V)
    (m : gmap K V) :
  is_Some (m !! i) -> is_Some (insert_or_assign k v m !! i).
Proof. intros Hi. apply lookup_insert_is_Some'. by right. Qed.

Lemma is_Some_alter_bind {A} (rd : ControllerData -> option A) f
    (id id' : PadIdentifier) (cl : gmap PadIdentifier ControllerData) :
  (forall c, is_Some (rd c) -> is_Some (rd (f c))) ->
  is_Some (cl !! id' ≫= rd) -> is_Some (alter f id cl !! id' ≫= rd).
Proof.
  intros Hf. destruct (decide (id = id')) as [->|Hne].
  - rewrite lookup_alter_eq. destruct (cl !! id'); simpl; [apply Hf|done].
  - by rewrite lookup_alter_ne.
Qed.

Lemma is_Some_register_bind {A} (rd : ControllerData -> option A) x
    (id id' : PadIdentifier) (cl : gmap PadIdentifier ControllerData) :
  is_Some (cl !! id' ≫= rd) -> is_Some (try_emplace id x cl !! id' ≫= rd).
Proof.
  unfold try_emplace. destruct (cl !! id) eqn:Hid; [done|].
  destruct (decide (id = id')) as [->|Hne].
  - rewrite Hid. simpl. by intros [? ?].
  - by rewrite lookup_insert_ne.
Qed.

Lemma entries_kept_refl e : entries_kept e e.
Proof. by repeat apply conj. Qed.

Lemma entries_kept_trans e1 e2 e3 :
  entries_kept e1 e2 -> entries_kept e2 e3 -> entries_kept e1 e3.
Proof.
  intros (A & B & C & D & E) (A' & B' & C' & D' & E').
  repeat apply conj; eauto.
Qed.

Lemma entries_kept_same_table e e' :
  controller_list e' = controller_list e -> entries_kept e e'.
Proof.
  intros H. unfold entries_kept, stored_button, stored_hat, stored_axis,
    stored_motion. rewrite H. by repeat apply conj.
Qed.

Lemma entries_kept_write id f e :
  table_write f ->
  entries_kept e (set_controller_list (alter f id (controller_list e)) e).
Proof.
  intros Hf. unfold entries_kept, stored_button, stored_hat, stored_axis,
    stored_motion. simpl. split; [|split; [|split; [|split]]].
  - intros id' Hid. by apply lookup_alter_is_Some.
  - intros id' i. apply is_Some_alter_bind. intros c.
    destruct Hf; simpl;
      auto using is_Some_try_emplace, is_Some_insert_or_assign.
  - intros id' i. apply is_Some_alter_bind. intros c.
    destruct Hf; simpl;
      auto using is_Some_try_emplace, is_Some_insert_or_assign.
  - intros id' i. apply is_Some_alter_bind. intros c.
    destruct Hf; simpl;
      auto using is_Some_try_emplace, is_Some_insert_or_assign.
  - intros id' i. apply is_Some_alter_bind. intros c.
    destruct Hf; simpl;
      auto using is_Some_try_emplace, is_Some_insert_or_assign.
Qed.

Lemma entries_kept_register id e :
  entries_kept e
    (set_controller_list
       (try_emplace id ControllerData_new (controller_list e)) e).
Proof.
  unfold entries_kept, stored_button, stored_hat, stored_axis, stored_motion.
  simpl. split; [|split; [|split; [|split]]].
  - intros id'. apply is_Some_try_emplace.
  - intros id' i. apply is_Some_register_bind.
  - intros id' i. apply is_Some_register_bind.
  - intros id' i. apply is_Some_register_bind.
  - intros id' i. apply is_Some_register_bind.
Qed.

Lemma run_calls_entries_kept cs e : entries_kept e (run_calls cs e).
Proof.
  apply respects_run_calls.
  - apply entries_kept_refl.
  - apply entries_kept_trans.
  - apply entries_kept_write.
  - apply entries_kept_register.
  - intros m e'. by apply entries_kept_same_table.
  - intros k e'. by apply entries_kept_same_table.
  - intros b e'. by apply entries_kept_same_table.
  - intros c e'. by apply entries_kept_same_table.
Qed.

(** X10. No call of the interface takes a device or an input out of the
    table: after any sequence of calls, a device that was registered is
    registered, and a query of a button, hat, axis or motion sample that
    was in the table returns a stored value and logs no error. *)
Theorem entries_never_leave cs e id idx :
  (is_Some (controller_list e !! id) ->
     is_Some (controller_list (run_calls cs e) !! id)) /\
  (is_Some (stored_button e id idx) ->
     exists v, GetButton id idx (run_calls cs e) = (Ok v, run_calls cs e, [])) /\
  (is_Some (stored_hat e id idx) ->
     exists m, forall d,
       GetHatButton id idx d (run_calls cs e) =
       (Ok (negb (Z.land m d =? 0)), run_calls cs e, [])) /\
  (is_Some (stored_axis e id idx) ->
     exists v, GetAxis id idx (run_calls cs e) = (Ok v, run_calls cs e, [])) /\
  (is_Some (stored_motion e id idx) ->
     exists v, GetMotion id idx (run_calls cs e) = (Ok v, run_calls cs e, [])).
Proof.
  destruct (run_calls_entries_kept cs e) as (Hdev & Hb & Hh & Ha & Hm).
  repeat apply conj.
  - apply Hdev.
  - intros [v Hv]%Hb. exists v. by apply GetButton_stored.
  - intros [v Hv]%Hh. exists v. intros d. by apply GetHatButton_stored.
  - intros [v Hv]%Ha. exists v. by apply GetAxis_stored.
  - intros [v Hv]%Hm. exists v. by apply GetMotion_stored.
Qed.

Lemma entries_never_leave_witness :
  is_Some (stored_motion engine_playing padA 0) /\
  exists v,
    GetMotion padA 0
      (run_calls [CResetButtonState; CBeginConfiguration;
                  CSetMotion padA 0 BasicMotion_zero] engine_playing) =
    (Ok v,
     run_calls [CResetButtonState; CBeginConfiguration;
                CSetMotion padA 0 BasicMotion_zero] engine_playing, []).
Proof.
  assert (is_Some (stored_motion engine_playing padA 0)) as Hs
    by (vm_compute; eexists; reflexivity).
  split; [exact Hs|].
  exact (proj2 (proj2 (proj2 (proj2
    (entries_never_leave
       [CResetButtonState; CBeginConfiguration;
        CSetMotion padA 0 BasicMotion_zero] engine_playing padA 0)))) Hs).
Defined.

(** *** The name of the engine *)

Lemma run_calls_same_identity cs e : same_identity e (run_calls cs e).
Proof.
  apply respects_run_calls; try (by intros; split).
  intros e1 e2 e3 [A B] [A' B']. split; congruence.
Qed.

(** X11. No call changes the name of the engine: after any sequence of
    calls [GetEngineName] returns the name the engine had before them, and
    the mapping events of a later call carry it. *)
Theorem engine_name_is_constant e cs :
  GetEngineName (run_calls cs e) = (Ok (input_engine e), run_calls cs e, []) /\
  forall id idx f d,
    (forall v, CallOnData f d ∈ trace_of (SetButton id idx v (run_calls cs e)) ->
               md_engine d = input_engine e) /\
    (forall v, CallOnData f d
                 ∈ trace_of (SetHatButton id idx v (run_calls cs e)) ->
               md_engine d = input_engine e) /\
    (forall v, CallOnData f d ∈ trace_of (SetAxis id idx v (run_calls cs e)) ->
               md_engine d = input_engine e) /\
    (forall v, CallOnData f d ∈ trace_of (SetMotion id idx v (run_calls cs e)) ->
               md_engine d = input_engine e).
Proof.
  destruct (run_calls_same_identity cs e) as [Hname _].
  split.
  - unfold GetEngineName, gets. by rewrite Hname.
  - intros id idx f d.
    destruct (CallOnData_addressed (run_calls cs e) id idx f d)
      as (Hb & Hh & Ha & _ & Hm).
    repeat apply conj; intros v Hin.
    + destruct (Hb v Hin) as (_ & _ & ->). exact Hname.
    + destruct (Hh v Hin) as (_ & _ & i & _ & ->). exact Hname.
    + destruct (Ha v Hin) as (_ & _ & ->). exact Hname.
    + destruct (Hm v Hin) as (_ & _ & ->). exact Hname.
Qed.

Lemma engine_name_is_constant_witness :
  CallOnData 7%nat
    (mkData "sdl" padA Button 5 true EmptyString f32_zero BasicMotion_zero)
    ∈ trace_of (SetButton padA 5 true (run_calls calls_detecting engine_fresh))
  /\
  md_engine
    (mkData "sdl" padA Button 5 true EmptyString f32_zero BasicMotion_zero) =
    input_engine engine_fresh.
Proof.
  assert (CallOnData 7%nat
    (mkData "sdl" padA Button 5 true EmptyString f32_zero BasicMotion_zero)
    ∈ trace_of (SetButton padA 5 true (run_calls calls_detecting engine_fresh)))
    as Hin.
  { apply list_elem_of_In. vm_compute. auto. }
  split; [exact Hin|].
  exact (proj1 (proj2 (engine_name_is_constant engine_fresh calls_detecting)
                 padA 5 7%nat _) true Hin).
Defined.

(** *** What each kind of call can change *)

Lemma exec_table_only c e :
  is_mode_call c = false -> is_subscription_call c = false ->
  is_observer_call c = false ->
  table_only e (engine_of (exec c e)).
Proof.
  intros Hmode Hsub Hobs.
  enough (keeps table_only (exec c)) as H by apply H.
  destruct c; simpl in *; try discriminate;
    try (apply keeps_discard; [apply table_only_refl|apply table_only_trans|]);
    first [ apply keeps_ResetButtonState | apply keeps_ResetAnalogState
          | auto with keeps ].
Qed.

Lemma exec_query c e : is_query c = true -> engine_of (exec c e) = e.
Proof.
  destruct c as [ | | | | | | | | | |id i|id i d|id i|id|id i| | | | | | | ];
    simpl; try discriminate; intros _; unfold discard, bind.
  - pose proof (proj1 (Get_engine e id i)) as H.
    by destruct (GetButton id i e) as [[[?|?|] ?] ?].
  - pose proof (proj1 (proj2 (Get_engine e id i)) d) as H.
    by destruct (GetHatButton id i d e) as [[[?|?|] ?] ?].
  - pose proof (proj1 (proj2 (proj2 (Get_engine e id i)))) as H.
    by destruct (GetAxis id i e) as [[[?|?|] ?] ?].
  - pose proof (proj1 (proj2 (proj2 (proj2 (Get_engine e id 0))))) as H.
    by destruct (GetBattery id e) as [[[?|?|] ?] ?].
  - pose proof (proj2 (proj2 (proj2 (proj2 (Get_engine e id i))))) as H.
    by destruct (GetMotion id i e) as [[[?|?|] ?] ?].
Qed.

Lemma exec_registry_frame c e :
  is_subscription_call c = false ->
  callback_list (engine_of (exec c e)) = callback_list e /\
  last_callback_key (engine_of (exec c e)) = last_callback_key e.
Proof.
  intros Hsub.
  destruct (is_mode_call c) eqn:Hmode; [by destruct c|].
  destruct (is_observer_call c) eqn:Hobs; [by destruct c|].
  destruct (exec_table_only c e Hmode Hsub Hobs) as (_ & _ & _ & Hk & Hcb & _).
  done.
Qed.

(** X12. What a call can change follows from what it is for.  Only
    [BeginConfiguration] and [EndConfiguration] change the mode, only
    [SetMappingCallback] the mapping observer, only [SetCallback] and
    [DeleteCallback] the registry of listeners and the key counter, and
    only the pre-sets, the mutators and the resets the controller table; a
    query changes nothing at all. *)
Theorem call_frame c e :
  (is_mode_call c = false ->
     configuring (engine_of (exec c e)) = configuring e) /\
  (is_observer_call c = false ->
     mapping_callback (engine_of (exec c e)) = mapping_callback e) /\
  (is_subscription_call c = false ->
     callback_list (engine_of (exec c e)) = callback_list e /\
     last_callback_key (engine_of (exec c e)) = last_callback_key e) /\
  (is_table_call c = false ->
     controller_list (engine_of (exec c e)) = controller_list e) /\
  (is_query c = true -> engine_of (exec c e) = e).
Proof.
  split; [|split; [|split; [|split]]].
  - intros Hmode.
    destruct (is_subscription_call c) eqn:Hsub.
    { destruct c as [ | | | | | | | | | | | | | | | | | | |ii| |key];
        try discriminate; simpl.
      - reflexivity.
      - unfold DeleteCallback. run. by destruct (callback_list e !! key). }
    destruct (is_observer_call c) eqn:Hobs; [by destruct c|].
    by destruct (exec_table_only c e Hmode Hsub Hobs) as (_ & ? & _).
  - intros Hobs.
    destruct (is_subscription_call c) eqn:Hsub.
    { destruct c as [ | | | | | | | | | | | | | | | | | | |ii| |key];
        try discriminate; simpl.
      - reflexivity.
      - unfold DeleteCallback. run. by destruct (callback_list e !! key). }
    destruct (is_mode_call c) eqn:Hmode; [by destruct c|].
    by destruct (exec_table_only c e Hmode Hsub Hobs)
      as (_ & _ & _ & _ & _ & ? & _).
  - apply exec_registry_frame.
  - unfold is_table_call. intros Hnot%negb_false_iff.
    destruct (is_query c) eqn:Hq; [by rewrite exec_query|].
    rewrite orb_false_r in Hnot.
    destruct c as [ | | | | | | | | | | | | | | | | | | |ii|cb|key];
      try discriminate; simpl; try done.
    unfold DeleteCallback. run. by destruct (callback_list e !! key).
  - apply exec_query.
Qed.

Lemma call_frame_witness :
  is_mode_call (CSetButton padA 5 true) = false /\
  configuring (engine_of (exec (CSetButton padA 5 true) engine_held)) =
    configuring engine_held /\
  is_query (CGetMotion padA 9) = true /\
  engine_of (exec (CGetMotion padA 9) engine_held) = engine_held.
Proof.
  destruct (call_frame (CSetButton padA 5 true) engine_held) as (Hmode & _).
  destruct (call_frame (CGetMotion padA 9) engine_held) as (_ & _ & _ & _ & Hq).
  split; [reflexivity|]. split; [exact (Hmode eq_refl)|].
  split; [reflexivity|exact (Hq eq_refl)].
Defined.

(** *** Keys and subscriptions *)

Lemma keys_below_exec c e :
  0 <= last_callback_key e ->
  keys_below e ->
  last_callback_key e + subscriptions_in [c] <= INT_MAX ->
  keys_below (engine_of (exec c e)).
Proof.
  intros Hpos Hkeys Hmax. cbn [subscriptions_in] in Hmax.
  destruct (is_subscription_call c) eqn:Hsub.
  - destruct c as [ | | | | | | | | | | | | | | | | | | |ii| |key];
      try discriminate.
    + cbn [is_SetCallback] in Hmax. intros k.
      change (is_Some (insert_or_assign (last_callback_key e) ii
                         (callback_list e) !! k) ->
              0 <= k < to_int (last_callback_key e + 1)).
      rewrite to_int_small by (unfold INT_MIN; lia).
      unfold insert_or_assign.
      intros [Hk|[_ Hk]]%lookup_insert_is_Some; [lia|].
      specialize (Hkeys k Hk). lia.
    + cbn [exec]. unfold DeleteCallback. run.
      destruct (callback_list e !! key) eqn:Hkey; unfold engine_of; simpl;
        [|done].
      intros k. simpl.
      intros [_ Hk]%lookup_delete_is_Some. by apply Hkeys.
  - destruct (exec_registry_frame c e Hsub) as [Hcb Hk].
    intros k. rewrite Hcb, Hk. by apply Hkeys.
Qed.

Lemma keys_below_run_calls cs e :
  0 <= last_callback_key e ->
  keys_below e ->
  last_callback_key e + subscriptions_in cs <= INT_MAX ->
  keys_below (run_calls cs e).
Proof.
  revert e. induction cs as [|c cs IH]; intros e Hpos Hkeys Hmax; [done|].
  change (run_calls (c :: cs) e) with (run_calls cs (engine_of (exec c e))).
  pose proof (subscriptions_in_nonneg cs) as Hcs.
  pose proof (exec_counter c e) as Hc.
  cbn [subscriptions_in] in Hmax.
  assert (last_callback_key (engine_of (exec c e)) =
          last_callback_key e + (if is_SetCallback c then 1 else 0)) as Hk.
  { rewrite Hc. destruct (is_SetCallback c); [|lia].
    apply to_int_small. unfold INT_MIN. lia. }
  apply IH.
  - rewrite Hk. destruct (is_SetCallback c); lia.
  - apply keys_below_exec; [done|done|].
    cbn [subscriptions_in]. destruct (is_SetCallback c); lia.
  - rewrite Hk. lia.
Qed.

(** X13. Take an engine whose keys all lie below its key counter, as in
    a new engine, and make any calls that leave the key counter below
    [INT_MAX].  Then the next key is not in use: [SetCallback] returns it,
    stores the new subscription under it and keeps every subscription that
    was there, so the registry grows by exactly one. *)
Theorem SetCallback_never_replaces e cs ii :
  0 <= last_callback_key e ->
  keys_below e ->
  last_callback_key e + subscriptions_in cs < INT_MAX ->
  last_callback_key (run_calls cs e) =
    last_callback_key e + subscriptions_in cs /\
  callback_list (run_calls cs e) !! last_callback_key (run_calls cs e) = None /\
  outcome_of (SetCallback ii (run_calls cs e)) =
    Ok (last_callback_key (run_calls cs e)) /\
  callback_list (engine_of (SetCallback ii (run_calls cs e)))
    !! last_callback_key (run_calls cs e) = Some ii /\
  (forall k p,
     callback_list (run_calls cs e) !! k = Some p ->
     callback_list (engine_of (SetCallback ii (run_calls cs e))) !! k = Some p) /\
  size (callback_list (engine_of (SetCallback ii (run_calls cs e)))) =
  S (size (callback_list (run_calls cs e))).
Proof.
  intros Hpos Hkeys0 Hmax.
  assert (keys_below (run_calls cs e)) as Hkeys
    by (apply keys_below_run_calls; [done|done|lia]).
  split.
  { apply run_calls_counter; unfold INT_MIN; lia. }
  clear Hpos Hkeys0 Hmax. generalize dependent (run_calls cs e).
  clear e. intros e Hkeys.
  assert (callback_list e !! last_callback_key e = None) as Hfree.
  { destruct (callback_list e !! last_callback_key e) eqn:Hk; [|done].
    assert (is_Some (callback_list e !! last_callback_key e)) as Hs by eauto.
    apply Hkeys in Hs. lia. }
  split; [done|]. rewrite SetCallback_eq.
  unfold outcome_of, engine_of. simpl. split; [done|].
  unfold insert_or_assign. split; [apply lookup_insert_eq|]. split.
  - intros k p Hk. rewrite lookup_insert_ne; [done|].
    intros <-. congruence.
  - by apply map_size_insert_None.
Qed.

Lemma SetCallback_never_replaces_witness :
  (0 <= last_callback_key engine_fresh /\
   keys_below engine_fresh /\
   last_callback_key engine_fresh +
     subscriptions_in [CSetCallback listener_A5; CDeleteCallback 0]
     < INT_MAX) /\
  callback_list
    (engine_of
       (SetCallback listener_C5
          (run_calls [CSetCallback listener_A5; CDeleteCallback 0]
             engine_fresh)))
    !! last_callback_key
         (run_calls [CSetCallback listener_A5; CDeleteCallback 0] engine_fresh)
  = Some listener_C5.
Proof.
  assert (0 <= last_callback_key engine_fresh) as Hpos
    by (vm_compute; discriminate).
  assert (keys_below engine_fresh) as Hkeys.
  { intros k [p Hp]. vm_compute in Hp. discriminate. }
  assert (last_callback_key engine_fresh +
     subscriptions_in [CSetCallback listener_A5; CDeleteCallback 0]
     < INT_MAX) as Hlt by (vm_compute; reflexivity).
  split; [by repeat apply conj|].
  exact (proj1 (proj2 (proj2 (proj2 (SetCallback_never_replaces engine_fresh
    [CSetCallback listener_A5; CDeleteCallback 0] listener_C5
    Hpos Hkeys Hlt))))).
Defined.

(** X14. On an engine whose next key is not in use, subscribing and then
    deleting the key that was returned leaves the engine as it was, but for
    the key counter, which has moved to the next [int]: one more, or
    [INT_MIN] after [INT_MAX].  A second deletion of that key logs an error
    and changes nothing. *)
Theorem subscribe_then_delete e ii :
  callback_list e !! last_callback_key e = None ->
  outcome_of (SetCallback ii e) = Ok (last_callback_key e) /\
  engine_of (DeleteCallback (last_callback_key e) (engine_of (SetCallback ii e)))
    = set_last_callback_key (to_int (last_callback_key e + 1)) e /\
  DeleteCallback (last_callback_key e)
    (set_last_callback_key (to_int (last_callback_key e + 1)) e) =
  (Ok tt, set_last_callback_key (to_int (last_callback_key e + 1)) e,
   [LogNonExistentCallback (last_callback_key e)]) /\
  (INT_MIN <= last_callback_key e < INT_MAX ->
     to_int (last_callback_key e + 1) = last_callback_key e + 1) /\
  (last_callback_key e = INT_MAX ->
     to_int (last_callback_key e + 1) = INT_MIN).
Proof.
  intros Hfree. rewrite SetCallback_eq.
  unfold outcome_of, engine_of, DeleteCallback. run.
  unfold insert_or_assign. rewrite lookup_insert_eq, Hfree. simpl.
  split; [done|]. split; [|split; [done|split]].
  - rewrite delete_insert_id by done. by destruct e.
  - intros Hk. apply to_int_small. unfold INT_MIN in *. lia.
  - by intros ->.
Qed.

Lemma subscribe_then_delete_witness :
  callback_list engine_playing !! last_callback_key engine_playing = None /\
  outcome_of (SetCallback listener_C5 engine_playing) = Ok 1.
Proof.
  assert (callback_list engine_playing !! last_callback_key engine_playing
          = None) as Hfree by (vm_compute; reflexivity).
  split; [exact Hfree|].
  exact (proj1 (subscribe_then_delete engine_playing listener_C5 Hfree)).
Defined.

(** ** The mapping observer *)

(** X15. [SetMappingCallback] replaces the observer and changes nothing
    else.  From then on a mutator hands its events to the new observer
    only; when the new observer is empty it hands over none. *)
Theorem SetMappingCallback_replaces e cb id idx f d :
  SetMappingCallback cb e = (Ok tt, set_mapping_callback cb e, []) /\
  (forall v, CallOnData f d
               ∈ trace_of (SetButton id idx v (set_mapping_callback cb e)) ->
             on_data cb = Some f) /\
  (forall v, CallOnData f d
               ∈ trace_of (SetHatButton id idx v (set_mapping_callback cb e)) ->
             on_data cb = Some f) /\
  (forall v, CallOnData f d
               ∈ trace_of (SetAxis id idx v (set_mapping_callback cb e)) ->
             on_data cb = Some f) /\
  (forall v, CallOnData f d
               ∈ trace_of (SetBattery id v (set_mapping_callback cb e)) ->
             on_data cb = Some f) /\
  (forall v, CallOnData f d
               ∈ trace_of (SetMotion id idx v (set_mapping_callback cb e)) ->
             on_data cb = Some f).
Proof.
  split; [done|].
  destruct (CallOnData_addressed (set_mapping_callback cb e) id idx f d)
    as (Hb & Hh & Ha & Hbat & Hm).
  repeat apply conj; intros v Hin.
  - by destruct (Hb v Hin) as (_ & ? & _).
  - by destruct (Hh v Hin) as (_ & ? & _).
  - by destruct (Ha v Hin) as (_ & ? & _).
  - by destruct (Hbat v Hin).
  - by destruct (Hm v Hin) as (_ & ? & _).
Qed.

Lemma SetMappingCallback_replaces_witness :
  CallOnData 8%nat (button_event engine_held padA 5 false)
    ∈ trace_of (SetButton padA 5 false
                  (set_mapping_callback (mkMapping (Some 8%nat)) engine_held))
  /\ on_data (mkMapping (Some 8%nat)) = Some 8%nat.
Proof.
  assert (CallOnData 8%nat (button_event engine_held padA 5 false)
    ∈ trace_of (SetButton padA 5 false
                  (set_mapping_callback (mkMapping (Some 8%nat)) engine_held)))
    as Hin.
  { apply list_elem_of_In. vm_compute. auto. }
  split; [exact Hin|].
  exact (proj1 (proj2 (SetMappingCallback_replaces engine_held
    (mkMapping (Some 8%nat)) padA 5 8%nat
    (button_event engine_held padA 5 false))) false Hin).
Defined.

(** ** What a write leaves alone *)

Lemma try_emplace_lookup_other `{Countable K} {V} (k i : K) (v : V)
    (m : gmap K V) :
  i <> k -> try_emplace k v m !! i = m !! i.
Proof.
  intros Hne. unfold try_emplace. destruct (m !! k); [done|].
  by rewrite lookup_insert_ne.
Qed.

Lemma insert_or_assign_lookup_other `{Countable K} {V} (k i : K) (v : V)
    (m : gmap K V) :
  i <> k -> insert_or_assign k v m !! i = m !! i.
Proof. intros Hne. unfold insert_or_assign. by rewrite lookup_insert_ne. Qed.

Lemma alter_bind_frame {A} (rd : ControllerData -> option A) f
    (id id' : PadIdentifier) (cl : gmap PadIdentifier ControllerData) :
  (id' = id -> forall c, rd (f c) = rd c) ->
  alter f id cl !! id' ≫= rd = cl !! id' ≫= rd.
Proof.
  intros Hf. destruct (decide (id = id')) as [->|Hne].
  - rewrite lookup_alter_eq. destruct (cl !! id'); simpl; [by apply Hf|done].
  - by rewrite lookup_alter_ne.
Qed.

Lemma alter_fmap_frame {A} (g : ControllerData -> A) f
    (id id' : PadIdentifier) (cl : gmap PadIdentifier ControllerData) :
  (id' = id -> forall c, g (f c) = g c) ->
  g <$> alter f id cl !! id' = g <$> cl !! id'.
Proof.
  intros Hf. destruct (decide (id = id')) as [->|Hne].
  - rewrite lookup_alter_eq. destruct (cl !! id'); simpl; [|done].
    f_equal. by apply Hf.
  - by rewrite lookup_alter_ne.
Qed.

Lemma differs_refl ty id idx e : differs_at_most ty id idx e e.
Proof. repeat apply conj; intros; by right. Qed.

Lemma alter_differs ty id idx f e :
  (forall c i, (ty = Button /\ i = idx) \/ buttons (f c) !! i = buttons c !! i) ->
  (forall c i, (ty = HatButton /\ i = idx) \/
               hat_buttons (f c) !! i = hat_buttons c !! i) ->
  (forall c i, (ty = Analog /\ i = idx) \/ axes (f c) !! i = axes c !! i) ->
  (forall c i, (ty = Motion /\ i = idx) \/ motions (f c) !! i = motions c !! i) ->
  (forall c, ty = Battery \/ battery (f c) = battery c) ->
  differs_at_most ty id idx e
    (set_controller_list (alter f id (controller_list e)) e).
Proof.
  intros Hb Hh Ha Hm Hbat.
  unfold differs_at_most, stored_button, stored_hat, stored_axis,
    stored_motion, stored_battery. simpl.
  split; [|split; [|split; [|split]]].
  - intros id' i.
    destruct (decide (ty = Button /\ id' = id /\ i = idx)) as [|Hn]; [by left|].
    right. apply alter_bind_frame. intros -> c.
    destruct (Hb c i) as [[? ?]|]; [|done]. by destruct Hn.
  - intros id' i.
    destruct (decide (ty = HatButton /\ id' = id /\ i = idx)) as [|Hn];
      [by left|].
    right. apply alter_bind_frame. intros -> c.
    destruct (Hh c i) as [[? ?]|]; [|done]. by destruct Hn.
  - intros id' i.
    destruct (decide (ty = Analog /\ id' = id /\ i = idx)) as [|Hn]; [by left|].
    right. apply alter_bind_frame. intros -> c.
    destruct (Ha c i) as [[? ?]|]; [|done]. by destruct Hn.
  - intros id' i.
    destruct (decide (ty = Motion /\ id' = id /\ i = idx)) as [|Hn]; [by left|].
    right. apply alter_bind_frame. intros -> c.
    destruct (Hm c i) as [[? ?]|]; [|done]. by destruct Hn.
  - intros id'.
    destruct (decide (ty = Battery /\ id' = id)) as [|Hn]; [by left|].
    right. apply alter_fmap_frame. intros -> c.
    destruct (Hbat c) as [?|]; [|done]. by destruct Hn.
Qed.

Ltac frame_write :=
  apply alter_differs; intros c; try intros i; simpl;
  first
    [ by right
    | by left
    | match goal with
      | |- (_ /\ ?i = ?b) \/ _ =>
          destruct (decide (i = b)) as [->|Hne];
          [ by left
          | right;
            first [ by apply try_emplace_lookup_other
                  | by apply insert_or_assign_lookup_other ] ]
      end ].

Lemma write_differs id idx e :
  (differs_at_most Button id idx e
     (set_controller_list
        (alter (with_buttons (try_emplace idx false)) id (controller_list e)) e)) /\
  (differs_at_most HatButton id idx e
     (set_controller_list
        (alter (with_hat_buttons (try_emplace idx 0)) id (controller_list e)) e)) /\
  (differs_at_most Analog id idx e
     (set_controller_list
        (alter (with_axes (try_emplace idx f32_zero)) id (controller_list e)) e)) /\
  (differs_at_most Motion id idx e
     (set_controller_list
        (alter (with_motions (try_emplace idx BasicMotion_zero)) id
           (controller_list e)) e)) /\
  (forall v, differs_at_most Button id idx e
     (set_controller_list
        (alter (with_buttons (insert_or_assign idx v)) id (controller_list e)) e)) /\
  (forall v, differs_at_most HatButton id idx e
     (set_controller_list
        (alter (with_hat_buttons (insert_or_assign idx v)) id
           (controller_list e)) e)) /\
  (forall v, differs_at_most Analog id idx e
     (set_controller_list
        (alter (with_axes (insert_or_assign idx v)) id (controller_list e)) e)) /\
  (forall v, differs_at_most Motion id idx e
     (set_controller_list
        (alter (with_motions (insert_or_assign idx v)) id
           (controller_list e)) e)) /\
  (forall v, differs_at_most Battery id idx e
     (set_controller_list
        (alter (with_battery v) id (controller_list e)) e)).
Proof.
  split; [|split; [|split; [|split; [|split; [|split; [|split; [|split]]]]]]];
    try intros v; frame_write.
Qed.

Lemma written_differs ty id idx f e :
  differs_at_most ty id idx e
    (set_controller_list (alter f id (controller_list e)) e) ->
  differs_at_most ty id idx e (written id f e).
Proof.
  intros H. unfold written. destruct (configuring e); [apply differs_refl|done].
Qed.

Lemma Set_differs e id idx :
  (forall v, differs_at_most Button id idx e (engine_of (SetButton id idx v e))) /\
  (forall v, differs_at_most HatButton id idx e
               (engine_of (SetHatButton id idx v e))) /\
  (forall v, differs_at_most Analog id idx e (engine_of (SetAxis id idx v e))) /\
  (forall v, differs_at_most Battery id idx e (engine_of (SetBattery id v e))) /\
  (forall v, differs_at_most Motion id idx e (engine_of (SetMotion id idx v e))).
Proof.
  destruct (write_differs id idx e)
    as (Hpb & _ & _ & _ & Hb & Hh & Ha & Hm & Hbat).
  destruct (controller_list e !! id) as [c|] eqn:Hc.
  - assert (is_Some (controller_list e !! id)) as Hreg by done.
    split; [|split; [|split; [|split]]]; intros v.
    + destruct (SetButton_eq e id idx v c Hc) as [(f & _ & ->)|[_ ->]].
      * exact Hpb.
      * apply written_differs, Hb.
    + rewrite SetHatButton_eq by done. apply written_differs, Hh.
    + rewrite SetAxis_eq by done. apply written_differs, Ha.
    + rewrite SetBattery_eq by done. apply written_differs, Hbat.
    + rewrite SetMotion_trace by done. apply written_differs, Hm.
  - destruct (Set_absent e id idx Hc) as (Eb & Eh & Ea & Ebat & Em).
    split; [|split; [|split; [|split]]]; intros v;
      rewrite ?Eb, ?Eh, ?Ea, ?Ebat, ?Em; apply differs_refl.
Qed.

Lemma PreSet_differs e id idx :
  differs_at_most Button id idx e (engine_of (PreSetButton id idx e)) /\
  differs_at_most HatButton id idx e (engine_of (PreSetHatButton id idx e)) /\
  differs_at_most Analog id idx e (engine_of (PreSetAxis id idx e)) /\
  differs_at_most Motion id idx e (engine_of (PreSetMotion id idx e)).
Proof.
  destruct (write_differs id idx e) as (Hb & Hh & Ha & Hm & _).
  unfold PreSetButton, PreSetHatButton, PreSetAxis, PreSetMotion.
  destruct (controller_list e !! id) as [c|] eqn:Hc.
  - rewrite !at_then_update by done. done.
  - rewrite !controller_at_absent by done.
    split; [|split; [|split]]; apply differs_refl.
Qed.

(** X16. A mutator or a pre-set changes at most the entry it names: the
    buttons, hats, axes, motion samples and battery levels of the other
    devices, and all the other inputs of the same device, hold afterwards
    what they held before, in either mode and whether or not the device is
    registered. *)
Theorem write_changes_one_entry e id idx :
  (forall v, differs_at_most Button id idx e (engine_of (SetButton id idx v e))) /\
  (forall v, differs_at_most HatButton id idx e
               (engine_of (SetHatButton id idx v e))) /\
  (forall v, differs_at_most Analog id idx e (engine_of (SetAxis id idx v e))) /\
  (forall v, differs_at_most Battery id idx e (engine_of (SetBattery id v e))) /\
  (forall v, differs_at_most Motion id idx e (engine_of (SetMotion id idx v e))) /\
  differs_at_most Button id idx e (engine_of (PreSetButton id idx e)) /\
  differs_at_most HatButton id idx e (engine_of (PreSetHatButton id idx e)) /\
  differs_at_most Analog id idx e (engine_of (PreSetAxis id idx e)) /\
  differs_at_most Motion id idx e (engine_of (PreSetMotion id idx e)).
Proof.
  destruct (Set_differs e id idx) as (A & B & C & D & E).
  destruct (PreSet_differs e id idx) as (F & G & H & I).
  done.
Qed.

(** ** What a reset leaves alone *)

Lemma ResetButtonState_pres (P : InputEngine -> Prop) e :
  (forall id' c' b' x e2,
     controller_list e !! id' = Some c' -> buttons c' !! b' = Some x ->
     reset_inv e e2 -> P e2 -> P (engine_of (SetButton id' b' false e2))) ->
  (forall id' c' h' x e2,
     controller_list e !! id' = Some c' -> hat_buttons c' !! h' = Some x ->
     reset_inv e e2 -> P e2 -> P (engine_of (SetHatButton id' h' 0 e2))) ->
  P e -> P (engine_of (ResetButtonState e)).
Proof.
  intros Hb Hh HP. rewrite ResetButtonState_unfold.
  apply (for_each_pres (reset_inv e) P); [| |apply reset_inv_refl|done].
  - intros [id' c'] e1 Hin%elem_of_map_to_list He1.
    destruct (reset_device_buttons_inv e e1 id' c') as (? & ? & _); eauto.
  - intros [id' c'] e1 Hin%elem_of_map_to_list He1 HP1.
    destruct (device_buttons_engine e id' c' Hin e1 He1) as [-> Hinv1].
    apply (for_each_pres (reset_inv e) P); [| |done|].
    + intros [h x] e2 Hx He2. simpl.
      destruct (SetHatButton_in_reset e e2 id' h 0) as (? & ? & _); eauto.
    + intros [h x] e2 Hx%elem_of_map_to_list He2. simpl. by eapply Hh.
    + apply (for_each_pres (reset_inv e) P); [| |done|done].
      * intros [b x] e2 Hx%elem_of_map_to_list He2. simpl.
        destruct (SetButton_in_reset e e2 id' c' b false Hin) as (? & ? & _);
          eauto.
      * intros [b x] e2 Hx%elem_of_map_to_list He2. simpl. by eapply Hb.
Qed.

Lemma ResetAnalogState_pres (P : InputEngine -> Prop) e :
  (forall id' c' a' x e2,
     controller_list e !! id' = Some c' -> axes c' !! a' = Some x ->
     reset_inv e e2 -> P e2 -> P (engine_of (SetAxis id' a' f32_zero e2))) ->
  P e -> P (engine_of (ResetAnalogState e)).
Proof.
  intros Ha HP. rewrite ResetAnalogState_unfold.
  apply (for_each_pres (reset_inv e) P); [| |apply reset_inv_refl|done].
  - intros [id' c'] e1 Hin%elem_of_map_to_list He1.
    destruct (reset_device_axes_inv e e1 id' c') as (? & ? & _); eauto.
  - intros [id' c'] e1 Hin%elem_of_map_to_list He1 HP1.
    apply (for_each_pres (reset_inv e) P); [| |done|done].
    + intros [a x] e2 Hx He2. simpl.
      destruct (SetAxis_in_reset e e2 id' a f32_zero) as (? & ? & _); eauto.
    + intros [a x] e2 Hx%elem_of_map_to_list He2. simpl. by eapply Ha.
Qed.

(** X17. [ResetButtonState] leaves every axis, motion sample and battery
    level as it was and enters no button and no hat that was not in the
    table; [ResetAnalogState] leaves every button, hat, motion sample and
    battery level as it was and enters no axis. *)
Theorem Reset_leaves_the_rest e id i :
  (stored_axis (engine_of (ResetButtonState e)) id i = stored_axis e id i /\
   stored_motion (engine_of (ResetButtonState e)) id i = stored_motion e id i /\
   stored_battery (engine_of (ResetButtonState e)) id = stored_battery e id /\
   (stored_button e id i = None ->
      stored_button (engine_of (ResetButtonState e)) id i = None) /\
   (stored_hat e id i = None ->
      stored_hat (engine_of (ResetButtonState e)) id i = None)) /\
  (stored_button (engine_of (ResetAnalogState e)) id i = stored_button e id i /\
   stored_hat (engine_of (ResetAnalogState e)) id i = stored_hat e id i /\
   stored_motion (engine_of (ResetAnalogState e)) id i = stored_motion e id i /\
   stored_battery (engine_of (ResetAnalogState e)) id = stored_battery e id /\
   (stored_axis e id i = None ->
      stored_axis (engine_of (ResetAnalogState e)) id i = None)).
Proof.
  split; repeat apply conj.
  - apply (ResetButtonState_pres
             (fun e' => stored_axis e' id i = stored_axis e id i)); [| |done].
    + intros id' c' b' x e2 _ _ _ <-.
      destruct (proj1 (Set_differs e2 id' b') false) as (_ & _ & H & _).
      by destruct (H id i) as [[? _]|].
    + intros id' c' b' x e2 _ _ _ <-.
      destruct (proj1 (proj2 (Set_differs e2 id' b')) 0) as (_ & _ & H & _).
      by destruct (H id i) as [[? _]|].
  - apply (ResetButtonState_pres
             (fun e' => stored_motion e' id i = stored_motion e id i)); [| |done].
    + intros id' c' b' x e2 _ _ _ <-.
      destruct (proj1 (Set_differs e2 id' b') false) as (_ & _ & _ & H & _).
      by destruct (H id i) as [[? _]|].
    + intros id' c' b' x e2 _ _ _ <-.
      destruct (proj1 (proj2 (Set_differs e2 id' b')) 0) as (_ & _ & _ & H & _).
      by destruct (H id i) as [[? _]|].
  - apply (ResetButtonState_pres
             (fun e' => stored_battery e' id = stored_battery e id)); [| |done].
    + intros id' c' b' x e2 _ _ _ <-.
      destruct (proj1 (Set_differs e2 id' b') false) as (_ & _ & _ & _ & H).
      by destruct (H id) as [[? _]|].
    + intros id' c' b' x e2 _ _ _ <-.
      destruct (proj1 (proj2 (Set_differs e2 id' b')) 0) as (_ & _ & _ & _ & H).
      by destruct (H id) as [[? _]|].
  - intros Hnone.
    apply (ResetButtonState_pres (fun e' => stored_button e' id i = None));
      [| |done].
    + intros id' c' b' x e2 Hc' Hb' _ HP.
      destruct (proj1 (Set_differs e2 id' b') false) as (H & _).
      destruct (H id i) as [(_ & -> & ->)|Heq]; [|by rewrite Heq].
      unfold stored_button in Hnone. rewrite Hc' in Hnone. simpl in Hnone.
      congruence.
    + intros id' c' b' x e2 _ _ _ HP.
      destruct (proj1 (proj2 (Set_differs e2 id' b')) 0) as (H & _).
      destruct (H id i) as [[? _]|Heq]; [done|by rewrite Heq].
  - intros Hnone.
    apply (ResetButtonState_pres (fun e' => stored_hat e' id i = None));
      [| |done].
    + intros id' c' b' x e2 _ _ _ HP.
      destruct (proj1 (Set_differs e2 id' b') false) as (_ & H & _).
      destruct (H id i) as [[? _]|Heq]; [done|by rewrite Heq].
    + intros id' c' b' x e2 Hc' Hb' _ HP.
      destruct (proj1 (proj2 (Set_differs e2 id' b')) 0) as (_ & H & _).
      destruct (H id i) as [(_ & -> & ->)|Heq]; [|by rewrite Heq].
      unfold stored_hat in Hnone. rewrite Hc' in Hnone. simpl in Hnone.
      congruence.
  - apply (ResetAnalogState_pres
             (fun e' => stored_button e' id i = stored_button e id i)); [|done].
    intros id' c' a' x e2 _ _ _ <-.
    destruct (proj1 (proj2 (proj2 (Set_differs e2 id' a'))) f32_zero)
      as (H & _).
    by destruct (H id i) as [[? _]|].
  - apply (ResetAnalogState_pres
             (fun e' => stored_hat e' id i = stored_hat e id i)); [|done].
    intros id' c' a' x e2 _ _ _ <-.
    destruct (proj1 (proj2 (proj2 (Set_differs e2 id' a'))) f32_zero)
      as (_ & H & _).
    by destruct (H id i) as [[? _]|].
  - apply (ResetAnalogState_pres
             (fun e' => stored_motion e' id i = stored_motion e id i)); [|done].
    intros id' c' a' x e2 _ _ _ <-.
    destruct (proj1 (proj2 (proj2 (Set_differs e2 id' a'))) f32_zero)
      as (_ & _ & _ & H & _).
    by destruct (H id i) as [[? _]|].
  - apply (ResetAnalogState_pres
             (fun e' => stored_battery e' id = stored_battery e id)); [|done].
    intros id' c' a' x e2 _ _ _ <-.
    destruct (proj1 (proj2 (proj2 (Set_differs e2 id' a'))) f32_zero)
      as (_ & _ & _ & _ & H).
    by destruct (H id) as [[? _]|].
  - intros Hnone.
    apply (ResetAnalogState_pres (fun e' => stored_axis e' id i = None));
      [|done].
    intros id' c' a' x e2 Hc' Ha' _ HP.
    destruct (proj1 (proj2 (proj2 (Set_differs e2 id' a'))) f32_zero)
      as (_ & _ & H & _).
    destruct (H id i) as [(_ & -> & ->)|Heq]; [|by rewrite Heq].
    unfold stored_axis in Hnone. rewrite Hc' in Hnone. simpl in Hnone.
    congruence.
Qed.

Lemma Reset_leaves_the_rest_witness :
  stored_button engine_playing padA 9 = None /\
  stored_button (engine_of (ResetButtonState engine_playing)) padA 9 = None.
Proof.
  assert (stored_button engine_playing padA 9 = None) as Hn
    by (vm_compute; reflexivity).
  split; [exact Hn|].
  exact (proj1 (proj2 (proj2 (proj2 (proj1
    (Reset_leaves_the_rest engine_playing padA 9))))) Hn).
Defined.

(** ** A search for a binding *)

Lemma run_calls_app cs1 cs2 e :
  run_calls (cs1 ++ cs2) e = run_calls cs2 (run_calls cs1 e).
Proof. unfold run_calls. apply fold_left_app. Qed.

Lemma detection_call_keeps e c :
  configuring e = true -> detection_call e c -> engine_of (exec c e) = e.
Proof.
  intros Hcfg Hc. destruct Hc as [id b v [old Hs]|id b v|id a v|id v|id m v|c Hq].
  - simpl. rewrite (SetButton_engine e id b v old Hs).
    by apply written_configuring.
  - simpl. destruct (controller_list e !! id) as [c|] eqn:Hc.
    + rewrite SetHatButton_eq by done. by apply written_configuring.
    + by rewrite (proj1 (proj2 (Set_absent e id b Hc)) v).
  - simpl. destruct (controller_list e !! id) as [c|] eqn:Hc.
    + rewrite SetAxis_eq by done. by apply written_configuring.
    + by rewrite (proj1 (proj2 (proj2 (Set_absent e id a Hc))) v).
  - simpl. destruct (controller_list e !! id) as [c|] eqn:Hc.
    + rewrite SetBattery_eq by done. by apply written_configuring.
    + by rewrite (proj1 (proj2 (proj2 (proj2 (Set_absent e id 0 Hc)))) v).
  - simpl. destruct (controller_list e !! id) as [c|] eqn:Hc.
    + rewrite SetMotion_trace by done. by apply written_configuring.
    + by rewrite (proj2 (proj2 (proj2 (proj2 (Set_absent e id m Hc)))) v).
  - by apply exec_query.
Qed.

Lemma detection_call_mode e b c :
  detection_call e c -> detection_call (set_configuring b e) c.
Proof. intros Hc. destruct Hc; by constructor. Qed.

Lemma detection_calls_keep e cs :
  configuring e = true -> Forall (detection_call e) cs -> run_calls cs e = e.
Proof.
  intros Hcfg Hcs. induction Hcs as [|c cs Hc Hcs IH]; simpl; [done|].
  by rewrite (detection_call_keeps e c Hcfg Hc).
Qed.

(** X18. A search for a binding leaves no trace in the engine: starting
    in normal mode, [BeginConfiguration], then any mutators and queries
    (with [SetButton] on buttons that are in the table), then
    [EndConfiguration], gives back the engine that was there before. *)
Theorem configuration_session_restores e cs :
  configuring e = false ->
  Forall (detection_call e) cs ->
  run_calls (CBeginConfiguration :: cs ++ [CEndConfiguration]) e = e.
Proof.
  intros Hcfg Hcs.
  change (run_calls (cs ++ [CEndConfiguration]) (set_configuring true e) = e).
  assert (run_calls cs (set_configuring true e) = set_configuring true e)
    as Hkeep.
  { apply detection_calls_keep; [done|].
    eapply Forall_impl; [exact Hcs|]. intros c. apply detection_call_mode. }
  rewrite run_calls_app, Hkeep. simpl.
  unfold engine_of, EndConfiguration, modify. simpl.
  destruct e. simpl in *. by rewrite Hcfg.
Qed.

Lemma configuration_session_restores_witness :
  (configuring engine_playing = false /\
   Forall (detection_call engine_playing)
     [CSetButton padA 5 true; CSetAxis padA 0 f32_0_6; CGetButton padA 5]) /\
  run_calls
    (CBeginConfiguration ::
     [CSetButton padA 5 true; CSetAxis padA 0 f32_0_6; CGetButton padA 5] ++
     [CEndConfiguration]) engine_playing = engine_playing.
Proof.
  assert (configuring engine_playing = false) as Hcfg
    by (vm_compute; reflexivity).
  assert (Forall (detection_call engine_playing)
     [CSetButton padA 5 true; CSetAxis padA 0 f32_0_6; CGetButton padA 5])
    as Hcs.
  { repeat constructor. vm_compute. eexists. reflexivity. }
  split; [by split|].
  exact (configuration_session_restores engine_playing _ Hcfg Hcs).
Defined.

End InputCommon.
